(** * LeavePlanner: a shallow embedding of [leave_planner.py]

    The planner works on the fixed calendar year 2025 ([self.year = 2025]).
    A [datetime] of that year is modelled by its offset in days from
    1 January 2025, an integer: [d + timedelta(days=1)] is [d + 1], and
    the comparison of two datetimes is the comparison of their offsets.
    Offsets [-1] and [365] (31 December 2024, 1 January 2026) are reached by
    the loops of the source and are therefore legal values of the type.

    A Python call that can raise returns [option]: [None] stands for the
    uncaught exception ([KeyError] of [calendar_days[d]], [ValueError] of
    [min([])], [OverflowError] of [int] on an infinite leave balance). *)

From Stdlib Require Import ZArith QArith Lia Ascii String.
From stdpp Require Import base list gmap strings pretty sorting.

Local Open Scope Z_scope.

(** ** Dates of the year 2025 *)

Module Dates.

Abbreviation date := Z.

Definition year : Z := 2025.

(** [datetime(self.year, 1, 1)] and [datetime(self.year, 12, 31)]. *)
Definition start_date : date := 0.
Definition end_date : date := 364.

(** Lengths of the months of 2025, which is not a leap year. *)
Definition month_lengths : list Z :=
  [31; 28; 31; 30; 31; 30; 31; 31; 30; 31; 30; 31].

(** Walk the months: [locate ms m d] is the (month, day-of-month) of the
    date lying [d] days after the first day of month [m], the months from
    [m] on having the lengths [ms].  Past the table the walk stops in month
    13, which is January 2026. *)
Fixpoint locate (ms : list Z) (m : Z) (d : Z) : Z * Z :=
  match ms with
  | [] => (m, d + 1)
  | len :: rest => if d <? len then (m, d + 1) else locate rest (m + 1) (d - len)
  end.

(** [date.month] and [date.day]. *)
Definition month_of (d : date) : Z := fst (locate month_lengths 1 d).
Definition day_of (d : date) : Z := snd (locate month_lengths 1 d).

(** [date.weekday()]: Monday is 0; 1 January 2025 is a Wednesday. *)
Definition weekday (d : date) : Z := (d + 2) mod 7.

(** The dates visited by [while current_date <= end_date], starting from
    [start_date] and stepping by one day. *)
Definition year_dates : list date := seqZ start_date (end_date - start_date + 1).

(** Offset of day [dd] of month [mm] (both counted from 1), when that is a
    day of a non-leap year. *)
Fixpoint days_before (ms : list Z) (mm : nat) : Z :=
  match mm, ms with
  | S k, len :: rest => len + days_before rest k
  | _, _ => 0
  end.

Definition ordinal (dd mm : Z) : option date :=
  match month_lengths !! Z.to_nat (mm - 1) with
  | Some len =>
      if bool_decide (1 ≤ mm) && bool_decide (1 ≤ dd) && bool_decide (dd ≤ len)
      then Some (days_before month_lengths (Z.to_nat (mm - 1)) + dd - 1)
      else None
  | None => None
  end.

Definition month_abbr (m : Z) : string :=
  match m with
  | 1 => "Jan" | 2 => "Feb" | 3 => "Mar" | 4 => "Apr" | 5 => "May"
  | 6 => "Jun" | 7 => "Jul" | 8 => "Aug" | 9 => "Sep" | 10 => "Oct"
  | 11 => "Nov" | _ => "Dec"
  end%string.

(** [date.strftime('%d-%b')]: two-digit day, abbreviated month name. *)
Definition strftime_d_b (d : date) : string :=
  let dd := day_of d in
  (if Z.ltb dd 10 then "0" else "")%string +:+ pretty dd +:+ "-" +:+ month_abbr (month_of d).

End Dates.

Import Dates.

(** ** Spreadsheet data *)

(** A column label of a sheet read by [pd.read_excel]: a header cell holds
    text or a number, and the label keeps that type.  [self.cities] is the
    list of the holiday sheet's labels other than the four fixed columns. *)
Inductive Label := LStr (s : string) | LInt (z : Z).

#[global] Instance Label_eq_dec : EqDecision Label.
Proof. solve_decision. Defined.

(** One row of the holiday sheet.  [Date] is the day and the month number
    written by the ['%d-%b'] text of the [Date] column, [marked] the city
    columns whose cell is ['Holiday'] in this row. *)
Record HolidayRow := {
  Date : Z * Z;
  Holiday_Description : string;
  marked : list Label
}.

(** [{'date': date, 'description': holiday_desc}] *)
Record HolidayEntry := { h_date : date; h_description : string }.

Inductive DayType := Holiday | Weekend | Workday.

#[global] Instance DayType_eq_dec : EqDecision DayType.
Proof. solve_decision. Defined.

(** [{'type': ..., 'description': ...}] *)
Record DayInfo := { type : DayType; description : string }.

(** ** Python built-ins used by the planner *)

(** [None] of the option monad propagates, as an exception does. *)
Fixpoint foldl_opt {A B} (f : A → B → option A) (a : A) (l : list B) : option A :=
  match l with
  | [] => Some a
  | x :: l' => a' ← f a x; foldl_opt f a' l'
  end.

(** [len(l)] *)
Definition len {A} (l : list A) : Z := Z.of_nat (length l).

(** [min(l)] and [max(l)], which raise [ValueError] on the empty list. *)
Definition py_min (l : list Z) : option Z :=
  match l with
  | [] => None
  | x :: l' => Some (foldl Z.min x l')
  end.

Definition py_max (l : list Z) : option Z :=
  match l with
  | [] => None
  | x :: l' => Some (foldl Z.max x l')
  end.

(** [sorted(l, key=key, reverse=reverse)] and [l.sort(...)].  Python's sort
    is stable, also under [reverse=True]: elements of equal key keep their
    order.  It is modelled by the stable insertion sort; [lt] is the strict
    order of the keys. *)
Section Sort.
Context {A K : Type} (key : A → K) (lt : K → K → bool) (reverse : bool).

(** [precedes a b]: an element of key [a] must be placed before one of
    key [b]. *)
Definition precedes (a b : K) : bool := if reverse then lt b a else lt a b.

Fixpoint sort_insert (x : A) (l : list A) : list A :=
  match l with
  | [] => [x]
  | y :: l' => if precedes (key y) (key x) then y :: sort_insert x l' else x :: y :: l'
  end.

Fixpoint py_sort (l : list A) : list A :=
  match l with
  | [] => []
  | x :: l' => sort_insert x (py_sort l')
  end.
End Sort.

(** [sorted(l)] on dates. *)
Definition sorted (l : list date) : list date := py_sort id Z.ltb false l.

(** [a / b] on integers with [b > 0]: the quotient, kept exact. Python
    rounds it to the nearest double; the planner only compares quotients
    of small integers with each other and with 1.5, where rounding changes
    no comparison. *)
Definition truediv (a b : Z) : Q := Qmake a (Z.to_pos b).

Definition Qlt_bool (a b : Q) : bool := negb (Qle_bool b a).

(** ** The planner *)

Section Planner.

(** [self.holidays_df] *)
Variable holidays_df : list HolidayRow.

(** [_is_weekend] *)
Definition _is_weekend (d : date) : bool := weekday d >=? 5.

(** [pd.to_datetime(date_str, format='%d-%b')] followed by
    [replace(year=self.year)]: the parse succeeds on the days of the
    non-leap default year 1900, which are the days of 2025. *)
Definition to_datetime (dm : Z * Z) : option date := ordinal (fst dm) (snd dm).

(** [_get_holidays_for_city]: rows whose date does not parse are skipped.
    [city] is taken to head a column of the sheet, as every member of
    [self.cities] does; the [KeyError] of line 56 for a label that heads
    no column is left out. *)
Definition _get_holidays_for_city (city : Label) : list HolidayEntry :=
  let city_holidays := filter (λ row, city ∈ marked row) holidays_df in
  foldl (λ holidays row,
           match to_datetime (Date row) with
           | Some date => holidays ++ [{| h_date := date; h_description := Holiday_Description row |}]
           | None => holidays
           end) [] city_holidays.

(** [{h['date']: h['description'] for h in city_holidays}]: a later entry
    overwrites an earlier one of the same date. *)
Definition holiday_desc_of (city_holidays : list HolidayEntry) : gmap Z string :=
  foldl (λ m h, <[h_date h := h_description h]> m) ∅ city_holidays.

(** One iteration of the first [while] loop (lines 84-92). *)
Definition mark_day (holiday_dates : list date) (holiday_desc : gmap Z string)
    (calendar_days : gmap Z DayInfo) (current_date : date) : gmap Z DayInfo :=
  if bool_decide (current_date ∈ holiday_dates) then
    <[current_date := {| type := Holiday;
                         description := default "Holiday"%string (holiday_desc !! current_date) |}]> calendar_days
  else if _is_weekend current_date then
    <[current_date := {| type := Weekend; description := "Weekend" |}]> calendar_days
  else
    <[current_date := {| type := Workday; description := "Workday" |}]> calendar_days.

(** The calendar of a city (lines 74-92). *)
Definition build_calendar (city : Label) : gmap Z DayInfo :=
  let city_holidays := _get_holidays_for_city city in
  let holiday_dates := h_date <$> city_holidays in
  let holiday_desc := holiday_desc_of city_holidays in
  foldl (mark_day holiday_dates holiday_desc) ∅ year_dates.


(** ** Clusters and suggestions *)

(** One iteration of the second [while] loop (lines 99-111); the state is
    [(clusters, current_cluster)]. *)
Definition cluster_step (calendar_days : gmap Z DayInfo)
    (st : list (list date) * list date) (current_date : date)
    : option (list (list date) * list date) :=
  let '(clusters, current_cluster) := st in
  info ← calendar_days !! current_date;
  let '(clusters, current_cluster) :=
    if bool_decide (type info ∈ [Holiday; Weekend]) then
      (clusters, current_cluster ++ [current_date])
    else if 0 <? len current_cluster then (clusters ++ [current_cluster], [])
    else (clusters, current_cluster) in
  let current_date := current_date + 1 in
  if (day_of current_date =? 1) && (0 <? len current_cluster)
  then Some (clusters ++ [current_cluster], [])
  else Some (clusters, current_cluster).

(** The Cluster Finder (lines 94-115). *)
Definition find_clusters (calendar_days : gmap Z DayInfo) : option (list (list date)) :=
  '(clusters, current_cluster) ← foldl_opt (cluster_step calendar_days) ([], []) year_dates;
  Some (if 0 <? len current_cluster then clusters ++ [current_cluster] else clusters).

(** The two scanning loops (lines 135-139 and 144-148).  Each stops once
    two dates are collected, so two iterations are all it can make; [fuel]
    bounds the iterations and [None] is also the answer of exhausted fuel. *)
Fixpoint scan_before (fuel : nat) (calendar_days : gmap Z DayInfo)
    (leaves_remaining : Z) (check_date : date) (potential_before : list date)
    : option (list date) :=
  match fuel with
  | O => None
  | S fuel =>
      if (0 <? leaves_remaining) && (start_date <=? check_date) then
        info ← calendar_days !! check_date;
        if bool_decide (type info = Workday) then
          let potential_before := potential_before ++ [check_date] in
          let check_date := check_date - 1 in
          if 2 <=? len potential_before then Some potential_before
          else scan_before fuel calendar_days leaves_remaining check_date potential_before
        else Some potential_before
      else Some potential_before
  end.

Fixpoint scan_after (fuel : nat) (calendar_days : gmap Z DayInfo)
    (leaves_remaining : Z) (check_date : date) (potential_after : list date)
    : option (list date) :=
  match fuel with
  | O => None
  | S fuel =>
      if (0 <? leaves_remaining) && (check_date <=? end_date) then
        info ← calendar_days !! check_date;
        if bool_decide (type info = Workday) then
          let potential_after := potential_after ++ [check_date] in
          let check_date := check_date + 1 in
          if 2 <=? len potential_after then Some potential_after
          else scan_after fuel calendar_days leaves_remaining check_date potential_after
        else Some potential_after
      else Some potential_after
  end.

Definition scan_fuel : nat := 2.

(** The entries of [leave_suggestions]. *)
Record LeaveSuggestion := {
  start_date : date;
  end_date : date;
  leaves_used : Z;
  total_days_off : Z;
  value : Q;
  leave_dates : list date;
  holiday_info : list string
}.

(** Lines 163-166: take dates while [leaves_used < leaves_to_use]; the
    state is [(leaves_used, leave_dates)]. *)
Definition take_leave (leaves_to_use : Z) (st : Z * list date) (date : date) : Z * list Dates.date :=
  let '(leaves_used, leave_dates) := st in
  if leaves_used <? leaves_to_use then (leaves_used + 1, leave_dates ++ [date])
  else (leaves_used, leave_dates).

(** Lines 170-173. *)
Definition collect_holiday_info (calendar_days : gmap Z DayInfo) (cluster : list date)
    : option (list string) :=
  foldl_opt (λ holiday_info date,
               info ← calendar_days !! date;
               Some (if bool_decide (type info = Holiday)
                     then holiday_info ++ [strftime_d_b date +:+ ": " +:+ description info]
                     else holiday_info)) [] cluster.

(** The candidate count and the value of a cluster (lines 152-154). *)
Definition leaves_to_use_of (leaves_remaining : Z) (potential_before potential_after : list date) : Z :=
  Z.min leaves_remaining (len potential_before + len potential_after).

Definition value_of (cluster : list date) (leaves_to_use : Z) : Q :=
  let days_off := len cluster + leaves_to_use in
  if 0 <? leaves_to_use then truediv days_off leaves_to_use else 0%Q.

(** The body of the [for] loop over the clusters, after the test of the
    budget (lines 128-185); the state is
    [(leave_suggestions, leaves_remaining)]. *)
Definition consider_cluster (calendar_days : gmap Z DayInfo)
    (st : list LeaveSuggestion * Z) (cluster : list date)
    : option (list LeaveSuggestion * Z) :=
  let '(leave_suggestions, leaves_remaining) := st in
  cluster_start ← py_min cluster;
  cluster_end ← py_max cluster;
  potential_before ←
    scan_before scan_fuel calendar_days leaves_remaining (cluster_start - 1) [];
  potential_after ←
    scan_after scan_fuel calendar_days leaves_remaining (cluster_end + 1) [];
  if bool_decide (potential_before ≠ []) || bool_decide (potential_after ≠ []) then
    let leaves_to_use := leaves_to_use_of leaves_remaining potential_before potential_after in
    let value := value_of cluster leaves_to_use in
    if Qle_bool (3 # 2) value then
      let all_potential := sorted (potential_before ++ potential_after) in
      let '(leaves_used, leave_dates) := foldl (take_leave leaves_to_use) (0, []) all_potential in
      if bool_decide (leave_dates ≠ []) then
        holiday_info ← collect_holiday_info calendar_days cluster;
        let total_period := sorted (cluster ++ leave_dates) in
        first_day ← py_min total_period;
        last_day ← py_max total_period;
        Some (leave_suggestions ++
                [{| start_date := first_day;
                    end_date := last_day;
                    leaves_used := leaves_used;
                    total_days_off := len total_period;
                    value := value;
                    leave_dates := sorted leave_dates;
                    holiday_info := holiday_info |}],
              leaves_remaining - leaves_used)
      else Some st
    else Some st
  else Some st.

(** The [for] loop over the clusters, with its [break] (lines 124-185). *)
Fixpoint allocate (calendar_days : gmap Z DayInfo) (clusters : list (list date))
    (st : list LeaveSuggestion * Z) : option (list LeaveSuggestion * Z) :=
  match clusters with
  | [] => Some st
  | cluster :: rest =>
      if st.2 <=? 0 then Some st
      else st' ← consider_cluster calendar_days st cluster;
           allocate calendar_days rest st'
  end.

(** [clusters.sort(key=len, reverse=True)] *)
Definition sort_clusters (clusters : list (list date)) : list (list date) :=
  py_sort len Z.ltb true clusters.

(** [leave_suggestions.sort(key=lambda x: x['value'], reverse=True)] *)
Definition sort_suggestions (l : list LeaveSuggestion) : list LeaveSuggestion :=
  py_sort value Qlt_bool true l.

(** The suggestions before the final sort, with the budget left. *)
Definition produce (city : Label) (available_leaves : Z)
    : option (list LeaveSuggestion * Z) :=
  let calendar_days := build_calendar city in
  clusters ← find_clusters calendar_days;
  allocate calendar_days (sort_clusters clusters) ([], available_leaves).

(** [_find_optimal_leave_periods] *)
Definition _find_optimal_leave_periods (city : Label) (available_leaves : Z)
    : option (list LeaveSuggestion) :=
  st ← produce city available_leaves;
  Some (sort_suggestions st.1).

End Planner.

(** ** The plan assembler *)

(** A cell of the employee sheet: an integer, text, the [nan] pandas
    gives for an empty cell, a finite float (by its exact value), an
    infinite float, or [None]. *)
Inductive Cell :=
  | CellInt (z : Z)
  | CellStr (s : string)
  | CellNaN
  | CellFloat (q : Q)
  | CellInf (negative : bool)
  | CellNone.

(** The exceptions [int] raises, and what a call of [int] comes to. *)
Inductive PyExc := ValueError | TypeError | OverflowError.

Inductive IntOutcome := Returned (n : Z) | Raised (e : PyExc).

(** Two built-ins depend on the Python at hand (its Unicode tables, its
    limit on the digits of an integer literal, its float formatting) and
    are parameters of the model: [int(s)] for text [s], where [None] is
    [ValueError], and [str(x)] for a finite float [x]. *)
Class PyBuiltins := {
  int_of_text : string → option Z;
  repr_float : Q → string
}.

Module PyStr.

Definition is_space (a : ascii) : bool :=
  bool_decide (a ∈ [" "; "009"; "010"; "011"; "012"; "013"]%char).

Definition digit_val (a : ascii) : option Z :=
  let n := Z.of_N (Ascii.N_of_ascii a) in
  if (48 <=? n) && (n <=? 57) then Some (n - 48) else None.

Fixpoint lstrip (s : list ascii) : list ascii :=
  match s with
  | a :: s' => if is_space a then lstrip s' else s
  | [] => []
  end.

Definition strip (s : list ascii) : list ascii := rev (lstrip (rev (lstrip s))).

(** Decimal digits, single underscores allowed between two digits. *)
Fixpoint digits (s : list ascii) (acc : Z) (after_digit : bool) : option Z :=
  match s with
  | [] => if after_digit then Some acc else None
  | a :: s' =>
      if bool_decide (a = "_"%char) then
        if after_digit then digits s' acc false else None
      else
        match digit_val a with
        | Some v => digits s' (10 * acc + v) true
        | None => None
        end
  end.

(** A sample of [int(s)], for short ASCII text [s]: blanks around an
    optional sign and decimal digits; [None] is [ValueError]. *)
Definition int_of_string (s : string) : option Z :=
  match strip (list_ascii_of_string s) with
  | "-"%char :: ds => Z.opp <$> digits ds 0 false
  | "+"%char :: ds => digits ds 0 false
  | ds => digits ds 0 false
  end.

(** [s.lower()] for text of ASCII characters. *)
Definition lower_ascii (a : ascii) : ascii :=
  let n := Ascii.N_of_ascii a in
  if ((65 <=? n) && (n <=? 90))%N then Ascii.ascii_of_N (n + 32) else a.

Fixpoint lower (s : string) : string :=
  match s with
  | EmptyString => EmptyString
  | String a s' => String (lower_ascii a) (lower s')
  end.

(** [a in b] on strings: [a] occurs in [b] as a contiguous substring. *)
Fixpoint contains (b a : string) : bool :=
  String.prefix a b ||
  match b with
  | EmptyString => false
  | String _ b' => contains b' a
  end.

End PyStr.

Section Builtins.

Context {builtins : PyBuiltins}.

(** [int(x)]: a float is truncated toward zero, [nan] is refused with
    [ValueError], an infinite float with [OverflowError], [None] with
    [TypeError]. *)
Definition py_int (x : Cell) : IntOutcome :=
  match x with
  | CellInt z => Returned z
  | CellStr s =>
      match int_of_text s with
      | Some n => Returned n
      | None => Raised ValueError
      end
  | CellNaN => Raised ValueError
  | CellFloat q => Returned (Z.quot (Qnum q) (Z.pos (Qden q)))
  | CellInf _ => Raised OverflowError
  | CellNone => Raised TypeError
  end.

(** [str(x)] *)
Definition str_of_cell (x : Cell) : string :=
  match x with
  | CellInt z => pretty z
  | CellStr s => s
  | CellNaN => "nan"
  | CellFloat q => repr_float q
  | CellInf negative => if negative then "-inf" else "inf"
  | CellNone => "None"
  end.

Definition str_of_label (l : Label) : string :=
  match l with
  | LStr s => s
  | LInt z => pretty z
  end.

(** Truth value of a label in [if matched_city:]. *)
Definition truthy (l : Label) : bool :=
  match l with
  | LStr s => negb (String.eqb s "")
  | LInt z => negb (z =? 0)
  end.

(** A row of the employee sheet, by the four columns the planner reads. *)
Record EmployeeRow := {
  emp_name : Cell;
  emp_id : Cell;
  emp_city : Cell;
  emp_leaves : Cell
}.

(** What the planner prints while it assembles the plans. *)
Inductive Printed :=
  | Warning_invalid_leave (name leaves : Cell)
  | Warning_city_not_found (city : string) (cities : list Label)
  | Found_potential_match (city : string) (matched_city : Label).

(** An entry of [results]; the keys ['Status'] and ['Available Leaves']
    are each present in one of the two shapes only. *)
Record PlanResult := {
  Employee_Name : Cell;
  Employee_ID : Cell;
  City : Label;
  Status : option string;
  Available_Leaves : option Z;
  Suggestions : list LeaveSuggestion
}.

Section Assembler.

(** [self.cities] and the optimizer the assembler calls. *)
Variable cities : list Label.
Variable optimizer : Label → Z → option (list LeaveSuggestion).

(** Lines 201-205: [except (ValueError, TypeError)] catches two of the
    exceptions of [int]; any other leaves the function, which is [None]. *)
Definition resolve_leaves (employee : EmployeeRow) : option (Z * list Printed) :=
  match py_int (emp_leaves employee) with
  | Returned n => Some (n, [])
  | Raised ValueError | Raised TypeError =>
      Some (10, [Warning_invalid_leave (emp_name employee) (emp_leaves employee)])
  | Raised OverflowError => None
  end.

(** The test of line 218: one name occurs in the other, letter case
    apart. *)
Definition similar (city : string) (holiday_city : Label) : bool :=
  let holiday_city_str := str_of_label holiday_city in
  PyStr.contains (PyStr.lower holiday_city_str) (PyStr.lower city)
  || PyStr.contains (PyStr.lower city) (PyStr.lower holiday_city_str).

(** Lines 214-221: [matched_city] is the first city that passes the test,
    [None] when there is none. *)
Fixpoint find_match (city : string) (candidates : list Label) : option Label :=
  match candidates with
  | [] => None
  | holiday_city :: rest =>
      if similar city holiday_city then Some holiday_city
      else find_match city rest
  end.

Definition city_error_status (city : string) : string :=
  "Error: City '" +:+ city +:+ "' not found in holiday list".

(** The body of the loop over the employees (lines 196-243); the state is
    [(results, printed)]. *)
Definition plan_employee (st : list PlanResult * list Printed) (employee : EmployeeRow)
    : option (list PlanResult * list Printed) :=
  let '(results, printed) := st in
  let name := emp_name employee in
  '(available_leaves, warned) ← resolve_leaves employee;
  let printed := printed ++ warned in
  let city := str_of_cell (emp_city employee) in
  let plan (city : Label) (printed : list Printed) :=
    leave_suggestions ← optimizer city available_leaves;
    Some (results ++ [{| Employee_Name := name;
                         Employee_ID := emp_id employee;
                         City := city;
                         Status := None;
                         Available_Leaves := Some available_leaves;
                         Suggestions := leave_suggestions |}], printed) in
  if bool_decide (LStr city ∉ cities) then
    let printed := printed ++ [Warning_city_not_found city cities] in
    let matched_city := find_match city cities in
    let printed :=
      match matched_city with
      | Some m => printed ++ [Found_potential_match city m]
      | None => printed
      end in
    let not_found :=
      Some (results ++ [{| Employee_Name := name;
                           Employee_ID := emp_id employee;
                           City := LStr city;
                           Status := Some (city_error_status city);
                           Available_Leaves := None;
                           Suggestions := [] |}], printed) in
    match matched_city with
    | Some m => if truthy m then plan m printed else not_found
    | None => not_found
    end
  else plan (LStr city) printed.

(** [generate_leave_plans] over the rows of [self.employees_df]. *)
Definition generate_leave_plans_with (employees_df : list EmployeeRow)
    : option (list PlanResult * list Printed) :=
  foldl_opt plan_employee ([], []) employees_df.

End Assembler.

(** [generate_leave_plans] *)
Definition generate_leave_plans (holidays_df : list HolidayRow) (cities : list Label)
    (employees_df : list EmployeeRow) : option (list PlanResult * list Printed) :=
  generate_leave_plans_with cities (_find_optimal_leave_periods holidays_df) employees_df.

End Builtins.

(** A sample of the two built-ins, for runs on concrete inputs: [int] on
    short ASCII decimal text, and floats printed by their integral part
    followed by [.0]. *)
Definition sample_builtins : PyBuiltins :=
  {| int_of_text := PyStr.int_of_string;
     repr_float := λ q, pretty (Z.quot (Qnum q) (Z.pos (Qden q))) +:+ ".0" |}.

(** ** Sample data

    A small holiday sheet, used to run the planner on concrete inputs. *)

Definition demo_rows : list HolidayRow :=
  [ {| Date := (26, 1); Holiday_Description := "Republic Day"; marked := [LStr "Mumbai"; LStr "Delhi"] |};
    {| Date := (29, 2); Holiday_Description := "Leap"; marked := [LStr "Mumbai"] |};
    {| Date := (14, 3); Holiday_Description := "Holi"; marked := [LStr "Delhi"] |};
    {| Date := (15, 8); Holiday_Description := "Independence Day"; marked := [LStr "Mumbai"] |};
    {| Date := (2, 10); Holiday_Description := "Gandhi Jayanti"; marked := [LStr "Mumbai"; LStr "Delhi"] |} ]%string.

Definition employee_na : EmployeeRow :=
  {| emp_name := CellStr "Asha"; emp_id := CellInt 1;
     emp_city := CellStr "Mumbai"; emp_leaves := CellStr "N/A" |}.

Definition employee_negative : EmployeeRow :=
  {| emp_name := CellStr "Ravi"; emp_id := CellInt 2;
     emp_city := CellStr "Mumbai"; emp_leaves := CellInt (-3) |}.

Definition employee_atlantis : EmployeeRow :=
  {| emp_name := CellStr "Mira"; emp_id := CellInt 3;
     emp_city := CellStr "Atlantis"; emp_leaves := CellInt 4 |}.

(** A balance that is an infinite float. *)
Definition employee_inf : EmployeeRow :=
  {| emp_name := CellStr "Omar"; emp_id := CellInt 6;
     emp_city := CellStr "Mumbai"; emp_leaves := CellInf false |}.

(** Offices named by numbers: the city columns of the holiday sheet are
    headed 0 and 1, and the employees' city cells hold the same numbers. *)
Definition numbered_cities : list Label := [LInt 0; LInt 1].

Definition employee_zero : EmployeeRow :=
  {| emp_name := CellStr "Kiran"; emp_id := CellInt 4;
     emp_city := CellInt 0; emp_leaves := CellInt 6 |}.

Definition employee_one : EmployeeRow :=
  {| emp_name := CellStr "Leela"; emp_id := CellInt 5;
     emp_city := CellInt 1; emp_leaves := CellInt 6 |}.

(** ** Definitions used to state the properties *)

(** The classification of section 4.1, as the specification words it:
    Holiday if a holiday record of the city falls on the date's month and
    day, else Weekend on a Saturday or a Sunday, else Workday. *)
Definition classification_spec (holidays_df : list HolidayRow) (city : Label)
    (d : date) : DayType :=
  if bool_decide (Exists (λ row, city ∈ marked row ∧
                                 ordinal (Date row).1 (Date row).2 = Some d) holidays_df)
  then Holiday
  else if bool_decide (weekday d = 5 ∨ weekday d = 6) then Weekend
  else Workday.

(** [in_order key lt reverse x y]: the sort may leave [x] before [y]. *)
Definition in_order {A K} (key : A → K) (lt : K → K → bool) (reverse : bool)
    (x y : A) : Prop :=
  precedes lt reverse (key y) (key x) = false.

(** The record [mark_day] stores for a date. *)
Definition day_info_of (holiday_dates : list date) (holiday_desc : gmap Z string)
    (d : date) : DayInfo :=
  if bool_decide (d ∈ holiday_dates) then
    {| type := Holiday; description := default "Holiday"%string (holiday_desc !! d) |}
  else if _is_weekend d then {| type := Weekend; description := "Weekend" |}
  else {| type := Workday; description := "Workday" |}.

(** Day types read from a calendar. *)
Definition day_off (cal : gmap Z DayInfo) (d : date) : Prop :=
  ∃ info, cal !! d = Some info ∧ type info ∈ [Holiday; Weekend].

Definition workday (cal : gmap Z DayInfo) (d : date) : Prop :=
  ∃ info, cal !! d = Some info ∧ type info = Workday.

(** A calendar that classifies every date of the year. *)
Definition covers_year (cal : gmap Z DayInfo) : Prop :=
  ∀ d : date, 0 ≤ d ≤ 364 → is_Some (cal !! d).

(** The invariant of a cluster (section 3): not empty, made of days off,
    consecutive ascending dates of the year, all of one month. *)
Record cluster_ok (cal : gmap Z DayInfo) (c : list date) : Prop := {
  ok_nonempty : c ≠ [];
  ok_days_off : ∀ d, d ∈ c → day_off cal d;
  ok_consecutive : ∃ a, c = seqZ a (len c);
  ok_in_year : ∀ d, d ∈ c → 0 ≤ d ≤ 364;
  ok_one_month : ∀ d1 d2, d1 ∈ c → d2 ∈ c → month_of d1 = month_of d2
}.

(** Clusters in chronological order: every date of an earlier cluster is
    before every date of a later one. *)
Definition chronological (clusters : list (list date)) : Prop :=
  ∀ (i j : nat) ci cj, (i < j)%nat →
    clusters !! i = Some ci → clusters !! j = Some cj →
    ∀ x y, x ∈ ci → y ∈ cj → x < y.

Definition pairwise_disjoint (clusters : list (list date)) : Prop :=
  ∀ (i j : nat) ci cj, i ≠ j →
    clusters !! i = Some ci → clusters !! j = Some cj →
    ∀ x, x ∈ ci → x ∉ cj.

(** The state of the cluster loop when [n] is the next date to visit. *)
Definition cluster_base (cal : gmap Z DayInfo) (n : Z)
    (st : list (list date) * list date) : Prop :=
  Forall (cluster_ok cal) st.1 ∧
  StronglySorted Z.lt (concat st.1 ++ st.2) ∧
  (∀ d, d ∈ concat st.1 ++ st.2 → 0 ≤ d < n) ∧
  st.2 = seqZ (n - len st.2) (len st.2) ∧
  (∀ d, d ∈ st.2 → day_off cal d).

Definition in_month (m : Z) (c : list date) : Prop := ∀ d, d ∈ c → month_of d = m.

(** Candidate bridge days: a run of at most two workdays of the year that
    starts at [d] and goes on in direction [step] (the day before a
    cluster's first date and backward, or the day after its last date and
    forward). *)
Definition bridge_run (cal : gmap Z DayInfo) (d step : Z) (run : list date) : Prop :=
  run `prefix_of` [d; d + step] ∧
  ∀ x, x ∈ run → workday cal x ∧ 0 ≤ x ≤ 364.

(** The acceptance test of the loop body (lines 151 and 156) for the
    candidates found around a cluster. *)
Definition accepted (leaves_remaining : Z) (cluster potential_before potential_after : list date)
    : bool :=
  (bool_decide (potential_before ≠ []) || bool_decide (potential_after ≠ [])) &&
  Qle_bool (3 # 2)
    (value_of cluster (leaves_to_use_of leaves_remaining potential_before potential_after)).

(** The suggestion built for an accepted cluster (lines 158-184). *)
Record emitted (cal : gmap Z DayInfo) (leaves_remaining : Z)
    (cluster potential_before potential_after : list date) (s : LeaveSuggestion) : Prop := {
  em_leaves_used :
    leaves_used s = leaves_to_use_of leaves_remaining potential_before potential_after;
  em_leave_dates :
    leave_dates s =
      take (Z.to_nat (leaves_to_use_of leaves_remaining potential_before potential_after))
           (sorted (potential_before ++ potential_after));
  em_total_days_off : total_days_off s = len (sorted (cluster ++ leave_dates s));
  em_value :
    value s = value_of cluster
                (leaves_to_use_of leaves_remaining potential_before potential_after);
  em_start_date : py_min (sorted (cluster ++ leave_dates s)) = Some (start_date s);
  em_end_date : py_max (sorted (cluster ++ leave_dates s)) = Some (end_date s);
  em_holiday_info : collect_holiday_info cal cluster = Some (holiday_info s)
}.

(** [s] is the suggestion the loop body appends for [cluster] at some
    positive remaining budget. *)
Definition built_for (cal : gmap Z DayInfo) (cluster : list date) (s : LeaveSuggestion) : Prop :=
  ∃ leaves_remaining, 0 < leaves_remaining ∧
    consider_cluster cal ([], leaves_remaining) cluster =
      Some ([s], leaves_remaining - leaves_used s).

(** The days off of a suggestion, as a set: [set(cluster) | set(leave_dates)]. *)
Definition days_off_set (cluster leave_dates : list date) : gset Z :=
  list_to_set cluster ∪ list_to_set leave_dates.

(** Sum of [leaves_used] over a list of suggestions. *)
Definition total_leaves (l : list LeaveSuggestion) : Z :=
  foldr (λ s acc, leaves_used s + acc) 0 l.

Section AssemblerTerms.

Context {builtins : PyBuiltins}.

(** The result recorded for an employee whose city is not found. *)
Definition city_not_found_result (employee : EmployeeRow) : PlanResult :=
  {| Employee_Name := emp_name employee;
     Employee_ID := emp_id employee;
     City := LStr (str_of_cell (emp_city employee));
     Status := Some (city_error_status (str_of_cell (emp_city employee)));
     Available_Leaves := None;
     Suggestions := [] |}.

(** The budget of section 4.4: the parsed balance, or 10. *)
Definition budget_of (employee : EmployeeRow) : Z :=
  match py_int (emp_leaves employee) with
  | Returned n => n
  | Raised _ => 10
  end.

(** What line 204 prints for an employee: nothing when [int] returns. *)
Definition leave_warning (employee : EmployeeRow) : list Printed :=
  match py_int (emp_leaves employee) with
  | Returned _ => []
  | Raised _ => [Warning_invalid_leave (emp_name employee) (emp_leaves employee)]
  end.

(** [int] accepts the balance, or refuses it with an exception that line
    203 catches. *)
Definition balance_handled (employee : EmployeeRow) : Prop :=
  py_int (emp_leaves employee) ≠ Raised OverflowError.

Definition is_invalid_leave_warning (p : Printed) : bool :=
  match p with
  | Warning_invalid_leave _ _ => true
  | _ => false
  end.

End AssemblerTerms.

(** ** Column detection and the report *)

(** What [__init__] prints while it looks for a column. *)
Inductive InitPrinted :=
  | Warning_no_column (possible_names : list string) (first_column : Label).

(** The loop of [_find_column] (lines 42-44): the first of the possible
    names that is a column; [columns] is [df.columns]. *)
Fixpoint first_known_name (possible_names : list string) (columns : list Label)
    : option string :=
  match possible_names with
  | name :: rest =>
      if bool_decide (LStr name ∈ columns) then Some name
      else first_known_name rest columns
  | [] => None
  end.

(** [_find_column].  [df.columns[0]] raises [IndexError] on a frame
    without columns: [None]. *)
Definition _find_column (possible_names : list string) (columns : list Label)
    : option (Label * list InitPrinted) :=
  match first_known_name possible_names columns with
  | Some name => Some (LStr name, [])
  | None =>
      first ← columns !! 0%nat;
      Some (first, [Warning_no_column possible_names first])
  end.

(** The columns of the holiday sheet that are not city columns. *)
Definition fixed_columns : list Label :=
  [LStr "SI No"; LStr "Holiday Description"; LStr "Date"; LStr "Day"].

(** Line 27: [self.cities]. *)
Definition detect_cities (columns : list Label) : list Label :=
  filter (λ col, col ∉ fixed_columns) columns.

(** [', '.join(l)] *)
Fixpoint join_comma (l : list string) : string :=
  match l with
  | [] => ""
  | [x] => x
  | x :: rest => x +:+ ", " +:+ join_comma rest
  end.

(** [d.strftime('%d-%b-%Y')] *)
Definition strftime_d_b_Y (d : date) : string :=
  strftime_d_b d +:+ "-" +:+ pretty year.

Module Out.

(** A row of [output_rows]; a cell that holds either a number or the empty
    text is a [Cell]. *)
Record Row := {
  Employee_Name : Cell;
  Employee_ID : Cell;
  City : Label;
  Available_Leaves : Z;
  Suggestion : string;
  Start_Date : string;
  End_Date : string;
  Leaves_Required : Cell;
  Total_Days_Off : Cell;
  Leave_Dates : string;
  Holiday_Information : string
}.

End Out.

(** Lines 261-273: the row of an employee without suggestions. *)
Definition no_plan_row (employee : PlanResult) : Out.Row :=
  {| Out.Employee_Name := Employee_Name employee;
     Out.Employee_ID := Employee_ID employee;
     Out.City := City employee;
     Out.Available_Leaves := default 0 (Available_Leaves employee);
     Out.Suggestion := "No optimal leave periods found";
     Out.Start_Date := "";
     Out.End_Date := "";
     Out.Leaves_Required := CellStr "";
     Out.Total_Days_Off := CellStr "";
     Out.Leave_Dates := "";
     Out.Holiday_Information := "" |}.

(** Lines 277-289: the row of the suggestion of index [i]. *)
Definition option_row (employee : PlanResult) (i : nat) (suggestion : LeaveSuggestion)
    : Out.Row :=
  {| Out.Employee_Name := Employee_Name employee;
     Out.Employee_ID := Employee_ID employee;
     Out.City := City employee;
     Out.Available_Leaves := default 0 (Available_Leaves employee);
     Out.Suggestion := "Option " +:+ pretty (Z.of_nat i + 1);
     Out.Start_Date := strftime_d_b_Y (start_date suggestion);
     Out.End_Date := strftime_d_b_Y (end_date suggestion);
     Out.Leaves_Required := CellInt (leaves_used suggestion);
     Out.Total_Days_Off := CellInt (total_days_off suggestion);
     Out.Leave_Dates := join_comma (strftime_d_b_Y <$> leave_dates suggestion);
     Out.Holiday_Information := join_comma (holiday_info suggestion) |}.

(** The rows one employee adds to [output_rows] (lines 254-289). *)
Definition employee_rows (employee : PlanResult) : list Out.Row :=
  if bool_decide (Suggestions employee = []) then [no_plan_row employee]
  else imap (option_row employee) (take 3 (Suggestions employee)).

(** [output_rows] for the list of results. *)
Definition output_rows (results : list PlanResult) : list Out.Row :=
  foldl (λ rows employee, rows ++ employee_rows employee) [] results.


(** The boundaries of a maximal cluster: on its left the start of the
    year, the first day of a month, or a workday; on its right the end of
    the year, the last day of a month, or a workday. *)
Definition left_edge (cal : gmap Z DayInfo) (a : date) : Prop :=
  a = 0 ∨ day_of a = 1 ∨ workday cal (a - 1).

Definition right_edge (cal : gmap Z DayInfo) (e : date) : Prop :=
  e = 364 ∨ day_of (e + 1) = 1 ∨ workday cal (e + 1).

Definition cluster_maximal (cal : gmap Z DayInfo) (c : list date) : Prop :=
  ∃ a, c = seqZ a (len c) ∧ left_edge cal a ∧ right_edge cal (a + len c - 1).

(** What the cluster loop has collected when [n] is the next date to
    visit: every day off before [n], in clusters that are maximal. *)
Definition cluster_extra (cal : gmap Z DayInfo) (n : Z)
    (st : list (list date) * list date) : Prop :=
  (∀ d, 0 ≤ d < n → day_off cal d → d ∈ concat st.1 ++ st.2) ∧
  Forall (cluster_maximal cal) st.1 ∧
  left_edge cal (n - len st.2).

(** The entry a row of the holiday sheet gives for a city, if any. *)
Definition entry_of (city : Label) (row : HolidayRow) : option HolidayEntry :=
  if bool_decide (city ∈ marked row) then
    (λ d, {| h_date := d; h_description := Holiday_Description row |}) <$>
      to_datetime (Date row)
  else None.

(** The line of [holiday_info] a date of a cluster gives, if any. *)
Definition holiday_line (cal : gmap Z DayInfo) (d : date) : option string :=
  info ← cal !! d;
  if bool_decide (type info = Holiday)
  then Some (strftime_d_b d +:+ ": " +:+ description info)
  else None.

Section ResultShapes.

Context {builtins : PyBuiltins}.

(** The two shapes of an entry of [results] for an employee. *)
Definition planned_for (cities : list Label)
    (optimizer : Label → Z → option (list LeaveSuggestion))
    (e : EmployeeRow) (r : PlanResult) : Prop :=
  Status r = None ∧ City r ∈ cities ∧
  Available_Leaves r = Some (budget_of e) ∧
  optimizer (City r) (budget_of e) = Some (Suggestions r).

Definition not_found_for (cities : list Label) (e : EmployeeRow) (r : PlanResult) : Prop :=
  r = city_not_found_result e ∧ LStr (str_of_cell (emp_city e)) ∉ cities.

End ResultShapes.

(** The leave days a row of the report asks for. *)
Definition row_leaves (row : Out.Row) : Z :=
  match Out.Leaves_Required row with
  | CellInt n => n
  | _ => 0
  end.

Definition report_leaves (rows : list Out.Row) : Z :=
  foldr (λ row acc, row_leaves row + acc) 0 rows.

(** * Properties *)

(** ** Runs on the sample data *)

Example run_dates :
  (month_of 364, day_of 364, day_of 365, ordinal 26 1, ordinal 29 2, weekday 0) =
  (12, 31, 1, Some 25, None, 2).
Proof. reflexivity. Qed.

Example run_calendar :
  (build_calendar demo_rows (LStr "Mumbai") !! 25,
   build_calendar demo_rows (LStr "Mumbai") !! 23,
   build_calendar demo_rows (LStr "Mumbai") !! 365) =
  (Some {| type := Holiday; description := "Republic Day" |},
   Some {| type := Workday; description := "Workday" |},
   None).
Proof. vm_compute. reflexivity. Qed.

(** 31 May and 1 June 2025 are a Saturday and a Sunday: two clusters. *)
Example run_clusters :
  (λ l, filter (λ c, 143 ≤ default 0 (head c) ≤ 158) l) <$>
    find_clusters (build_calendar demo_rows (LStr "Mumbai")) =
  Some [[143; 144]; [150]; [151]; [157; 158]].
Proof. vm_compute. reflexivity. Qed.

Example run_optimizer :
  _find_optimal_leave_periods demo_rows (LStr "Mumbai") 5 =
  Some [ {| start_date := 1; end_date := 4; leaves_used := 1; total_days_off := 3;
            value := 3 # 1; leave_dates := [1]; holiday_info := [] |};
         {| start_date := 224; end_date := 230; leaves_used := 4; total_days_off := 7;
            value := 7 # 4; leave_dates := [224; 225; 229; 230];
            holiday_info := ["15-Aug: Independence Day"%string] |} ].
Proof. vm_compute. reflexivity. Qed.

Example run_int :
  (py_int (builtins := sample_builtins) (CellStr "N/A"),
   py_int (builtins := sample_builtins) (CellStr " 12 "),
   py_int (builtins := sample_builtins) (CellStr "-3"),
   py_int (builtins := sample_builtins) (CellStr "1_0"),
   py_int (builtins := sample_builtins) (CellStr "1__0"),
   py_int (builtins := sample_builtins) CellNaN,
   py_int (builtins := sample_builtins) (CellFloat (7 # 2)),
   py_int (builtins := sample_builtins) (CellFloat (-7 # 2)),
   py_int (builtins := sample_builtins) (CellInf false)) =
  (Raised ValueError, Returned 12, Returned (-3), Returned 10, Raised ValueError,
   Raised ValueError, Returned 3, Returned (-3), Raised OverflowError).
Proof. reflexivity. Qed.

(** The three ways out of lines 201-205: the default with a warning, the
    parsed balance, and the exception that ends the run. *)
Example run_balances :
  (resolve_leaves (builtins := sample_builtins) employee_na,
   resolve_leaves (builtins := sample_builtins) employee_negative,
   resolve_leaves (builtins := sample_builtins) employee_inf,
   generate_leave_plans (builtins := sample_builtins) demo_rows
     [LStr "Mumbai"; LStr "Delhi"] [employee_atlantis; employee_inf; employee_na]) =
  (Some (10, [Warning_invalid_leave (CellStr "Asha") (CellStr "N/A")]),
   Some (-3, []),
   None,
   None).
Proof. vm_compute. reflexivity. Qed.

Example run_similar :
  (similar "mumbai" (LStr "Mumbai"), similar "Navi Mumbai" (LStr "Mumbai"),
   similar "Atlantis" (LStr "Mumbai"), similar "banglore" (LStr "Bangalore")) =
  (true, true, false, false).
Proof. reflexivity. Qed.

(** ** Dates *)

Lemma year_dates_elem (d : date) : d ∈ year_dates ↔ 0 ≤ d ≤ 364.
Proof. unfold year_dates, Dates.start_date, Dates.end_date. rewrite elem_of_seqZ. lia. Qed.

(** A date of 2025 whose successor is not the first of a month lies in the
    month of its successor. *)
Lemma month_of_succ (d : date) :
  0 ≤ d ≤ 364 → day_of (d + 1) ≠ 1 → month_of (d + 1) = month_of d.
Proof.
  intros Hd.
  assert (H : Forall (λ d, day_of (d + 1) ≠ 1 → month_of (d + 1) = month_of d) year_dates).
  { apply (Forall_impl
             (λ d, orb (day_of (d + 1) =? 1) (month_of (d + 1) =? month_of d) = true)).
    - apply Forall_forall. intros x Hx. apply list_elem_of_In in Hx.
      revert x Hx. apply forallb_forall. vm_compute. reflexivity.
    - intros x Hx Hne. apply orb_true_iff in Hx as [Hx | Hx]; lia. }
  rewrite Forall_forall in H. apply H. by apply year_dates_elem.
Qed.

Lemma weekday_range (d : date) : 0 ≤ weekday d < 7.
Proof. unfold weekday. apply Z.mod_pos_bound. lia. Qed.

(** ** The calendar builder *)

Section CalendarFacts.

Variable holidays_df : list HolidayRow.
Variable city : Label.

Lemma holiday_dates_spec (d : date) :
  d ∈ h_date <$> _get_holidays_for_city holidays_df city ↔
  ∃ row, row ∈ holidays_df ∧ city ∈ marked row ∧ to_datetime (Date row) = Some d.
Proof.
  unfold _get_holidays_for_city.
  set (f := λ holidays row, match to_datetime (Date row) with
                            | Some date => holidays ++ [_]
                            | None => holidays end).
  assert (Hgen : ∀ l acc, d ∈ h_date <$> foldl f acc l ↔
            d ∈ h_date <$> acc ∨ ∃ row, row ∈ l ∧ to_datetime (Date row) = Some d).
  { induction l as [|row l IH]; intros acc; simpl.
    - split; [auto | intros [? | (? & Hr & _)]; [done | by apply elem_of_nil in Hr]].
    - rewrite IH. unfold f. destruct (to_datetime (Date row)) as [d'|] eqn:Hp.
      + rewrite fmap_app, elem_of_app. simpl. rewrite list_elem_of_singleton.
        split.
        * intros [[? | ->] | (r & Hr & Hd)]; [by left | right | right].
          -- exists row. split; [left | done].
          -- exists r. split; [by right | done].
        * intros [? | (r & Hr & Hd)]; [by left; left |].
          apply elem_of_cons in Hr as [-> | Hr].
          -- left; right. congruence.
          -- right. eauto.
      + split.
        * intros [? | (r & Hr & Hd)]; [by left | right]. exists r. split; [by right | done].
        * intros [? | (r & Hr & Hd)]; [by left |].
          apply elem_of_cons in Hr as [-> | Hr]; [congruence |]. right. eauto. }
  rewrite Hgen. simpl. split.
  - intros [Hnil | (row & Hr & Hd)]; [by apply elem_of_nil in Hnil |].
    apply list_elem_of_filter in Hr as [? ?]. eauto.
  - intros (row & Hr & Hc & Hd). right. exists row. split; [|done].
    by apply list_elem_of_filter.
Qed.

End CalendarFacts.

Lemma mark_day_insert hd hdesc (cal : gmap Z DayInfo) d :
  mark_day hd hdesc cal d = <[d := day_info_of hd hdesc d]> cal.
Proof.
  unfold mark_day, day_info_of.
  destruct (bool_decide (d ∈ hd)); [done |]. by destruct (_is_weekend d).
Qed.

Lemma foldl_mark_lookup hd hdesc l (cal : gmap Z DayInfo) d :
  foldl (mark_day hd hdesc) cal l !! d =
  if bool_decide (d ∈ l) then Some (day_info_of hd hdesc d) else cal !! d.
Proof.
  revert cal. induction l as [|x l IH]; intros cal; simpl.
  - done.
  - rewrite IH, mark_day_insert. case_bool_decide as Hl.
    + rewrite bool_decide_true; [done | by right].
    + destruct (decide (d = x)) as [-> | Hne].
      * rewrite bool_decide_true; [by rewrite lookup_insert_eq | left].
      * rewrite bool_decide_false; [by rewrite lookup_insert_ne |].
        rewrite elem_of_cons. intros [? | ?]; [congruence | done].
Qed.

(** The calendar is defined on the dates of the year, and on them only. *)
Lemma build_calendar_lookup rows city (d : date) :
  build_calendar rows city !! d =
  if bool_decide (0 ≤ d ≤ 364)
  then Some (day_info_of (h_date <$> _get_holidays_for_city rows city)
               (holiday_desc_of (_get_holidays_for_city rows city)) d)
  else None.
Proof.
  unfold build_calendar. rewrite foldl_mark_lookup.
  rewrite (bool_decide_ext _ _ (year_dates_elem d)).
  by case_bool_decide.
Qed.

Lemma build_calendar_total rows city (d : date) :
  0 ≤ d ≤ 364 → is_Some (build_calendar rows city !! d).
Proof. intros Hd. rewrite build_calendar_lookup, bool_decide_true; eauto. Qed.

(** C4: every date from 1 January to 31 December gets one classification
    from the calendar builder, and it is the one of the specification:
    Holiday if a holiday record of the city falls on that month and day,
    otherwise Weekend on Saturday and Sunday, otherwise Workday. The builder
    is a function, so the classification is determined by its inputs. *)
Theorem C4_calendar_classification rows city (d : date) :
  0 ≤ d ≤ 364 →
  ∃ info, build_calendar rows city !! d = Some info ∧
          (∀ info', build_calendar rows city !! d = Some info' → info' = info) ∧
          type info = classification_spec rows city d.
Proof.
  intros Hd. rewrite build_calendar_lookup, bool_decide_true by done.
  eexists. split; [done |]. split; [congruence |].
  unfold day_info_of, classification_spec.
  rewrite (bool_decide_ext _ (Exists (λ row, city ∈ marked row ∧
             ordinal (Date row).1 (Date row).2 = Some d) rows)).
  2:{ rewrite holiday_dates_spec, Exists_exists. unfold to_datetime.
      split; intros (row & Hr & Hc & Hp); exists row; auto. }
  case_bool_decide; [done |].
  unfold _is_weekend. pose proof (weekday_range d).
  destruct (weekday d >=? 5) eqn:Hw.
  - rewrite bool_decide_true; [done | lia].
  - rewrite bool_decide_false; [done | lia].
Qed.

Lemma C4_calendar_classification_witness :
  ∃ info, build_calendar demo_rows (LStr "Mumbai") !! 25 = Some info ∧
          (∀ info', build_calendar demo_rows (LStr "Mumbai") !! 25 = Some info' → info' = info) ∧
          type info = classification_spec demo_rows (LStr "Mumbai") 25.
Proof. apply (C4_calendar_classification demo_rows (LStr "Mumbai") 25). lia. Defined.

(** ** The stable sort *)

Section SortFacts.
Context {A K : Type} (key : A → K) (lt : K → K → bool) (reverse : bool).

#[local] Abbreviation prec := (precedes lt reverse).
#[local] Abbreviation ins := (sort_insert key lt reverse).
#[local] Abbreviation srt := (py_sort key lt reverse).
#[local] Abbreviation in_order := (in_order key lt reverse).

Lemma sort_insert_perm x l : ins x l ≡ₚ x :: l.
Proof.
  induction l as [|y l IH]; simpl; [done |].
  destruct (prec (key y) (key x)); [|done].
  rewrite IH. apply perm_swap.
Qed.

Lemma py_sort_perm l : srt l ≡ₚ l.
Proof.
  induction l as [|x l IH]; simpl; [done |].
  by rewrite sort_insert_perm, IH.
Qed.

Lemma py_sort_length l : length (srt l) = length l.
Proof. by rewrite py_sort_perm. Qed.

Lemma py_sort_elem x l : x ∈ srt l ↔ x ∈ l.
Proof. by rewrite py_sort_perm. Qed.

(** Stability: a sub-sequence no two elements of which the sort has to
    exchange is left as it stands. *)
Lemma sort_insert_filter (P : A → Prop) `{!∀ x, Decision (P x)} x l :
  (∀ y, y ∈ l → P x → P y → prec (key y) (key x) = false) →
  filter P (ins x l) = filter P (x :: l).
Proof.
  induction l as [|y l IH]; intros Hxy; simpl; [done |].
  destruct (prec (key y) (key x)) eqn:Hp; [|done].
  rewrite !filter_cons. rewrite IH.
  2:{ intros z Hz. apply Hxy. by right. }
  rewrite filter_cons.
  destruct (decide (P y)) as [Hy|Hy]; [|done].
  destruct (decide (P x)) as [Hx|Hx]; [|done].
  specialize (Hxy y). rewrite Hxy in Hp; [done | by left | done | done].
Qed.

Lemma py_sort_stable (P : A → Prop) `{!∀ x, Decision (P x)} l :
  (∀ x y, P x → P y → prec (key y) (key x) = false) →
  filter P (srt l) = filter P l.
Proof.
  intros HP. induction l as [|x l IH]; simpl; [done |].
  rewrite sort_insert_filter by auto.
  by rewrite !filter_cons, IH.
Qed.

(** The result is sorted when [lt] is asymmetric. *)
Hypothesis lt_asym : ∀ a b, lt a b = true → lt b a = false.

Lemma prec_asym a b : prec a b = true → prec b a = false.
Proof. unfold precedes. destruct reverse; apply lt_asym. Qed.

Lemma sort_insert_HdRel a x l :
  in_order a x → HdRel in_order a l → HdRel in_order a (ins x l).
Proof.
  intros Hax Hal. destruct l as [|y l]; simpl; [by constructor |].
  destruct (prec (key y) (key x)); constructor; [|done].
  by inversion Hal.
Qed.

Lemma sort_insert_Sorted x l : Sorted in_order l → Sorted in_order (ins x l).
Proof.
  induction 1 as [|y l Hl IH Hy]; simpl; [by repeat constructor |].
  destruct (prec (key y) (key x)) eqn:Hp.
  - constructor; [done |]. apply sort_insert_HdRel; [|done].
    by apply prec_asym.
  - constructor; [by constructor |]. by constructor.
Qed.

Lemma py_sort_Sorted l : Sorted in_order (srt l).
Proof.
  induction l as [|x l IH]; simpl; [constructor |]. by apply sort_insert_Sorted.
Qed.

(** A sorted list is left as it is. *)
Lemma py_sort_id l : Sorted in_order l → srt l = l.
Proof.
  induction 1 as [|x l Hl IH Hx]; simpl; [done |].
  rewrite IH. destruct Hx as [|y l' Hxy]; simpl; [done |].
  unfold in_order in Hxy. by rewrite Hxy.
Qed.
End SortFacts.

Lemma Sorted_take {A} (R : relation A) n l : Sorted R l → Sorted R (take n l).
Proof.
  intros Hl. revert n. induction Hl as [|x l Hl IH Hx]; intros [|n]; simpl; try constructor.
  - apply IH.
  - destruct Hx as [|y l' Hxy]; destruct n; simpl; by constructor.
Qed.

Lemma sorted_perm l : sorted l ≡ₚ l.
Proof. apply py_sort_perm. Qed.

Lemma sorted_Sorted l : Sorted (in_order id Z.ltb false) (sorted l).
Proof. apply py_sort_Sorted. intros a b. lia. Qed.

Lemma sorted_take_sorted n l : sorted (take n (sorted l)) = take n (sorted l).
Proof. apply py_sort_id, Sorted_take, sorted_Sorted. Qed.

Lemma len_app {A} (l1 l2 : list A) : len (l1 ++ l2) = len l1 + len l2.
Proof. unfold len. rewrite length_app. lia. Qed.

Lemma len_nonneg {A} (l : list A) : 0 ≤ len l.
Proof. unfold len. lia. Qed.

Lemma len_sorted l : len (sorted l) = len l.
Proof. unfold len. by rewrite sorted_perm. Qed.

(** ** The cluster finder *)

Section ClusterFacts.

Variable cal : gmap Z DayInfo.

Lemma cluster_base_flush n clusters cur m :
  n ≤ 365 → cur ≠ [] → in_month m cur →
  cluster_base cal n (clusters, cur) → cluster_base cal n (clusters ++ [cur], []).
Proof.
  intros Hn Hne Hm (Hok & Hs & Hr & Hseq & Hoff). simpl in *.
  unfold cluster_base. simpl.
  rewrite concat_app. simpl. rewrite !app_nil_r.
  split_and!; [| done | done | by rewrite seqZ_nil | by intros ? ?%elem_of_nil].
  apply Forall_app. split; [done |]. apply Forall_singleton.
  split; [done | done | eauto | | ].
  - intros d Hd. assert (0 ≤ d < n); [|lia]. apply Hr, elem_of_app. by right.
  - intros d1 d2 H1 H2. by rewrite (Hm d1), (Hm d2).
Qed.

Lemma cluster_base_next n clusters :
  cluster_base cal n (clusters, []) → cluster_base cal (n + 1) (clusters, []).
Proof.
  intros (Hok & Hs & Hr & Hseq & Hoff). simpl in *.
  split_and!; simpl; [done | done | | by rewrite seqZ_nil | done].
  intros d Hd. specialize (Hr d Hd). lia.
Qed.

Lemma cluster_base_snoc n clusters cur :
  0 ≤ n → day_off cal n →
  cluster_base cal n (clusters, cur) → cluster_base cal (n + 1) (clusters, cur ++ [n]).
Proof.
  intros Hn Hday (Hok & Hs & Hr & Hseq & Hoff). simpl in *.
  split_and!; simpl.
  - done.
  - rewrite app_assoc. apply StronglySorted_app. split_and!.
    + intros x y Hx ->%list_elem_of_singleton. specialize (Hr x Hx). lia.
    + done.
    + repeat constructor.
  - intros d. rewrite app_assoc, elem_of_app, list_elem_of_singleton.
    intros [Hd | ->]; [specialize (Hr d Hd)|]; lia.
  - rewrite len_app. change (len [n]) with 1.
    replace (n + 1 - (len cur + 1)) with (n - len cur) by lia.
    unfold len in *. rewrite (seqZ_app _ (Z.of_nat (length cur)) 1) by lia.
    rewrite <- Hseq. f_equal. replace (n - _ + _) with n by lia. done.
  - intros d [Hd | ->%list_elem_of_singleton]%elem_of_app; auto.
Qed.

Lemma cluster_step_inv n st :
  0 ≤ n ≤ 364 → is_Some (cal !! n) →
  cluster_base cal n st → in_month (month_of n) st.2 →
  ∃ st', cluster_step cal st n = Some st' ∧
         cluster_base cal (n + 1) st' ∧ in_month (month_of (n + 1)) st'.2.
Proof.
  intros Hn [info Hinfo] Hbase Hmonth. destruct st as [clusters cur]. simpl in *.
  unfold cluster_step. rewrite Hinfo. simpl.
  assert (Hphase1 : ∃ cs1 cur1,
    (if bool_decide (type info ∈ [Holiday; Weekend]) then (clusters, cur ++ [n])
     else if 0 <? len cur then (clusters ++ [cur], []) else (clusters, cur)) = (cs1, cur1)
    ∧ cluster_base cal (n + 1) (cs1, cur1) ∧ in_month (month_of n) cur1).
  { case_bool_decide as Hty.
    - eexists _, _. split; [done |]. split.
      + apply cluster_base_snoc; [lia | by exists info | done].
      + intros d [Hd | ->%list_elem_of_singleton]%elem_of_app; auto.
    - destruct (0 <? len cur) eqn:Hlen.
      + eexists _, _. split; [done |]. split; [|by intros ? ?%elem_of_nil].
        apply cluster_base_next. eapply cluster_base_flush; [lia | | done | done].
        intros ->. done.
      + destruct cur; [|done]. eexists _, _. split; [done |].
        split; [by apply cluster_base_next | done]. }
  destruct Hphase1 as (cs1 & cur1 & -> & Hb1 & Hm1).
  destruct ((day_of (n + 1) =? 1) && (0 <? len cur1)) eqn:Hflush.
  - apply andb_true_iff in Hflush as [_ Hlen]. eexists. split; [done |]. split.
    + eapply cluster_base_flush; [lia | | done | done]. intros ->. done.
    + by intros ? ?%elem_of_nil.
  - eexists. split; [done |]. split; [done |]. simpl.
    apply andb_false_iff in Hflush as [Hday | Hlen].
    + rewrite month_of_succ; [done | done | lia].
    + destruct cur1; [by intros ? ?%elem_of_nil | done].
Qed.

Lemma cluster_loop_inv (k : nat) n st :
  0 ≤ n → n + Z.of_nat k = 365 → covers_year cal →
  cluster_base cal n st → in_month (month_of n) st.2 →
  ∃ st', foldl_opt (cluster_step cal) st (seqZ n (Z.of_nat k)) = Some st' ∧
         cluster_base cal 365 st' ∧ in_month (month_of 365) st'.2.
Proof.
  revert n st. induction k as [|k IH]; intros n st Hn Hk Hcov Hb Hm.
  - simpl. replace n with 365 in * by lia. eauto.
  - rewrite seqZ_cons by lia. simpl.
    destruct (cluster_step_inv n st) as (st1 & -> & Hb1 & Hm1); [lia | apply Hcov; lia | done | done |].
    simpl. replace (Z.pred (Z.of_nat (S k))) with (Z.of_nat k) by lia.
    apply IH; [lia | lia | done | done | done].
Qed.

Lemma StronglySorted_concat_chronological (clusters : list (list date)) :
  StronglySorted Z.lt (concat clusters) → chronological clusters.
Proof.
  induction clusters as [|c cs IH]; intros Hs i j ci cj Hij Hi Hj x y Hx Hy.
  - done.
  - simpl in Hs. apply StronglySorted_app in Hs as (Hlt & _ & Hcs).
    destruct j as [|j]; [lia |]. simpl in Hj.
    destruct i as [|i]; simpl in Hi.
    + injection Hi as ->. apply Hlt; [done |].
      apply list_elem_of_In, in_concat. exists cj.
      split; apply list_elem_of_In; [|done]. by eapply list_elem_of_lookup_2.
    + eapply (IH Hcs i j); eauto. lia.
Qed.

Lemma chronological_disjoint clusters : chronological clusters → pairwise_disjoint clusters.
Proof.
  intros Hc i j ci cj Hij Hi Hj x Hx Hx'.
  destruct (decide (i < j)%nat).
  - pose proof (Hc i j ci cj ltac:(done) Hi Hj x x Hx Hx'). lia.
  - pose proof (Hc j i cj ci ltac:(lia) Hj Hi x x Hx' Hx). lia.
Qed.

(** The finder returns, and its clusters are well formed and in
    chronological order. *)
Lemma find_clusters_inv :
  covers_year cal →
  ∃ clusters, find_clusters cal = Some clusters ∧
              Forall (cluster_ok cal) clusters ∧ chronological clusters.
Proof.
  intros Hcov. unfold find_clusters, year_dates.
  destruct (cluster_loop_inv 365 0 ([], [])) as ([cs cur] & Hrun & Hb & Hm);
    [lia | lia | done | | by intros ? ?%elem_of_nil |].
  { split_and!; simpl; [constructor | constructor | by intros ? ?%elem_of_nil | done
                        | by intros ? ?%elem_of_nil]. }
  change (Dates.end_date - Dates.start_date + 1) with (Z.of_nat 365).
  change Dates.start_date with 0. rewrite Hrun. simpl.
  destruct (0 <? len cur) eqn:Hlen.
  - eexists. split; [done |].
    assert (Hf : cluster_base cal 365 (cs ++ [cur], [])).
    { eapply cluster_base_flush; [lia | | done | done]. intros ->. done. }
    destruct Hf as (Hok & Hs & _). simpl in *. rewrite app_nil_r in Hs.
    split; [done |]. by apply StronglySorted_concat_chronological.
  - destruct cur; [|done]. eexists. split; [done |].
    destruct Hb as (Hok & Hs & _). simpl in *. rewrite app_nil_r in Hs.
    split; [done |]. by apply StronglySorted_concat_chronological.
Qed.

End ClusterFacts.

(** C5: on every calendar that classifies the dates of the year, the
    cluster finder returns clusters that are each non-empty, made of Holiday
    and Weekend days only, consecutive ascending dates, all within one
    calendar month; the clusters are pairwise disjoint and appear in
    chronological order. *)
Theorem C5_cluster_finder_output (cal : gmap Z DayInfo) :
  covers_year cal →
  ∃ clusters, find_clusters cal = Some clusters ∧
    (∀ c, c ∈ clusters →
       c ≠ [] ∧
       (∀ d, d ∈ c → day_off cal d) ∧
       (∃ a, c = seqZ a (len c)) ∧
       (∀ d1 d2, d1 ∈ c → d2 ∈ c → month_of d1 = month_of d2)) ∧
    pairwise_disjoint clusters ∧
    chronological clusters.
Proof.
  intros Hcov. destruct (find_clusters_inv cal Hcov) as (clusters & Hrun & Hok & Hchr).
  exists clusters. split_and!; [done | | by apply chronological_disjoint | done].
  intros c Hc. rewrite Forall_forall in Hok. destruct (Hok c Hc). eauto.
Qed.

Lemma C5_cluster_finder_output_witness :
  ∃ clusters, find_clusters (build_calendar demo_rows (LStr "Mumbai")) = Some clusters ∧
    (∀ c, c ∈ clusters →
       c ≠ [] ∧
       (∀ d, d ∈ c → day_off (build_calendar demo_rows (LStr "Mumbai")) d) ∧
       (∃ a, c = seqZ a (len c)) ∧
       (∀ d1 d2, d1 ∈ c → d2 ∈ c → month_of d1 = month_of d2)) ∧
    pairwise_disjoint clusters ∧
    chronological clusters.
Proof.
  apply (C5_cluster_finder_output (build_calendar demo_rows (LStr "Mumbai"))).
  intros d Hd. apply build_calendar_total, Hd.
Defined.

(** ** Minimum, maximum and the scanning loops *)

Lemma foldl_min_spec (l : list Z) (x : Z) :
  (foldl Z.min x l = x ∨ foldl Z.min x l ∈ l) ∧
  foldl Z.min x l ≤ x ∧ ∀ y, y ∈ l → foldl Z.min x l ≤ y.
Proof.
  revert x. induction l as [|z l IH]; intros x; simpl.
  - split_and!; [by left | lia | by intros ? ?%elem_of_nil].
  - destruct (IH (Z.min x z)) as (Hin & Hle & Hall). split_and!.
    + destruct Hin as [-> | Hin]; [|right; by right].
      destruct (Z.min_spec x z) as [[_ ->] | [_ ->]]; [by left | right; left].
    + lia.
    + intros y [-> | Hy]%elem_of_cons; [lia | auto].
Qed.

Lemma foldl_max_spec (l : list Z) (x : Z) :
  (foldl Z.max x l = x ∨ foldl Z.max x l ∈ l) ∧
  x ≤ foldl Z.max x l ∧ ∀ y, y ∈ l → y ≤ foldl Z.max x l.
Proof.
  revert x. induction l as [|z l IH]; intros x; simpl.
  - split_and!; [by left | lia | by intros ? ?%elem_of_nil].
  - destruct (IH (Z.max x z)) as (Hin & Hle & Hall). split_and!.
    + destruct Hin as [-> | Hin]; [|right; by right].
      destruct (Z.max_spec x z) as [[_ ->] | [_ ->]]; [right; left | by left].
    + lia.
    + intros y [-> | Hy]%elem_of_cons; [lia | auto].
Qed.

Lemma py_min_spec l : l ≠ [] → ∃ m, py_min l = Some m ∧ m ∈ l ∧ ∀ y, y ∈ l → m ≤ y.
Proof.
  destruct l as [|x l]; [done |]. intros _. eexists. split; [done |].
  destruct (foldl_min_spec l x) as ([-> | Hin] & Hle & Hall).
  - split; [left |]. intros y [-> | Hy]%elem_of_cons; [lia |].
    specialize (Hall y Hy). lia.
  - split; [by right |]. intros y [-> | Hy]%elem_of_cons; auto.
Qed.

Lemma py_max_spec l : l ≠ [] → ∃ m, py_max l = Some m ∧ m ∈ l ∧ ∀ y, y ∈ l → y ≤ m.
Proof.
  destruct l as [|x l]; [done |]. intros _. eexists. split; [done |].
  destruct (foldl_max_spec l x) as ([-> | Hin] & Hle & Hall).
  - split; [left |]. intros y [-> | Hy]%elem_of_cons; [lia |].
    specialize (Hall y Hy). lia.
  - split; [by right |]. intros y [-> | Hy]%elem_of_cons; auto.
Qed.

(** The boundary dates of consecutive dates. *)
Lemma py_min_seqZ a n : 0 < n → py_min (seqZ a n) = Some a.
Proof.
  intros Hn. destruct (py_min_spec (seqZ a n)) as (m & -> & Hin & Hall).
  { rewrite seqZ_cons by done. done. }
  apply elem_of_seqZ in Hin. specialize (Hall a). rewrite elem_of_seqZ in Hall.
  f_equal. lia.
Qed.

Lemma py_max_seqZ a n : 0 < n → py_max (seqZ a n) = Some (a + n - 1).
Proof.
  intros Hn. destruct (py_max_spec (seqZ a n)) as (m & -> & Hin & Hall).
  { rewrite seqZ_cons by done. done. }
  apply elem_of_seqZ in Hin. specialize (Hall (a + n - 1)). rewrite elem_of_seqZ in Hall.
  f_equal. lia.
Qed.

Section ScanFacts.

Variable cal : gmap Z DayInfo.
Hypothesis cal_covers : covers_year cal.

Lemma lookup_workday d info :
  cal !! d = Some info → bool_decide (type info = Workday) = true → workday cal d.
Proof. intros Hl Ht%bool_decide_eq_true. by exists info. Qed.

(** Started on a date up to 31 December, the backward scan returns at most
    two workdays of the year, adjacent to its start. *)
Lemma scan_before_spec rem d :
  0 < rem → d ≤ 364 →
  ∃ before, scan_before scan_fuel cal rem d [] = Some before ∧ bridge_run cal d (-1) before.
Proof.
  intros Hrem Hd. unfold scan_fuel, bridge_run. simpl.
  replace (0 <? rem) with true by (symmetry; lia). simpl.
  destruct (Dates.start_date <=? d) eqn:Hd0.
  2:{ eexists. split; [done |]. split; [apply prefix_nil | by intros ? ?%elem_of_nil]. }
  unfold Dates.start_date in *.
  destruct (cal_covers d) as [i1 Hi1]; [lia |]. rewrite Hi1. simpl.
  destruct (bool_decide (type i1 = Workday)) eqn:Ht1.
  2:{ eexists. split; [done |]. split; [apply prefix_nil | by intros ? ?%elem_of_nil]. }
  change (2 <=? len [d]) with false. simpl.
  assert (Hone : [d] `prefix_of` [d; d + -1]) by (by exists [d + -1]).
  assert (Hw1 : ∀ x, x ∈ [d] → workday cal x ∧ 0 ≤ x ≤ 364).
  { intros x ->%list_elem_of_singleton. split; [by eapply lookup_workday | lia]. }
  destruct (0 <=? d - 1) eqn:Hd1.
  2:{ eexists. split; [done |]. done. }
  destruct (cal_covers (d - 1)) as [i2 Hi2]; [lia |]. rewrite Hi2. simpl.
  destruct (bool_decide (type i2 = Workday)) eqn:Ht2.
  2:{ eexists. split; [done |]. done. }
  change (2 <=? len [d; d - 1]) with true. simpl.
  eexists. split; [done |]. split; [done |].
  intros x [-> | ->%list_elem_of_singleton]%elem_of_cons;
    (split; [by eapply lookup_workday | lia]).
Qed.

(** Started on a date from 1 January on, the forward scan returns at most
    two workdays of the year, adjacent to its start. *)
Lemma scan_after_spec rem d :
  0 < rem → 0 ≤ d →
  ∃ after, scan_after scan_fuel cal rem d [] = Some after ∧ bridge_run cal d 1 after.
Proof.
  intros Hrem Hd. unfold scan_fuel, bridge_run. simpl.
  replace (0 <? rem) with true by (symmetry; lia). simpl.
  destruct (d <=? Dates.end_date) eqn:Hd0.
  2:{ eexists. split; [done |]. split; [apply prefix_nil | by intros ? ?%elem_of_nil]. }
  unfold Dates.end_date in *.
  destruct (cal_covers d) as [i1 Hi1]; [lia |]. rewrite Hi1. simpl.
  destruct (bool_decide (type i1 = Workday)) eqn:Ht1.
  2:{ eexists. split; [done |]. split; [apply prefix_nil | by intros ? ?%elem_of_nil]. }
  change (2 <=? len [d]) with false. simpl.
  assert (Hone : [d] `prefix_of` [d; d + 1]) by (by exists [d + 1]).
  assert (Hw1 : ∀ x, x ∈ [d] → workday cal x ∧ 0 ≤ x ≤ 364).
  { intros x ->%list_elem_of_singleton. split; [by eapply lookup_workday | lia]. }
  destruct (d + 1 <=? 364) eqn:Hd1.
  2:{ eexists. split; [done |]. done. }
  destruct (cal_covers (d + 1)) as [i2 Hi2]; [lia |]. rewrite Hi2. simpl.
  destruct (bool_decide (type i2 = Workday)) eqn:Ht2.
  2:{ eexists. split; [done |]. done. }
  change (2 <=? len [d; d + 1]) with true. simpl.
  eexists. split; [done |]. split; [done |].
  intros x [-> | ->%list_elem_of_singleton]%elem_of_cons;
    (split; [by eapply lookup_workday | lia]).
Qed.

(** More fuel changes nothing: two iterations are all a scan makes. *)
Lemma scan_before_fuel rem d (extra : nat) :
  0 < rem → d ≤ 364 →
  scan_before (scan_fuel + extra) cal rem d [] = scan_before scan_fuel cal rem d [].
Proof.
  intros Hrem Hd. unfold scan_fuel. simpl.
  destruct ((0 <? rem) && (Dates.start_date <=? d)); [|done].
  destruct (cal !! d) as [i1|]; [|done]. simpl.
  destruct (bool_decide (type i1 = Workday)); [|done].
  change (2 <=? len [d]) with false. simpl.
  destruct ((0 <? rem) && (Dates.start_date <=? d - 1)); [|done].
  destruct (cal !! (d - 1)) as [i2|]; [|done]. simpl.
  destruct (bool_decide (type i2 = Workday)); [|done]. done.
Qed.

Lemma scan_after_fuel rem d (extra : nat) :
  0 < rem → 0 ≤ d →
  scan_after (scan_fuel + extra) cal rem d [] = scan_after scan_fuel cal rem d [].
Proof.
  intros Hrem Hd. unfold scan_fuel. simpl.
  destruct ((0 <? rem) && (d <=? Dates.end_date)); [|done].
  destruct (cal !! d) as [i1|]; [|done]. simpl.
  destruct (bool_decide (type i1 = Workday)); [|done].
  change (2 <=? len [d]) with false. simpl.
  destruct ((0 <? rem) && (d + 1 <=? Dates.end_date)); [|done].
  destruct (cal !! (d + 1)) as [i2|]; [|done]. simpl.
  destruct (bool_decide (type i2 = Workday)); [|done]. done.
Qed.

End ScanFacts.

(** ** The loop body of the optimizer *)

Lemma foldl_take_leave k l u acc :
  0 ≤ u ≤ k →
  foldl (take_leave k) (u, acc) l = (Z.min k (u + len l), acc ++ take (Z.to_nat (k - u)) l).
Proof.
  revert u acc. induction l as [|x l IH]; intros u acc Hu; simpl.
  - rewrite take_nil, app_nil_r. change (len []) with 0. f_equal. lia.
  - destruct (u <? k) eqn:Hlt.
    + rewrite IH by lia. replace (Z.to_nat (k - u)) with (S (Z.to_nat (k - (u + 1)))) by lia.
      simpl. rewrite <- app_assoc. simpl. f_equal. unfold len. simpl length. lia.
    + rewrite IH by lia. replace (k - u) with 0 by lia. simpl. rewrite take_0.
      f_equal. unfold len. simpl length. lia.
Qed.

Lemma collect_holiday_info_total (cal : gmap Z DayInfo) c :
  (∀ d, d ∈ c → is_Some (cal !! d)) → is_Some (collect_holiday_info cal c).
Proof.
  unfold collect_holiday_info. intros Hc.
  match goal with |- is_Some (foldl_opt ?f _ _) => set (step := f) end.
  assert (Hgen : ∀ acc, is_Some (foldl_opt step acc c)); [|apply Hgen].
  induction c as [|d c IH]; intros acc; simpl; [eauto |].
  destruct (Hc d) as [info Hinfo]; [left |].
  subst step. simpl. rewrite Hinfo. simpl. apply IH.
  intros d' Hd'. apply Hc. by right.
Qed.

Lemma sorted_nonempty l : l ≠ [] → sorted l ≠ [].
Proof.
  intros Hl Hs. apply Hl. apply Permutation_nil. by rewrite <- Hs, sorted_perm.
Qed.

Section BodyFacts.

Variable cal : gmap Z DayInfo.
Hypothesis cal_covers : covers_year cal.

(** What the loop body does with a well-formed cluster while budget is
    left: both scans return, and either the cluster is not accepted and the
    state is unchanged, or one suggestion is appended and its leave days are
    taken from the budget. *)
Lemma consider_cluster_cases sugs rem c :
  cluster_ok cal c → 0 < rem →
  ∃ a before after,
    c = seqZ a (len c) ∧
    scan_before scan_fuel cal rem (a - 1) [] = Some before ∧
    scan_after scan_fuel cal rem (a + len c) [] = Some after ∧
    bridge_run cal (a - 1) (-1) before ∧
    bridge_run cal (a + len c) 1 after ∧
    ((accepted rem c before after = false ∧
      consider_cluster cal (sugs, rem) c = Some (sugs, rem)) ∨
     (accepted rem c before after = true ∧
      ∃ s, consider_cluster cal (sugs, rem) c = Some (sugs ++ [s], rem - leaves_used s) ∧
           emitted cal rem c before after s)).
Proof.
  intros [Hne Hoff [a Hseq] Hyear Hmonth] Hrem.
  assert (Hlen : 0 < len c).
  { destruct c; [done |]. unfold len. simpl. lia. }
  assert (Hin : ∀ x, a ≤ x < a + len c → x ∈ c).
  { intros x Hx. remember (len c) as n. rewrite Hseq. by apply elem_of_seqZ. }
  assert (Ha : 0 ≤ a ∧ a + len c - 1 ≤ 364).
  { split; [apply (Hyear a) | apply (Hyear (a + len c - 1))]; apply Hin; lia. }
  destruct (scan_before_spec cal cal_covers rem (a - 1)) as (before & Hsb & Hbb); [done | lia |].
  destruct (scan_after_spec cal cal_covers rem (a + len c)) as (after & Hsa & Hba); [done | lia |].
  exists a, before, after. split_and!; try done.
  unfold consider_cluster.
  assert (Hmin : py_min c = Some a).
  { remember (len c) as n. rewrite Hseq. by apply py_min_seqZ. }
  assert (Hmax : py_max c = Some (a + len c - 1)).
  { remember (len c) as n. rewrite Hseq. by apply py_max_seqZ. }
  rewrite Hmin, Hmax. cbn [mbind option_bind].
  replace (a + len c - 1 + 1) with (a + len c) by lia.
  rewrite Hsb, Hsa. cbn [mbind option_bind]. unfold accepted.
  destruct (bool_decide (before ≠ []) || bool_decide (after ≠ [])) eqn:Hcand; simpl;
    [|by left].
  set (k := leaves_to_use_of rem before after).
  destruct (Qle_bool (3 # 2) (value_of c k)) eqn:Hval; [|by left].
  right. split; [done |].
  assert (Hk : 1 ≤ k ≤ len (sorted (before ++ after))).
  { rewrite len_sorted, len_app. unfold k, leaves_to_use_of.
    assert (1 ≤ len before + len after); [|lia].
    pose proof (len_nonneg before). pose proof (len_nonneg after).
    apply orb_true_iff in Hcand as [Hc | Hc]; apply bool_decide_eq_true in Hc.
    - destruct before; [done |]. unfold len in *. simpl in *. lia.
    - destruct after; [done |]. unfold len in *. simpl in *. lia. }
  rewrite foldl_take_leave by lia. cbn [app].
  replace (Z.min k (0 + len (sorted (before ++ after)))) with k by lia.
  replace (k - 0) with k by lia.
  set (dates := take (Z.to_nat k) (sorted (before ++ after))).
  assert (Hdates : dates ≠ []).
  { unfold dates. destruct (sorted (before ++ after)) eqn:Hs.
    - change (len []) with 0 in Hk. lia.
    - replace (Z.to_nat k) with (S (Z.to_nat (k - 1))) by lia. done. }
  rewrite bool_decide_true by done.
  destruct (collect_holiday_info_total cal c) as [info Hinfo].
  { intros d Hd. destruct (Hoff d Hd) as (i & -> & _). eauto. }
  rewrite Hinfo. cbn [mbind option_bind].
  assert (Hdd : sorted dates = dates) by apply sorted_take_sorted.
  assert (Hperiod : sorted (c ++ dates) ≠ []).
  { apply sorted_nonempty. by destruct c. }
  destruct (py_min_spec _ Hperiod) as (lo & Hlo & _).
  destruct (py_max_spec _ Hperiod) as (hi & Hhi & _).
  rewrite Hlo, Hhi. cbn [mbind option_bind]. rewrite Hdd.
  match goal with |- ∃ s, Some (_ ++ [?r], _) = _ ∧ _ => exists r end.
  split; [reflexivity |].
  split; simpl; done.
Qed.

End BodyFacts.

Lemma prefix_two {A} (l : list A) x y :
  l `prefix_of` [x; y] → l = [] ∨ l = [x] ∨ l = [x; y].
Proof.
  intros [k Hk]. destruct l as [|a [|b [|c l]]]; simplify_eq/=; auto.
Qed.

Lemma bridge_run_elem cal d step run x :
  bridge_run cal d step run → x ∈ run → x = d ∨ x = d + step.
Proof.
  intros [Hp _] Hx. apply prefix_two in Hp as [-> | [-> | ->]].
  - by apply elem_of_nil in Hx.
  - apply list_elem_of_singleton in Hx. by left.
  - apply elem_of_cons in Hx as [-> | ->%list_elem_of_singleton]; auto.
Qed.

Lemma bridge_run_NoDup cal d step run :
  step ≠ 0 → bridge_run cal d step run → NoDup run.
Proof.
  intros Hs [Hp _]. apply prefix_two in Hp as [-> | [-> | ->]].
  - constructor.
  - apply NoDup_singleton.
  - apply NoDup_cons. split; [|apply NoDup_singleton].
    intros Hx%list_elem_of_singleton. lia.
Qed.

Lemma bridge_run_len cal d step run : bridge_run cal d step run → len run ≤ 2.
Proof.
  intros [Hp _]. apply prefix_length in Hp. unfold len. simpl in Hp. lia.
Qed.

Lemma value_of_positive c k : 0 < k → value_of c k = truediv (len c + k) k.
Proof. intros Hk. unfold value_of. by replace (0 <? k) with true by (symmetry; lia). Qed.

Section SuggestionFacts.

Variable cal : gmap Z DayInfo.
Hypothesis cal_covers : covers_year cal.

(** The suggestions do not enter the loop body's decision. *)
Lemma consider_cluster_prefix sugs rem c :
  consider_cluster cal (sugs, rem) c =
  (λ st, (sugs ++ st.1, st.2)) <$> consider_cluster cal ([], rem) c.
Proof.
  unfold consider_cluster.
  destruct (py_min c) as [a|]; [|done]. destruct (py_max c) as [e|]; [|done].
  cbn [mbind option_bind].
  destruct (scan_before _ _ _ _ _) as [before|]; [|done].
  destruct (scan_after _ _ _ _ _) as [after|]; [|done].
  cbn [mbind option_bind].
  destruct (_ || _); [|simpl; by rewrite app_nil_r].
  destruct (Qle_bool _ _); [|simpl; by rewrite app_nil_r].
  destruct (foldl _ _ _) as [used dates].
  destruct (bool_decide _); [|simpl; by rewrite app_nil_r].
  destruct (collect_holiday_info _ _); [|done]. cbn [mbind option_bind].
  destruct (py_min _); [|done]. destruct (py_max _); [|done]. done.
Qed.

(** What holds of a suggestion built for a well-formed cluster. *)
Lemma built_for_facts c s :
  cluster_ok cal c → built_for cal c s →
  ∃ rem a before after,
    0 < rem ∧ c = seqZ a (len c) ∧
    scan_before scan_fuel cal rem (a - 1) [] = Some before ∧
    scan_after scan_fuel cal rem (a + len c) [] = Some after ∧
    bridge_run cal (a - 1) (-1) before ∧
    bridge_run cal (a + len c) 1 after ∧
    accepted rem c before after = true ∧
    emitted cal rem c before after s.
Proof.
  intros Hok (rem & Hrem & Hrun).
  destruct (consider_cluster_cases cal cal_covers [] rem c Hok Hrem)
    as (a & before & after & Hseq & Hsb & Hsa & Hbb & Hba & Hcase).
  exists rem, a, before, after. split_and!; try done.
  - destruct Hcase as [[_ Hrej] | [Hacc _]]; [|done]. rewrite Hrej in Hrun. done.
  - destruct Hcase as [[_ Hrej] | [_ (s' & Hs' & Hem)]].
    + rewrite Hrej in Hrun. done.
    + rewrite Hs' in Hrun. simpl in Hrun. by simplify_eq.
Qed.

(** The arithmetic of an emitted suggestion. *)
Lemma emitted_counts rem c a before after s :
  0 < rem → cluster_ok cal c → c = seqZ a (len c) →
  bridge_run cal (a - 1) (-1) before →
  bridge_run cal (a + len c) 1 after →
  accepted rem c before after = true →
  emitted cal rem c before after s →
  1 ≤ leaves_used s ∧ leaves_used s ≤ 4 ∧ leaves_used s ≤ rem ∧
  leaves_used s = len (leave_dates s) ∧
  total_days_off s = len c + leaves_used s ∧
  NoDup (c ++ leave_dates s) ∧
  value s = truediv (total_days_off s) (leaves_used s) ∧
  Qle_bool (3 # 2) (value s) = true.
Proof.
  intros Hrem Hok Hseq Hbb Hba Hacc [Hused Hdates Htotal Hvalue _ _ _].
  set (k := leaves_to_use_of rem before after) in *.
  pose proof (bridge_run_len _ _ _ _ Hbb) as Hlb.
  pose proof (bridge_run_len _ _ _ _ Hba) as Hla.
  pose proof (len_nonneg before). pose proof (len_nonneg after).
  apply andb_true_iff in Hacc as [Hcand Hval].
  assert (Hk : 1 ≤ k ∧ k ≤ len before + len after ∧ k ≤ rem).
  { unfold k, leaves_to_use_of.
    assert (1 ≤ len before + len after); [|lia].
    apply orb_true_iff in Hcand as [Hc | Hc]; apply bool_decide_eq_true in Hc.
    - destruct before; [done |]. unfold len in *. simpl in *. lia.
    - destruct after; [done |]. unfold len in *. simpl in *. lia. }
  assert (Hlen : len (leave_dates s) = k).
  { rewrite Hdates. unfold len. rewrite length_take_le; [lia |].
    unfold sorted. rewrite py_sort_length, length_app. unfold len in Hk. lia. }
  assert (Hnd : NoDup (c ++ leave_dates s)).
  { apply NoDup_app. split_and!.
    - remember (len c) as n. rewrite Hseq. apply NoDup_seqZ.
    - intros x Hx Hx'. rewrite Hdates in Hx'. apply subseteq_take in Hx'.
      apply py_sort_elem in Hx'.
      assert (a ≤ x < a + len c).
      { remember (len c) as n. rewrite Hseq in Hx. by apply elem_of_seqZ in Hx. }
      apply elem_of_app in Hx' as [Hb | Ha].
      + apply (bridge_run_elem _ _ _ _ _ Hbb) in Hb. lia.
      + apply (bridge_run_elem _ _ _ _ _ Hba) in Ha. lia.
    - rewrite Hdates. eapply sublist_NoDup; [|apply sublist_take].
      unfold sorted. rewrite py_sort_perm. apply NoDup_app. split_and!.
      + apply (bridge_run_NoDup cal (a - 1) (-1)); [lia | done].
      + intros x Hb Ha.
        apply (bridge_run_elem _ _ _ _ _ Hbb) in Hb.
        apply (bridge_run_elem _ _ _ _ _ Hba) in Ha.
        pose proof (len_nonneg c). lia.
      + apply (bridge_run_NoDup cal (a + len c) 1); [lia | done]. }
  assert (Htot : total_days_off s = len c + k).
  { rewrite Htotal, len_sorted, len_app. lia. }
  rewrite Hused. split_and!; try lia; try done.
  - rewrite Hvalue, Htot. apply value_of_positive. lia.
  - by rewrite Hvalue.
Qed.

End SuggestionFacts.

(** ** The allocation loop *)

Lemma total_leaves_app l1 l2 : total_leaves (l1 ++ l2) = total_leaves l1 + total_leaves l2.
Proof. induction l1 as [|s l1 IH]; simpl; lia. Qed.

Lemma total_leaves_perm l1 l2 : l1 ≡ₚ l2 → total_leaves l1 = total_leaves l2.
Proof. induction 1; simpl; lia. Qed.

(** With no budget left the loop stops at once. *)
Lemma allocate_exhausted cal clusters sugs rem :
  rem ≤ 0 → allocate cal clusters (sugs, rem) = Some (sugs, rem).
Proof.
  intros Hrem. destruct clusters as [|c cs]; simpl; [done |].
  by replace (rem <=? 0) with true by (symmetry; lia).
Qed.

Section AllocateFacts.

Variable cal : gmap Z DayInfo.
Hypothesis cal_covers : covers_year cal.

Lemma allocate_spec clusters sugs rem :
  Forall (cluster_ok cal) clusters →
  ∃ new, allocate cal clusters (sugs, rem) = Some (sugs ++ new, rem - total_leaves new) ∧
         Forall (λ s, ∃ c, c ∈ clusters ∧ built_for cal c s) new ∧
         0 ≤ total_leaves new ∧
         (0 ≤ rem → total_leaves new ≤ rem) ∧
         (rem ≤ 0 → new = []).
Proof.
  intros Hok. revert sugs rem. induction Hok as [|c cs Hc Hcs IH]; intros sugs rem.
  - exists []. simpl. rewrite app_nil_r, Z.sub_0_r. split_and!; [done | done | lia | lia | done].
  - destruct (decide (rem ≤ 0)) as [Hle | Hpos].
    { exists []. rewrite allocate_exhausted by done. simpl.
      rewrite app_nil_r, Z.sub_0_r. split_and!; [done | done | lia | lia | done]. }
    cbn [allocate snd]. replace (rem <=? 0) with false by (symmetry; lia).
    rewrite consider_cluster_prefix.
    destruct (consider_cluster_cases cal cal_covers [] rem c Hc)
      as (a & before & after & Hseq & Hsb & Hsa & Hbb & Hba & Hcase); [lia |].
    destruct Hcase as [[_ Hrej] | [Hacc (s & Hs & Hem)]].
    + rewrite Hrej. cbn [fmap option_fmap option_map mbind option_bind fst snd].
      rewrite app_nil_r.
      destruct (IH sugs rem) as (new & Hrun & Hnew & Hsum & Hbud & Hnil).
      exists new. split_and!; try done.
      eapply Forall_impl; [exact Hnew |]. intros s (c' & Hc' & Hb).
      exists c'. split; [by right | done].
    + rewrite Hs. cbn [fmap option_fmap option_map mbind option_bind fst snd app].
      destruct (emitted_counts cal rem c a before after s) as (H1 & _ & Hrem & _);
        [lia | done | done | done | done | done | done |].
      destruct (IH (sugs ++ [s]) (rem - leaves_used s))
        as (new & Hrun & Hnew & Hsum & Hbud & Hnil).
      exists (s :: new). rewrite Hrun. simpl. rewrite <- app_assoc. simpl.
      split_and!.
      * do 2 f_equal. lia.
      * constructor.
        -- exists c. split; [left |]. exists rem. split; [lia | done].
        -- eapply Forall_impl; [exact Hnew |]. intros s' (c' & Hc' & Hb).
           exists c'. split; [by right | done].
      * lia.
      * intros Hr. assert (total_leaves new ≤ rem - leaves_used s) by (apply Hbud; lia). lia.
      * lia.
Qed.

End AllocateFacts.

(** ** The optimizer as a whole *)

Lemma sort_clusters_perm clusters : sort_clusters clusters ≡ₚ clusters.
Proof. apply py_sort_perm. Qed.

Lemma sort_suggestions_perm l : sort_suggestions l ≡ₚ l.
Proof. apply py_sort_perm. Qed.

(** The optimizer returns for every sheet, city and budget; its result is
    the sorted list of the suggestions produced, each built for a cluster
    of the city's calendar. *)
Lemma find_optimal_spec rows city budget :
  ∃ clusters new,
    find_clusters (build_calendar rows city) = Some clusters ∧
    Forall (cluster_ok (build_calendar rows city)) clusters ∧
    produce rows city budget = Some (new, budget - total_leaves new) ∧
    _find_optimal_leave_periods rows city budget = Some (sort_suggestions new) ∧
    Forall (λ s, ∃ c, c ∈ clusters ∧ built_for (build_calendar rows city) c s) new ∧
    (0 ≤ budget → total_leaves new ≤ budget) ∧
    (budget ≤ 0 → new = []).
Proof.
  assert (Hcov : covers_year (build_calendar rows city)).
  { intros d Hd. by apply build_calendar_total. }
  destruct (find_clusters_inv _ Hcov) as (clusters & Hfind & Hok & _).
  assert (Hok' : Forall (cluster_ok (build_calendar rows city)) (sort_clusters clusters)).
  { by rewrite sort_clusters_perm. }
  destruct (allocate_spec _ Hcov (sort_clusters clusters) [] budget Hok')
    as (new & Hrun & Hnew & _ & Hbud & Hnil).
  exists clusters, new. unfold _find_optimal_leave_periods, produce.
  rewrite Hfind. cbn [mbind option_bind]. rewrite Hrun. simpl.
  split_and!; try done.
  eapply Forall_impl; [exact Hnew |]. intros s (c & Hc & Hb).
  exists c. split; [|done]. by rewrite <- sort_clusters_perm.
Qed.

Lemma built_for_counts cal c s :
  covers_year cal → cluster_ok cal c → built_for cal c s →
  1 ≤ leaves_used s ∧ leaves_used s ≤ 4 ∧
  leaves_used s = len (leave_dates s) ∧
  total_days_off s = len c + leaves_used s ∧
  NoDup (c ++ leave_dates s) ∧
  value s = truediv (total_days_off s) (leaves_used s) ∧
  Qle_bool (3 # 2) (value s) = true.
Proof.
  intros Hcov Hok Hb.
  destruct (built_for_facts cal Hcov c s Hok Hb)
    as (rem & a & before & after & Hrem & Hseq & _ & _ & Hbb & Hba & Hacc & Hem).
  destruct (emitted_counts cal rem c a before after s Hrem Hok Hseq Hbb Hba Hacc Hem)
    as (? & ? & ? & ? & ? & ? & ? & ?).
  done.
Qed.

Lemma size_days_off_set c dates :
  NoDup (c ++ dates) → Z.of_nat (size (days_off_set c dates)) = len c + len dates.
Proof.
  intros Hnd. unfold days_off_set. rewrite <- list_to_set_app_L.
  rewrite size_list_to_set by done. rewrite length_app. unfold len. lia.
Qed.

(** C1: every suggestion the optimizer returns has [leaves_used] equal to
    the length of [leave_dates], [total_days_off] equal to the size of the
    union of the dates of the cluster it was built for and of its
    [leave_dates], and [value] equal to the quotient
    [total_days_off / leaves_used]. *)
Theorem C1_suggestion_arithmetic rows city budget :
  ∃ clusters result,
    find_clusters (build_calendar rows city) = Some clusters ∧
    _find_optimal_leave_periods rows city budget = Some result ∧
    ∀ s, s ∈ result →
      leaves_used s = len (leave_dates s) ∧
      (∃ cluster, cluster ∈ clusters ∧
         built_for (build_calendar rows city) cluster s ∧
         total_days_off s = Z.of_nat (size (days_off_set cluster (leave_dates s)))) ∧
      0 < leaves_used s ∧
      value s = truediv (total_days_off s) (leaves_used s).
Proof.
  destruct (find_optimal_spec rows city budget)
    as (clusters & new & Hfind & Hok & _ & Hrun & Hnew & _).
  exists clusters, (sort_suggestions new). split_and!; [done | done |].
  intros s Hs. rewrite sort_suggestions_perm in Hs.
  rewrite Forall_forall in Hnew. destruct (Hnew s Hs) as (c & Hc & Hb).
  rewrite Forall_forall in Hok.
  assert (Hcov : covers_year (build_calendar rows city)).
  { intros d Hd. by apply build_calendar_total. }
  destruct (built_for_counts _ c s Hcov (Hok c Hc) Hb) as (H1 & _ & Hlen & Htot & Hnd & Hval & _).
  split_and!; [done | | lia | done].
  exists c. split_and!; [done | done |].
  rewrite size_days_off_set by done. lia.
Qed.

(** C2: for a non-negative budget the leave days of the returned
    suggestions sum to at most the budget; from a state whose remaining
    budget is 0 the loop over the clusters adds no suggestion; and with a
    budget of 0 the optimizer returns the empty list. *)
Theorem C2_budget_invariant rows city budget :
  0 ≤ budget →
  (∃ result, _find_optimal_leave_periods rows city budget = Some result ∧
             total_leaves result ≤ budget) ∧
  (∀ clusters sugs,
     allocate (build_calendar rows city) clusters (sugs, 0) = Some (sugs, 0)) ∧
  _find_optimal_leave_periods rows city 0 = Some [].
Proof.
  intros Hb. split_and!.
  - destruct (find_optimal_spec rows city budget)
      as (clusters & new & _ & _ & _ & Hrun & _ & Hsum & _).
    exists (sort_suggestions new). split; [done |].
    rewrite (total_leaves_perm _ _ (sort_suggestions_perm new)). auto.
  - intros clusters sugs. by apply allocate_exhausted.
  - destruct (find_optimal_spec rows city 0)
      as (clusters & new & _ & _ & _ & Hrun & _ & _ & Hnil).
    rewrite Hrun, Hnil; [done | lia].
Qed.

Lemma C2_budget_invariant_witness :
  (∃ result, _find_optimal_leave_periods demo_rows (LStr "Mumbai") 5 = Some result ∧
             total_leaves result ≤ 5) ∧
  (∀ clusters sugs,
     allocate (build_calendar demo_rows (LStr "Mumbai")) clusters (sugs, 0) = Some (sugs, 0)) ∧
  _find_optimal_leave_periods demo_rows (LStr "Mumbai") 0 = Some [].
Proof. apply (C2_budget_invariant demo_rows (LStr "Mumbai") 5). lia. Defined.

(** C10: every suggestion the optimizer returns spends between 1 and 4
    leave days, and its [leave_dates] list is not empty. *)
Theorem C10_leaves_used_bounds rows city budget :
  ∃ result, _find_optimal_leave_periods rows city budget = Some result ∧
    ∀ s, s ∈ result → 1 ≤ leaves_used s ≤ 4 ∧ leave_dates s ≠ [].
Proof.
  destruct (find_optimal_spec rows city budget)
    as (clusters & new & Hfind & Hok & _ & Hrun & Hnew & _).
  exists (sort_suggestions new). split; [done |].
  intros s Hs. rewrite sort_suggestions_perm in Hs.
  rewrite Forall_forall in Hnew. destruct (Hnew s Hs) as (c & Hc & Hb).
  rewrite Forall_forall in Hok.
  assert (Hcov : covers_year (build_calendar rows city)).
  { intros d Hd. by apply build_calendar_total. }
  destruct (built_for_counts _ c s Hcov (Hok c Hc) Hb) as (H1 & H4 & Hlen & _).
  split; [lia |]. intros Hnil. rewrite Hnil in Hlen. change (len []) with 0 in Hlen. lia.
Qed.

Lemma HdRel_weaken {A} (R R' : relation A) x l :
  (∀ y, R x y → R' x y) → HdRel R x l → HdRel R' x l.
Proof. intros HR [|y l' Hxy]; constructor. by apply HR. Qed.

Lemma Sorted_weaken {A} (R R' : relation A) l :
  (∀ x y, R x y → R' x y) → Sorted R l → Sorted R' l.
Proof.
  intros HR. induction 1 as [|x l Hl IH Hx]; constructor; [done |].
  eapply HdRel_weaken; [|done]. apply HR.
Qed.

Lemma sorted_ascending l : Sorted Z.le (sorted l).
Proof.
  eapply Sorted_weaken; [|apply sorted_Sorted].
  intros x y. unfold in_order, precedes. simpl. lia.
Qed.

(** C3: every suggestion the optimizer returns has a value of at least
    1.5; and when the value [(|cluster| + candidate_count) / candidate_count]
    computed for a cluster is below 1.5, the loop body leaves the list of
    suggestions and the remaining budget as they were. *)
Theorem C3_value_threshold rows city budget :
  (∃ result, _find_optimal_leave_periods rows city budget = Some result ∧
     ∀ s, s ∈ result → (3 # 2 <= value s)%Q) ∧
  (∀ sugs rem cluster first last before after,
     py_min cluster = Some first → py_max cluster = Some last →
     scan_before scan_fuel (build_calendar rows city) rem (first - 1) [] = Some before →
     scan_after scan_fuel (build_calendar rows city) rem (last + 1) [] = Some after →
     0 < Z.min rem (len before + len after) →
     (truediv (len cluster + Z.min rem (len before + len after))
              (Z.min rem (len before + len after)) < 3 # 2)%Q →
     consider_cluster (build_calendar rows city) (sugs, rem) cluster = Some (sugs, rem)).
Proof.
  split.
  - destruct (find_optimal_spec rows city budget)
      as (clusters & new & Hfind & Hok & _ & Hrun & Hnew & _).
    exists (sort_suggestions new). split; [done |].
    intros s Hs. rewrite sort_suggestions_perm in Hs.
    rewrite Forall_forall in Hnew. destruct (Hnew s Hs) as (c & Hc & Hb).
    rewrite Forall_forall in Hok.
    assert (Hcov : covers_year (build_calendar rows city)).
    { intros d Hd. by apply build_calendar_total. }
    destruct (built_for_counts _ c s Hcov (Hok c Hc) Hb) as (_ & _ & _ & _ & _ & _ & Hval).
    by apply Qle_bool_iff.
  - intros sugs rem cluster first last before after Hmin Hmax Hsb Hsa Hk Hlow.
    unfold consider_cluster. rewrite Hmin, Hmax. cbn [mbind option_bind].
    rewrite Hsb, Hsa. cbn [mbind option_bind].
    destruct (_ || _); [|done].
    unfold leaves_to_use_of. rewrite value_of_positive by done.
    destruct (Qle_bool _ _) eqn:Hle; [|done].
    apply Qle_bool_iff in Hle. by apply Qlt_not_le in Hlow.
Qed.

Lemma C3_value_threshold_witness :
  (∃ result, _find_optimal_leave_periods demo_rows (LStr "Mumbai") 5 = Some result ∧
     ∀ s, s ∈ result → (3 # 2 <= value s)%Q) ∧
  consider_cluster (build_calendar demo_rows (LStr "Mumbai")) ([], 5) [274] = Some ([], 5).
Proof.
  destruct (C3_value_threshold demo_rows (LStr "Mumbai") 5) as [Hall Hlow].
  split; [exact Hall |].
  apply (Hlow [] 5 [274] 274 274 [273; 272] [275]); vm_compute; reflexivity.
Defined.

(** C8: for a cluster of the finder, processed while the remaining budget
    is positive, the candidates before it are at most two consecutive
    workdays of the year ending the day before its first date, the
    candidates after it at most two consecutive workdays of the year
    starting the day after its last date; and when the cluster is accepted
    the suggestion's [leave_dates] are the first
    [min(leaves_remaining, |before| + |after|)] dates of the two lists merged
    and sorted ascending. *)
Theorem C8_bridge_candidates (cal : gmap Z DayInfo) clusters cluster sugs rem :
  covers_year cal → find_clusters cal = Some clusters → cluster ∈ clusters → 0 < rem →
  ∃ first last before after,
    py_min cluster = Some first ∧ py_max cluster = Some last ∧
    scan_before scan_fuel cal rem (first - 1) [] = Some before ∧
    scan_after scan_fuel cal rem (last + 1) [] = Some after ∧
    bridge_run cal (first - 1) (-1) before ∧
    bridge_run cal (last + 1) 1 after ∧
    sorted (before ++ after) ≡ₚ before ++ after ∧
    Sorted Z.le (sorted (before ++ after)) ∧
    (consider_cluster cal (sugs, rem) cluster = Some (sugs, rem) ∨
     ∃ s, consider_cluster cal (sugs, rem) cluster =
            Some (sugs ++ [s], rem - leaves_used s) ∧
          leave_dates s =
            take (Z.to_nat (Z.min rem (len before + len after))) (sorted (before ++ after))).
Proof.
  intros Hcov Hfind Hc Hrem.
  destruct (find_clusters_inv cal Hcov) as (clusters' & Hfind' & Hok & _).
  rewrite Hfind in Hfind'. injection Hfind' as <-.
  rewrite Forall_forall in Hok. specialize (Hok cluster Hc).
  destruct (consider_cluster_cases cal Hcov sugs rem cluster Hok Hrem)
    as (a & before & after & Hseq & Hsb & Hsa & Hbb & Hba & Hcase).
  assert (Hlen : 0 < len cluster).
  { destruct Hok as [Hne _ _ _ _]. destruct cluster; [done |]. unfold len. simpl. lia. }
  exists a, (a + len cluster - 1), before, after.
  replace (a + len cluster - 1 + 1) with (a + len cluster) by lia.
  split_and!; try done.
  - remember (len cluster) as n. rewrite Hseq. by apply py_min_seqZ.
  - remember (len cluster) as n. rewrite Hseq. by apply py_max_seqZ.
  - apply sorted_perm.
  - apply sorted_ascending.
  - destruct Hcase as [[_ Hrej] | [_ (s & Hs & Hem)]]; [by left | right].
    exists s. split; [done |]. by destruct Hem.
Qed.

Lemma C8_bridge_candidates_witness :
  ∃ first last before after,
    py_min [226; 227; 228] = Some first ∧ py_max [226; 227; 228] = Some last ∧
    scan_before scan_fuel (build_calendar demo_rows (LStr "Mumbai")) 5 (first - 1) [] = Some before ∧
    scan_after scan_fuel (build_calendar demo_rows (LStr "Mumbai")) 5 (last + 1) [] = Some after ∧
    bridge_run (build_calendar demo_rows (LStr "Mumbai")) (first - 1) (-1) before ∧
    bridge_run (build_calendar demo_rows (LStr "Mumbai")) (last + 1) 1 after ∧
    sorted (before ++ after) ≡ₚ before ++ after ∧
    Sorted Z.le (sorted (before ++ after)) ∧
    (consider_cluster (build_calendar demo_rows (LStr "Mumbai")) ([], 5) [226; 227; 228] = Some ([], 5) ∨
     ∃ s, consider_cluster (build_calendar demo_rows (LStr "Mumbai")) ([], 5) [226; 227; 228] =
            Some ([] ++ [s], 5 - leaves_used s) ∧
          leave_dates s =
            take (Z.to_nat (Z.min 5 (len before + len after))) (sorted (before ++ after))).
Proof.
  apply (C8_bridge_candidates (build_calendar demo_rows (LStr "Mumbai"))
           (default [] (find_clusters (build_calendar demo_rows (LStr "Mumbai"))))
           [226; 227; 228] [] 5).
  - intros d Hd. apply build_calendar_total, Hd.
  - vm_compute. reflexivity.
  - apply (bool_decide_unpack _). vm_compute. exact I.
  - lia.
Defined.

(** ** The ranking *)

Lemma Qlt_bool_asym a b : Qlt_bool a b = true → Qlt_bool b a = false.
Proof.
  unfold Qlt_bool. intros Hab%negb_true_iff. apply negb_false_iff, Qle_bool_iff.
  destruct (Qlt_le_dec a b) as [Hlt | Hle]; [by apply Qlt_le_weak |].
  apply Qle_bool_iff in Hle. congruence.
Qed.

Lemma in_order_value_desc x y :
  in_order value Qlt_bool true x y → (value y <= value x)%Q.
Proof.
  unfold in_order, precedes, Qlt_bool. intros H%negb_false_iff. by apply Qle_bool_iff.
Qed.

#[local] Instance value_desc_trans :
  Transitive (λ x y : LeaveSuggestion, (value y <= value x)%Q).
Proof. intros x y z Hxy Hyz. by eapply Qle_trans. Qed.

(** C9: the list the optimizer returns is the list of the suggestions
    produced, reordered so that values descend; suggestions of equal value
    keep the order in which they were produced. *)
Theorem C9_ranking rows city budget :
  ∃ produced left result,
    produce rows city budget = Some (produced, left) ∧
    _find_optimal_leave_periods rows city budget = Some result ∧
    result ≡ₚ produced ∧
    StronglySorted (λ x y, (value y <= value x)%Q) result ∧
    ∀ v, filter (λ s, Qeq_bool (value s) v = true) result =
         filter (λ s, Qeq_bool (value s) v = true) produced.
Proof.
  destruct (find_optimal_spec rows city budget)
    as (clusters & new & _ & _ & Hprod & Hrun & _).
  exists new, (budget - total_leaves new), (sort_suggestions new).
  split_and!; [done | done | apply sort_suggestions_perm | |].
  - apply Sorted_StronglySorted; [apply value_desc_trans |].
    eapply Sorted_weaken; [apply in_order_value_desc |].
    apply py_sort_Sorted, Qlt_bool_asym.
  - intros v. apply py_sort_stable. intros x y Hx Hy.
    unfold precedes, Qlt_bool. apply negb_false_iff, Qle_bool_iff.
    apply Qeq_bool_iff in Hx, Hy. rewrite Hx, Hy. apply Qle_refl.
Qed.

(** ** The plan assembler *)

Lemma foldl_opt_app {A B} (f : A → B → option A) a l1 l2 :
  foldl_opt f a (l1 ++ l2) = foldl_opt f a l1 ≫= λ a', foldl_opt f a' l2.
Proof.
  revert a. induction l1 as [|x l1 IH]; intros a; simpl; [done |].
  destruct (f a x); simpl; [apply IH | done].
Qed.

(** [find_match] returns the first city that passes the test. *)
Lemma find_match_Some city cities m :
  find_match city cities = Some m ↔
  ∃ pre post, cities = pre ++ m :: post ∧ similar city m = true ∧
              ∀ x, x ∈ pre → similar city x = false.
Proof.
  induction cities as [|c cs IH]; simpl.
  - split; [done |]. intros (pre & post & Heq & _). by destruct pre.
  - destruct (similar city c) eqn:Hc.
    + split.
      * intros [= ->]. exists [], cs. split_and!; [done | done | by intros ? ?%elem_of_nil].
      * intros ([|p pre] & post & Heq & Hm & Hpre); simplify_eq/=; [done |].
        rewrite Hpre in Hc; [done | left].
    + rewrite IH. split.
      * intros (pre & post & -> & Hm & Hpre). exists (c :: pre), post.
        split_and!; [done | done |]. intros x [-> | Hx]%elem_of_cons; auto.
      * intros ([|p pre] & post & Heq & Hm & Hpre); simplify_eq/=; [congruence |].
        exists pre, post. split_and!; [done | done |]. intros x Hx. apply Hpre. by right.
Qed.

Lemma find_match_None city cities :
  find_match city cities = None ↔ ∀ x, x ∈ cities → similar city x = false.
Proof.
  induction cities as [|c cs IH]; simpl.
  - split; [by intros _ ? ?%elem_of_nil | done].
  - destruct (similar city c) eqn:Hc.
    + split; [done |]. intros H. rewrite H in Hc; [done | left].
    + rewrite IH. split.
      * intros H x [-> | Hx]%elem_of_cons; auto.
      * intros H x Hx. apply H. by right.
Qed.


Lemma find_optimal_total rows city budget :
  is_Some (_find_optimal_leave_periods rows city budget).
Proof.
  destruct (find_optimal_spec rows city budget) as (clusters & new & _ & _ & _ & -> & _).
  eauto.
Qed.


Section AssemblerFacts.

Context {builtins : PyBuiltins}.

(** The three ways out of lines 201-205. *)
Lemma resolve_leaves_handled e :
  balance_handled e → resolve_leaves e = Some (budget_of e, leave_warning e).
Proof.
  unfold balance_handled, resolve_leaves, budget_of, leave_warning.
  by destruct (py_int (emp_leaves e)) as [n|[]].
Qed.


Lemma resolve_leaves_inv e n warned :
  resolve_leaves e = Some (n, warned) →
  balance_handled e ∧ n = budget_of e ∧ warned = leave_warning e.
Proof.
  unfold balance_handled, resolve_leaves, budget_of, leave_warning.
  destruct (py_int (emp_leaves e)) as [m|[]]; intros [= <- <-]; done.
Qed.

Variable cities : list Label.
Variable optimizer : Label → Z → option (list LeaveSuggestion).


(** An employee whose city is neither known nor similar to a known city
    gets the error result, whatever the optimizer is. *)
Lemma plan_employee_unmatched results printed e :
  balance_handled e →
  LStr (str_of_cell (emp_city e)) ∉ cities →
  find_match (str_of_cell (emp_city e)) cities = None →
  plan_employee cities optimizer (results, printed) e =
    Some (results ++ [city_not_found_result e],
          (printed ++ leave_warning e) ++
            [Warning_city_not_found (str_of_cell (emp_city e)) cities]).
Proof.
  intros Hok Hnot Hnone. unfold plan_employee.
  rewrite (resolve_leaves_handled e Hok). cbn [mbind option_bind].
  rewrite bool_decide_true by done. by rewrite Hnone.
Qed.


(** The loop body returns whenever [int] is handled and the optimizer
    returns: one result is appended for the employee, and the prints that
    follow the one of line 204 are about the city. *)
Lemma plan_employee_total results printed e :
  balance_handled e →
  (∀ c, is_Some (optimizer c (budget_of e))) →
  ∃ r printed',
    plan_employee cities optimizer (results, printed) e =
      Some (results ++ [r], printed ++ leave_warning e ++ printed') ∧
    Forall (λ p, is_invalid_leave_warning p = false) printed'.
Proof.
  intros Hok Hopt. unfold plan_employee.
  rewrite (resolve_leaves_handled e Hok). cbn [mbind option_bind].
  case_bool_decide.
  - destruct (find_match _ _) as [m|].
    + destruct (truthy m).
      * destruct (Hopt m) as [sugs ->]. simpl. eexists _, [_; _].
        rewrite <- !app_assoc. split; [done |]. by repeat constructor.
      * eexists _, [_; _]. rewrite <- !app_assoc. split; [done |]. by repeat constructor.
    + eexists _, [_]. rewrite <- !app_assoc. split; [done |]. by repeat constructor.
  - destruct (Hopt (LStr (str_of_cell (emp_city e)))) as [sugs ->]. simpl.
    eexists _, []. rewrite app_nil_r. split; [done | constructor].
Qed.

End AssemblerFacts.

Section NegativeBalance.

#[local] Existing Instance sample_builtins.


End NegativeBalance.

Section BalanceAndCity.

Context {builtins : PyBuiltins}.


(** C7 on offices named by numbers: the employee's city "0" is not a
    member of the list of cities, the matching loop finds the column 0,
    and still the employee is reported with the error status, the optimizer
    not being called; the employee of office 1 is matched and planned. *)
Theorem C7_falsy_match_reported_not_found optimizer :
  (LStr (str_of_cell (emp_city employee_zero)) ∉ numbered_cities) ∧
  find_match (str_of_cell (emp_city employee_zero)) numbered_cities = Some (LInt 0) ∧
  generate_leave_plans_with numbered_cities optimizer [employee_zero] =
    Some ([city_not_found_result employee_zero],
          [Warning_city_not_found "0" numbered_cities;
           Found_potential_match "0" (LInt 0)]) ∧
  generate_leave_plans_with numbered_cities (λ _ _, Some []) [employee_one] =
    Some ([{| Employee_Name := CellStr "Leela";
              Employee_ID := CellInt 5;
              City := LInt 1;
              Status := None;
              Available_Leaves := Some 6;
              Suggestions := [] |}],
          [Warning_city_not_found "1" numbered_cities;
           Found_potential_match "1" (LInt 1)]).
Proof.
  split_and!; [| reflexivity | reflexivity | reflexivity].
  intros [[=] | [[=] | []%elem_of_nil]%elem_of_cons]%elem_of_cons.
Qed.

(** The rest of the city resolution: an unmatched employee gets the error
    result without a call of the optimizer, and the employees after them
    are planned from the state so extended. *)
Lemma unmatched_employee_isolated cities optimizer es1 e es2 :
  balance_handled e →
  LStr (str_of_cell (emp_city e)) ∉ cities →
  find_match (str_of_cell (emp_city e)) cities = None →
  generate_leave_plans_with cities optimizer (es1 ++ e :: es2) =
    generate_leave_plans_with cities optimizer es1 ≫= λ st,
      foldl_opt (plan_employee cities optimizer)
        (st.1 ++ [city_not_found_result e],
         (st.2 ++ leave_warning e) ++
           [Warning_city_not_found (str_of_cell (emp_city e)) cities]) es2.
Proof.
  intros Hok Hnot Hnone. unfold generate_leave_plans_with. rewrite foldl_opt_app.
  destruct (foldl_opt _ _ es1) as [[results printed]|]; [|done].
  cbn [mbind option_bind foldl_opt fst snd].
  by rewrite plan_employee_unmatched.
Qed.

(** A matched city whose label counts as true is the one planned. *)
Lemma matched_employee_planned cities optimizer results printed e m :
  balance_handled e →
  LStr (str_of_cell (emp_city e)) ∉ cities →
  find_match (str_of_cell (emp_city e)) cities = Some m → truthy m = true →
  plan_employee cities optimizer (results, printed) e =
    optimizer m (budget_of e) ≫= λ leave_suggestions,
      Some (results ++ [{| Employee_Name := emp_name e;
                           Employee_ID := emp_id e;
                           City := m;
                           Status := None;
                           Available_Leaves := Some (budget_of e);
                           Suggestions := leave_suggestions |}],
            ((printed ++ leave_warning e) ++
               [Warning_city_not_found (str_of_cell (emp_city e)) cities]) ++
              [Found_potential_match (str_of_cell (emp_city e)) m]).
Proof.
  intros Hok Hnot Hm Ht. unfold plan_employee.
  rewrite (resolve_leaves_handled e Hok). cbn [mbind option_bind].
  rewrite bool_decide_true by done. by rewrite Hm, Ht.
Qed.

End BalanceAndCity.

(** * Further properties of the planner *)

(** ** The cluster finder: coverage and maximality *)

Lemma not_day_off_workday (cal : gmap Z DayInfo) d info :
  cal !! d = Some info → type info ∉ [Holiday; Weekend] → workday cal d.
Proof.
  intros Hl Ht. exists info. split; [done |].
  destruct (type info); [exfalso; apply Ht; left | exfalso; apply Ht; right; left | done].
Qed.

Lemma day_off_lookup (cal : gmap Z DayInfo) d info :
  cal !! d = Some info → day_off cal d → type info ∈ [Holiday; Weekend].
Proof. intros Hl (i & Hi & Ht). congruence. Qed.

Section ClusterMoreFacts.

Variable cal : gmap Z DayInfo.

Lemma cluster_step_extra n st st' :
  0 ≤ n ≤ 364 →
  cluster_base cal n st → cluster_extra cal n st →
  cluster_step cal st n = Some st' →
  cluster_extra cal (n + 1) st'.
Proof.
  intros Hn Hbase (Hcov & Hmax & Hleft). destruct st as [cs cur].
  destruct Hbase as (_ & _ & _ & Hseq & _). simpl in *.
  unfold cluster_step. destruct (cal !! n) as [info|] eqn:Hinfo; [|done]. simpl.
  assert (Hflush : ∀ m, right_edge cal (m - 1) → left_edge cal (m - len cur) →
            cur = seqZ (m - len cur) (len cur) → cur ≠ [] →
            Forall (cluster_maximal cal) (cs ++ [cur])).
  { intros m Hr Hl Hs Hne. apply Forall_app. split; [done |]. apply Forall_singleton.
    exists (m - len cur). split_and!; [done | done |].
    by replace (m - len cur + len cur - 1) with (m - 1) by lia. }
  assert (Hphase1 : ∃ cs1 cur1,
    (if bool_decide (type info ∈ [Holiday; Weekend]) then (cs, cur ++ [n])
     else if 0 <? len cur then (cs ++ [cur], []) else (cs, cur)) = (cs1, cur1)
    ∧ cluster_extra cal (n + 1) (cs1, cur1)
    ∧ cur1 = seqZ (n + 1 - len cur1) (len cur1)).
  { case_bool_decide as Hty.
    - eexists _, _. split; [done |]. split; [split_and!; simpl |].
      + intros d Hd Hoff. destruct (decide (d = n)) as [-> | Hne].
        * rewrite app_assoc. apply elem_of_app. right. left.
        * rewrite app_assoc. apply elem_of_app. left. apply Hcov; [lia | done].
      + done.
      + rewrite len_app. change (len [n]) with 1.
        by replace (n + 1 - (len cur + 1)) with (n - len cur) by lia.
      + rewrite len_app. change (len [n]) with 1.
        replace (n + 1 - (len cur + 1)) with (n - len cur) by lia.
        unfold len in *. rewrite (seqZ_app _ (Z.of_nat (length cur)) 1) by lia.
        rewrite <- Hseq. f_equal. replace (n - _ + _) with n by lia. done.
    - assert (Hw : workday cal n) by (by eapply not_day_off_workday).
      assert (Hcov' : ∀ l : list date, (∀ d, 0 ≤ d < n → day_off cal d → d ∈ l) →
                ∀ d, 0 ≤ d < n + 1 → day_off cal d → d ∈ l).
      { intros l Hl d Hd Hoff. destruct (decide (d = n)) as [-> | Hne].
        - exfalso. apply Hty. by eapply day_off_lookup.
        - apply Hl; [lia | done]. }
      assert (Hedge : left_edge cal (n + 1 - 0)).
      { right; right. by replace (n + 1 - 0 - 1) with n by lia. }
      destruct (0 <? len cur) eqn:Hlen.
      + eexists _, _. split; [done |]. split; [split_and!; simpl |].
        * rewrite concat_app. simpl. rewrite !app_nil_r. by apply Hcov'.
        * apply (Hflush n); [| done | done |].
          -- right; right. by replace (n - 1 + 1) with n by lia.
          -- intros ->. done.
        * done.
        * by rewrite seqZ_nil.
      + destruct cur; [|done]. eexists _, _. split; [done |].
        split; [split_and!; simpl |]; [by apply Hcov' | done | done | by rewrite seqZ_nil]. }
  destruct Hphase1 as (cs1 & cur1 & -> & (Hcov1 & Hmax1 & Hleft1) & Hseq1). simpl in *.
  destruct ((day_of (n + 1) =? 1) && (0 <? len cur1)) eqn:Hfl.
  - apply andb_true_iff in Hfl as [Hday Hlen]. intros [= <-].
    split_and!; simpl.
    + rewrite concat_app. simpl. by rewrite !app_nil_r.
    + apply Forall_app. split; [done |]. apply Forall_singleton.
      exists (n + 1 - len cur1). split_and!; [done | done |].
      replace (n + 1 - len cur1 + len cur1 - 1) with n by lia. right; left. lia.
    + right; left. change (len []) with 0. replace (n + 1 - 0) with (n + 1) by lia. lia.
  - intros [= <-]. split_and!; done.
Qed.

Lemma cluster_loop_extra (k : nat) n st :
  0 ≤ n → n + Z.of_nat k = 365 → covers_year cal →
  cluster_base cal n st → in_month (month_of n) st.2 → cluster_extra cal n st →
  ∃ st', foldl_opt (cluster_step cal) st (seqZ n (Z.of_nat k)) = Some st' ∧
         cluster_base cal 365 st' ∧ cluster_extra cal 365 st'.
Proof.
  revert n st. induction k as [|k IH]; intros n st Hn Hk Hcov Hb Hm Hx.
  - simpl. replace n with 365 in * by lia. eauto.
  - rewrite seqZ_cons by lia. simpl.
    destruct (cluster_step_inv cal n st) as (st1 & Hst1 & Hb1 & Hm1);
      [lia | apply Hcov; lia | done | done |].
    rewrite Hst1. simpl. replace (Z.pred (Z.of_nat (S k))) with (Z.of_nat k) by lia.
    apply IH; [lia | lia | done | done | done |].
    eapply cluster_step_extra; [| done | done | done]. lia.
Qed.

(** The clusters of the finder hold every day off of the year and are
    maximal. *)
Lemma find_clusters_extra :
  covers_year cal →
  ∃ clusters, find_clusters cal = Some clusters ∧
    (∀ d, 0 ≤ d ≤ 364 → day_off cal d → d ∈ concat clusters) ∧
    Forall (cluster_maximal cal) clusters.
Proof.
  intros Hcov. unfold find_clusters, year_dates.
  destruct (cluster_loop_extra 365 0 ([], [])) as ([cs cur] & Hrun & Hb & Hx);
    [lia | lia | done | | by intros ? ?%elem_of_nil | |].
  { split_and!; simpl; [constructor | constructor | by intros ? ?%elem_of_nil | done
                        | by intros ? ?%elem_of_nil]. }
  { split_and!; simpl; [intros; lia | constructor | by left]. }
  change (Dates.end_date - Dates.start_date + 1) with (Z.of_nat 365).
  change Dates.start_date with 0. rewrite Hrun. simpl.
  destruct Hb as (_ & _ & _ & Hseq & _). destruct Hx as (Hcv & Hmax & Hleft). simpl in *.
  destruct (0 <? len cur) eqn:Hlen.
  - eexists. split; [done |]. split.
    + intros d Hd Hoff. rewrite concat_app. simpl. rewrite app_nil_r.
      apply Hcv; [lia | done].
    + apply Forall_app. split; [done |]. apply Forall_singleton.
      exists (365 - len cur). split_and!; [done | done |]. left. lia.
  - destruct cur; [|done]. eexists. split; [done |]. split; [|done].
    intros d Hd Hoff. rewrite <- (app_nil_r (concat cs)). apply Hcv; [lia | done].
Qed.

End ClusterMoreFacts.

Lemma elem_of_concat {A} (x : A) (ls : list (list A)) :
  x ∈ concat ls ↔ ∃ l, l ∈ ls ∧ x ∈ l.
Proof.
  rewrite list_elem_of_In, in_concat. split; intros (l & H1 & H2); exists l;
    by rewrite ?list_elem_of_In in *.
Qed.

(** X1: on a calendar that classifies the dates of the year, the clusters
    of the finder hold exactly the Holiday and Weekend dates of the year:
    no day off is left out. *)
Theorem clusters_cover_days_off (cal : gmap Z DayInfo) :
  covers_year cal →
  ∃ clusters, find_clusters cal = Some clusters ∧
    ∀ d, (∃ c, c ∈ clusters ∧ d ∈ c) ↔ (0 ≤ d ≤ 364 ∧ day_off cal d).
Proof.
  intros Hcov.
  destruct (find_clusters_extra cal Hcov) as (clusters & Hrun & Hcv & _).
  destruct (find_clusters_inv cal Hcov) as (clusters' & Hrun' & Hok & _).
  rewrite Hrun in Hrun'. injection Hrun' as <-.
  exists clusters. split; [done |]. intros d. split.
  - intros (c & Hc & Hd). rewrite Forall_forall in Hok. destruct (Hok c Hc). auto.
  - intros [Hd Hoff]. apply elem_of_concat. by apply Hcv.
Qed.

Lemma clusters_cover_days_off_witness :
  ∃ clusters, find_clusters (build_calendar demo_rows (LStr "Mumbai")) = Some clusters ∧
    ∀ d, (∃ c, c ∈ clusters ∧ d ∈ c) ↔
         (0 ≤ d ≤ 364 ∧ day_off (build_calendar demo_rows (LStr "Mumbai")) d).
Proof.
  apply (clusters_cover_days_off (build_calendar demo_rows (LStr "Mumbai"))).
  intros d Hd. apply build_calendar_total, Hd.
Defined.

(** X2: every cluster of the finder is maximal within its month: the day
    before its first date is a workday, unless the cluster starts the year
    or a month; the day after its last date is a workday, unless the cluster
    ends the year or a month. *)
Theorem clusters_are_maximal (cal : gmap Z DayInfo) :
  covers_year cal →
  ∃ clusters, find_clusters cal = Some clusters ∧
    ∀ c, c ∈ clusters →
      ∃ first last, py_min c = Some first ∧ py_max c = Some last ∧
        (first = 0 ∨ day_of first = 1 ∨ workday cal (first - 1)) ∧
        (last = 364 ∨ day_of (last + 1) = 1 ∨ workday cal (last + 1)).
Proof.
  intros Hcov.
  destruct (find_clusters_extra cal Hcov) as (clusters & Hrun & _ & Hmax).
  destruct (find_clusters_inv cal Hcov) as (clusters' & Hrun' & Hok & _).
  rewrite Hrun in Hrun'. injection Hrun' as <-.
  exists clusters. split; [done |]. intros c Hc.
  rewrite Forall_forall in Hmax, Hok.
  destruct (Hmax c Hc) as (a & Hseq & Hl & Hr). destruct (Hok c Hc) as [Hne _ _ _ _].
  assert (Hlen : 0 < len c).
  { destruct c; [done |]. unfold len. simpl. lia. }
  exists a, (a + len c - 1). split_and!; [| | done | done].
  - remember (len c) as n. rewrite Hseq. by apply py_min_seqZ.
  - remember (len c) as n. rewrite Hseq. by apply py_max_seqZ.
Qed.

Lemma clusters_are_maximal_witness :
  ∃ clusters, find_clusters (build_calendar demo_rows (LStr "Mumbai")) = Some clusters ∧
    ∀ c, c ∈ clusters →
      ∃ first last, py_min c = Some first ∧ py_max c = Some last ∧
        (first = 0 ∨ day_of first = 1 ∨
           workday (build_calendar demo_rows (LStr "Mumbai")) (first - 1)) ∧
        (last = 364 ∨ day_of (last + 1) = 1 ∨
           workday (build_calendar demo_rows (LStr "Mumbai")) (last + 1)).
Proof.
  apply (clusters_are_maximal (build_calendar demo_rows (LStr "Mumbai"))).
  intros d Hd. apply build_calendar_total, Hd.
Defined.

(** Two dates of 2025 that are 31 days apart lie in different months. *)
Lemma month_of_plus_31 (d : date) :
  0 ≤ d → d + 31 ≤ 364 → month_of (d + 31) ≠ month_of d.
Proof.
  intros H0 H31.
  assert (H : Forall (λ d, d + 31 ≤ 364 → month_of (d + 31) ≠ month_of d) year_dates).
  { apply (Forall_impl
             (λ d, orb (364 <? d + 31) (negb (month_of (d + 31) =? month_of d)) = true)).
    - apply Forall_forall. intros x Hx. apply list_elem_of_In in Hx.
      revert x Hx. apply forallb_forall. vm_compute. reflexivity.
    - intros x Hx Hle. apply orb_true_iff in Hx as [Hx | Hx]; [lia |].
      apply negb_true_iff in Hx. lia. }
  rewrite Forall_forall in H. apply H; [apply year_dates_elem; lia | done].
Qed.

Lemma cluster_ok_length (cal : gmap Z DayInfo) c :
  cluster_ok cal c → 1 ≤ len c ≤ 31.
Proof.
  intros [Hne _ [a Hseq] Hyear Hmonth].
  assert (Hlen : 0 < len c).
  { destruct c; [done |]. unfold len. simpl. lia. }
  split; [lia |].
  destruct (decide (len c ≤ 31)) as [|Hbig]; [done | exfalso].
  assert (Hin : ∀ x, a ≤ x < a + len c → x ∈ c).
  { intros x Hx. remember (len c) as n. rewrite Hseq. by apply elem_of_seqZ. }
  assert (Ha : a ∈ c) by (apply Hin; lia).
  assert (Hb : a + 31 ∈ c) by (apply Hin; lia).
  apply (month_of_plus_31 a); [apply (Hyear a Ha) | apply (Hyear _ Hb) |].
  by apply Hmonth.
Qed.

(** X3: no cluster of the finder is longer than 31 days. *)
Theorem cluster_length_at_most_31 (cal : gmap Z DayInfo) :
  covers_year cal →
  ∃ clusters, find_clusters cal = Some clusters ∧
    ∀ c, c ∈ clusters → 1 ≤ len c ≤ 31.
Proof.
  intros Hcov. destruct (find_clusters_inv cal Hcov) as (clusters & Hrun & Hok & _).
  exists clusters. split; [done |]. intros c Hc.
  rewrite Forall_forall in Hok. by apply (cluster_ok_length cal), Hok.
Qed.

Lemma cluster_length_at_most_31_witness :
  ∃ clusters, find_clusters (build_calendar demo_rows (LStr "Mumbai")) = Some clusters ∧
    ∀ c, c ∈ clusters → 1 ≤ len c ≤ 31.
Proof.
  apply (cluster_length_at_most_31 (build_calendar demo_rows (LStr "Mumbai"))).
  intros d Hd. apply build_calendar_total, Hd.
Defined.

(** ** The order of the clusters *)

Lemma in_order_len_desc (x y : list date) :
  in_order len Z.ltb true x y → len y ≤ len x.
Proof. unfold in_order, precedes. lia. Qed.

#[local] Instance len_desc_trans : Transitive (λ x y : list date, len y ≤ len x).
Proof. intros x y z Hxy Hyz. lia. Qed.

(** X5: the clusters are considered longest first: the sort keeps the
    clusters, orders them by descending length, and leaves clusters of equal
    length in the order they had. *)
Theorem sort_clusters_longest_first (clusters : list (list date)) :
  sort_clusters clusters ≡ₚ clusters ∧
  StronglySorted (λ x y, len y ≤ len x) (sort_clusters clusters) ∧
  ∀ n, filter (λ c, len c = n) (sort_clusters clusters) =
       filter (λ c, len c = n) clusters.
Proof.
  split_and!.
  - apply sort_clusters_perm.
  - apply Sorted_StronglySorted; [apply len_desc_trans |].
    eapply Sorted_weaken; [apply in_order_len_desc |].
    apply py_sort_Sorted. intros a b. lia.
  - intros n. apply py_sort_stable. intros x y Hx Hy. unfold precedes. lia.
Qed.

(** ** The calendar: domain and holiday rows *)

(** X6: the calendar has an entry for each of the 365 dates of 2025 and
    for no other date. *)
Theorem calendar_domain rows city :
  (∀ d : date, is_Some (build_calendar rows city !! d) ↔ 0 ≤ d ≤ 364) ∧
  size (build_calendar rows city) = 365%nat.
Proof.
  assert (Hsome : ∀ d : date, is_Some (build_calendar rows city !! d) ↔ 0 ≤ d ≤ 364).
  { intros d. rewrite build_calendar_lookup. case_bool_decide as Hd.
    - split; [done | eauto].
    - split; [by intros [? ?] | done]. }
  split; [done |].
  assert (Hdom : dom (build_calendar rows city) = list_to_set year_dates).
  { apply set_eq. intros d.
    by rewrite elem_of_dom, elem_of_list_to_set, year_dates_elem. }
  rewrite <- size_dom, Hdom, size_list_to_set; [| apply NoDup_seqZ].
    unfold year_dates. by rewrite length_seqZ.
Qed.

Lemma get_holidays_omap rows city :
  _get_holidays_for_city rows city = omap (entry_of city) rows.
Proof.
  unfold _get_holidays_for_city.
  match goal with |- foldl ?f _ _ = _ => set (step := f) end.
  assert (Hgen : ∀ l acc,
    foldl step acc (filter (λ row, city ∈ marked row) l) = acc ++ omap (entry_of city) l).
  { induction l as [|row l IH]; intros acc; simpl; [by rewrite app_nil_r |].
    rewrite filter_cons. unfold entry_of at 1.
    destruct (decide (city ∈ marked row)) as [Hc | Hc].
    - rewrite bool_decide_true by done. simpl. rewrite IH. unfold step at 1.
      destruct (to_datetime (Date row)); simpl; [by rewrite <- app_assoc | done].
    - rewrite bool_decide_false by done. apply IH. }
  apply (Hgen rows []).
Qed.

Lemma get_holidays_app rows1 rows2 city :
  _get_holidays_for_city (rows1 ++ rows2) city =
  _get_holidays_for_city rows1 city ++ _get_holidays_for_city rows2 city.
Proof. rewrite !get_holidays_omap. apply omap_app. Qed.

Lemma holiday_desc_of_snoc l h :
  holiday_desc_of (l ++ [h]) = <[h_date h := h_description h]> (holiday_desc_of l).
Proof. unfold holiday_desc_of. by rewrite foldl_app. Qed.

Lemma holiday_desc_foldl_other (l : list HolidayEntry) (m : gmap Z string) d :
  (∀ h, h ∈ l → h_date h ≠ d) →
  foldl (λ m h, <[h_date h := h_description h]> m) m l !! d = m !! d.
Proof.
  revert m. induction l as [|h l IH]; intros m Hl; simpl; [done |].
  rewrite IH by (intros h' Hh'; apply Hl; by right).
  apply lookup_insert_ne, Hl. left.
Qed.

(** The dates [ordinal] accepts are the dates of 2025, read back by
    [day_of] and [month_of]. *)
Lemma ordinal_inv_bounds dd mm d :
  ordinal dd mm = Some d → 1 ≤ mm ≤ 12 ∧ 1 ≤ dd ≤ 31.
Proof.
  unfold ordinal. destruct (month_lengths !! Z.to_nat (mm - 1)) as [n|] eqn:Hn; [|done].
  destruct (bool_decide (1 ≤ mm)) eqn:H1; [|done].
  destruct (bool_decide (1 ≤ dd)) eqn:H2; [|done].
  destruct (bool_decide (dd ≤ n)) eqn:H3; [|done]. intros _.
  apply bool_decide_eq_true in H1, H2, H3.
  pose proof (lookup_lt_Some _ _ _ Hn) as Hlt. simpl in Hlt.
  assert (Hall : Forall (λ n, n ≤ 31) month_lengths) by (repeat constructor; lia).
  rewrite Forall_forall in Hall. specialize (Hall n (list_elem_of_lookup_2 _ _ _ Hn)).
  lia.
Qed.

Lemma ordinal_spec dd mm d :
  ordinal dd mm = Some d ↔ 0 ≤ d ≤ 364 ∧ day_of d = dd ∧ month_of d = mm.
Proof.
  split.
  - intros Ho. destruct (ordinal_inv_bounds _ _ _ Ho) as [Hm Hd].
    assert (Hall : Forall (λ mm, Forall (λ dd,
              match ordinal dd mm with
              | Some x => (0 <=? x) && (x <=? 364) && (day_of x =? dd) && (month_of x =? mm)
              | None => true
              end = true) (seqZ 1 31)) (seqZ 1 12)).
    { apply Forall_forall. intros m Hmm. apply Forall_forall. intros x Hx.
      apply list_elem_of_In in Hmm, Hx. revert x Hx. apply forallb_forall.
      revert m Hmm. apply forallb_forall. vm_compute. reflexivity. }
    rewrite Forall_forall in Hall. specialize (Hall mm). rewrite elem_of_seqZ in Hall.
    specialize (Hall ltac:(lia)). rewrite Forall_forall in Hall. specialize (Hall dd).
    rewrite elem_of_seqZ in Hall. specialize (Hall ltac:(lia)). rewrite Ho in Hall.
    apply andb_true_iff in Hall as [Hall H4]. apply andb_true_iff in Hall as [Hall H3].
    apply andb_true_iff in Hall as [H1 H2]. lia.
  - intros (Hd & <- & <-).
    assert (Hall : Forall (λ x, bool_decide (ordinal (day_of x) (month_of x) = Some x) = true)
                     year_dates).
    { apply Forall_forall. intros x Hx. apply list_elem_of_In in Hx.
      revert x Hx. apply forallb_forall. vm_compute. reflexivity. }
    rewrite Forall_forall in Hall. eapply bool_decide_eq_true_1, Hall.
    by apply year_dates_elem.
Qed.

(** X7: a holiday row of a city whose date is day [dd] of month [mm] marks
    the date of 2025 with that day and month, and no other: the date the
    row is parsed to is read back as [dd] and [mm], and it is a Holiday of
    the city's calendar. *)
Theorem holiday_row_marks_its_date rows city row (d : date) :
  row ∈ rows → city ∈ marked row →
  (to_datetime (Date row) = Some d ↔
     0 ≤ d ≤ 364 ∧ day_of d = (Date row).1 ∧ month_of d = (Date row).2) ∧
  (to_datetime (Date row) = Some d →
     ∃ info, build_calendar rows city !! d = Some info ∧ type info = Holiday).
Proof.
  intros Hrow Hcity. split; [apply ordinal_spec |].
  intros Hd. pose proof (proj1 (ordinal_spec _ _ _) Hd) as (Hyear & _).
  rewrite build_calendar_lookup, bool_decide_true by done.
  eexists. split; [done |]. unfold day_info_of.
  rewrite bool_decide_true; [done |]. apply holiday_dates_spec. eauto.
Qed.

Lemma holiday_row_marks_its_date_witness :
  (to_datetime (26, 1) = Some 25 ↔
     0 ≤ 25 ≤ 364 ∧ day_of 25 = 26 ∧ month_of 25 = 1) ∧
  (to_datetime (26, 1) = Some 25 →
     ∃ info, build_calendar demo_rows (LStr "Mumbai") !! 25 = Some info ∧ type info = Holiday).
Proof.
  apply (holiday_row_marks_its_date demo_rows (LStr "Mumbai")
           {| Date := (26, 1); Holiday_Description := "Republic Day";
              marked := [LStr "Mumbai"; LStr "Delhi"] |} 25).
  - unfold demo_rows. left.
  - simpl. left.
Defined.

(** X8: when several holiday rows of a city fall on one date, the calendar
    keeps the description of the last of them in the order of the sheet. *)
Theorem holiday_description_last_row pre row post city (d : date) :
  city ∈ marked row → to_datetime (Date row) = Some d →
  (∀ r, r ∈ post → city ∈ marked r → to_datetime (Date r) ≠ Some d) →
  build_calendar (pre ++ row :: post) city !! d =
    Some {| type := Holiday; description := Holiday_Description row |}.
Proof.
  intros Hcity Hd Hpost.
  pose proof (proj1 (ordinal_spec _ _ _) Hd) as (Hyear & _).
  rewrite build_calendar_lookup, bool_decide_true by done.
  unfold day_info_of. rewrite bool_decide_true.
  2:{ apply holiday_dates_spec. exists row. split_and!; [|done|done].
      apply elem_of_app. right. left. }
  do 2 f_equal.
  change (pre ++ row :: post) with (pre ++ [row] ++ post).
  rewrite !get_holidays_app. unfold holiday_desc_of.
  rewrite !foldl_app. rewrite holiday_desc_foldl_other.
  - rewrite (get_holidays_omap [row]). simpl. unfold entry_of.
    rewrite bool_decide_true by done. rewrite Hd. simpl.
    by rewrite lookup_insert_eq.
  - intros h Hh. rewrite get_holidays_omap in Hh.
    apply list_elem_of_omap in Hh as (r & Hr & He). unfold entry_of in He.
    case_bool_decide as Hm; [|done].
    destruct (to_datetime (Date r)) as [d'|] eqn:Hd'; [|done].
    simpl in He. injection He as <-. simpl. intros ->. by apply (Hpost r).
Qed.

Lemma holiday_description_last_row_witness :
  build_calendar
    ([ {| Date := (26, 1); Holiday_Description := "Republic Day"; marked := [LStr "Pune"] |} ] ++
     {| Date := (26, 1); Holiday_Description := "Local festival"; marked := [LStr "Pune"] |} ::
     [ {| Date := (15, 8); Holiday_Description := "Independence Day"; marked := [LStr "Pune"] |} ])
    (LStr "Pune") !! 25 =
  Some {| type := Holiday; description := "Local festival" |}.
Proof.
  apply (holiday_description_last_row
           [ {| Date := (26, 1); Holiday_Description := "Republic Day"; marked := [LStr "Pune"] |} ]
           {| Date := (26, 1); Holiday_Description := "Local festival"; marked := [LStr "Pune"] |}
           [ {| Date := (15, 8); Holiday_Description := "Independence Day"; marked := [LStr "Pune"] |} ]
           (LStr "Pune") 25).
  - apply (bool_decide_unpack _). vm_compute. exact I.
  - reflexivity.
  - intros r Hr _. apply list_elem_of_singleton in Hr as ->. vm_compute. discriminate.
Defined.

(** X9: a row whose date does not parse, or that does not mark the city,
    changes neither the city's holidays, nor its calendar, nor the
    suggestions computed from it. *)
Theorem skipped_row_changes_nothing pre row post city budget :
  to_datetime (Date row) = None ∨ city ∉ marked row →
  _get_holidays_for_city (pre ++ row :: post) city =
    _get_holidays_for_city (pre ++ post) city ∧
  build_calendar (pre ++ row :: post) city = build_calendar (pre ++ post) city ∧
  _find_optimal_leave_periods (pre ++ row :: post) city budget =
    _find_optimal_leave_periods (pre ++ post) city budget.
Proof.
  intros Hskip.
  assert (Hsame : _get_holidays_for_city (pre ++ row :: post) city =
                  _get_holidays_for_city (pre ++ post) city).
  { change (pre ++ row :: post) with (pre ++ [row] ++ post).
    rewrite !get_holidays_app. rewrite (get_holidays_omap [row]). simpl.
    unfold entry_of. destruct Hskip as [Hd | Hc].
    - rewrite Hd. simpl. by destruct (bool_decide _).
    - by rewrite bool_decide_false. }
  assert (Hcal : build_calendar (pre ++ row :: post) city =
                 build_calendar (pre ++ post) city).
  { unfold build_calendar. by rewrite Hsame. }
  split_and!; [done | done |].
  unfold _find_optimal_leave_periods, produce. by rewrite Hcal.
Qed.

Lemma skipped_row_changes_nothing_witness :
  _get_holidays_for_city (take 1 demo_rows ++ {| Date := (29, 2); Holiday_Description := "Leap"; marked := [LStr "Mumbai"] |} :: drop 2 demo_rows)
      (LStr "Mumbai") =
    _get_holidays_for_city (take 1 demo_rows ++ drop 2 demo_rows) (LStr "Mumbai") ∧
  build_calendar (take 1 demo_rows ++ {| Date := (29, 2); Holiday_Description := "Leap"; marked := [LStr "Mumbai"] |} :: drop 2 demo_rows)
      (LStr "Mumbai") =
    build_calendar (take 1 demo_rows ++ drop 2 demo_rows) (LStr "Mumbai") ∧
  _find_optimal_leave_periods
      (take 1 demo_rows ++ {| Date := (29, 2); Holiday_Description := "Leap"; marked := [LStr "Mumbai"] |} :: drop 2 demo_rows)
      (LStr "Mumbai") 5 =
    _find_optimal_leave_periods (take 1 demo_rows ++ drop 2 demo_rows) (LStr "Mumbai") 5.
Proof.
  apply (skipped_row_changes_nothing (take 1 demo_rows)
           ({| Date := (29, 2); Holiday_Description := "Leap"; marked := [LStr "Mumbai"] |}) (drop 2 demo_rows) (LStr "Mumbai") 5).
  left. reflexivity.
Defined.

(** ** The scanning loops *)

(** X10: a scan that returns fewer than two candidates stopped because the
    next date is outside the year or is not a workday; this holds on any
    calendar, the scan having returned. *)
Theorem scans_stop_at_boundaries (cal : gmap Z DayInfo) rem :
  0 < rem →
  (∀ d before, scan_before scan_fuel cal rem d [] = Some before →
     before = [d; d - 1] ∨
     (before `prefix_of` [d] ∧ ¬ (0 ≤ d - len before ∧ workday cal (d - len before)))) ∧
  (∀ d after, scan_after scan_fuel cal rem d [] = Some after →
     after = [d; d + 1] ∨
     (after `prefix_of` [d] ∧ ¬ (d + len after ≤ 364 ∧ workday cal (d + len after)))).
Proof.
  intros Hrem.
  assert (Hnw : ∀ x info, cal !! x = Some info →
            bool_decide (type info = Workday) = false → ¬ workday cal x).
  { intros x info Hl Ht%bool_decide_eq_false (i & Hi & Hw). congruence. }
  split.
  - intros d before. unfold scan_fuel. simpl.
    replace (0 <? rem) with true by (symmetry; lia). simpl.
    destruct (Dates.start_date <=? d) eqn:Hd0.
    2:{ intros [= <-]. right. split; [apply prefix_nil |].
        change (len []) with 0. unfold Dates.start_date in *. lia. }
    destruct (cal !! d) as [i1|] eqn:Hi1; [|done]. simpl.
    destruct (bool_decide (type i1 = Workday)) eqn:Ht1.
    2:{ intros [= <-]. right. split; [apply prefix_nil |].
        change (len []) with 0. rewrite Z.sub_0_r. intros [_ Hw]. by eapply Hnw. }
    change (2 <=? len [d]) with false. simpl.
    destruct (Dates.start_date <=? d - 1) eqn:Hd1.
    2:{ intros [= <-]. right. split; [done |].
        change (len [d]) with 1. unfold Dates.start_date in *. lia. }
    destruct (cal !! (d - 1)) as [i2|] eqn:Hi2; [|done]. simpl.
    destruct (bool_decide (type i2 = Workday)) eqn:Ht2.
    2:{ intros [= <-]. right. split; [done |].
        change (len [d]) with 1. intros [_ Hw]. by eapply Hnw. }
    change (2 <=? len [d; d - 1]) with true. simpl. intros [= <-]. by left.
  - intros d after. unfold scan_fuel. simpl.
    replace (0 <? rem) with true by (symmetry; lia). simpl.
    destruct (d <=? Dates.end_date) eqn:Hd0.
    2:{ intros [= <-]. right. split; [apply prefix_nil |].
        change (len []) with 0. unfold Dates.end_date in *. lia. }
    destruct (cal !! d) as [i1|] eqn:Hi1; [|done]. simpl.
    destruct (bool_decide (type i1 = Workday)) eqn:Ht1.
    2:{ intros [= <-]. right. split; [apply prefix_nil |].
        change (len []) with 0. rewrite Z.add_0_r. intros [_ Hw]. by eapply Hnw. }
    change (2 <=? len [d]) with false. simpl.
    destruct (d + 1 <=? Dates.end_date) eqn:Hd1.
    2:{ intros [= <-]. right. split; [done |].
        change (len [d]) with 1. unfold Dates.end_date in *. lia. }
    destruct (cal !! (d + 1)) as [i2|] eqn:Hi2; [|done]. simpl.
    destruct (bool_decide (type i2 = Workday)) eqn:Ht2.
    2:{ intros [= <-]. right. split; [done |].
        change (len [d]) with 1. intros [_ Hw]. by eapply Hnw. }
    change (2 <=? len [d; d + 1]) with true. simpl. intros [= <-]. by left.
Qed.

Lemma scans_stop_at_boundaries_witness :
  (∀ d before,
     scan_before scan_fuel (build_calendar demo_rows (LStr "Mumbai")) 5 d [] = Some before →
     before = [d; d - 1] ∨
     (before `prefix_of` [d] ∧
      ¬ (0 ≤ d - len before ∧
         workday (build_calendar demo_rows (LStr "Mumbai")) (d - len before)))) ∧
  (∀ d after,
     scan_after scan_fuel (build_calendar demo_rows (LStr "Mumbai")) 5 d [] = Some after →
     after = [d; d + 1] ∨
     (after `prefix_of` [d] ∧
      ¬ (d + len after ≤ 364 ∧
         workday (build_calendar demo_rows (LStr "Mumbai")) (d + len after)))).
Proof.
  apply (scans_stop_at_boundaries (build_calendar demo_rows (LStr "Mumbai")) 5). lia.
Defined.

(** ** The suggestions returned *)

(** Where a returned suggestion comes from. *)
Lemma returned_suggestion_facts rows city budget :
  ∃ clusters result,
    find_clusters (build_calendar rows city) = Some clusters ∧
    _find_optimal_leave_periods rows city budget = Some result ∧
    Z.of_nat (length result) ≤ total_leaves result ∧
    (0 ≤ budget → total_leaves result ≤ budget) ∧
    ∀ s, s ∈ result →
      ∃ c rem a before after,
        c ∈ clusters ∧ cluster_ok (build_calendar rows city) c ∧
        built_for (build_calendar rows city) c s ∧
        0 < rem ∧ c = seqZ a (len c) ∧
        bridge_run (build_calendar rows city) (a - 1) (-1) before ∧
        bridge_run (build_calendar rows city) (a + len c) 1 after ∧
        accepted rem c before after = true ∧
        emitted (build_calendar rows city) rem c before after s.
Proof.
  destruct (find_optimal_spec rows city budget)
    as (clusters & new & Hfind & Hok & _ & Hrun & Hnew & Hbud & _).
  assert (Hcov : covers_year (build_calendar rows city)).
  { intros d Hd. by apply build_calendar_total. }
  pose proof (proj1 (Forall_forall _ _) Hnew) as Hnew'.
  pose proof (proj1 (Forall_forall _ _) Hok) as Hok'.
  clear Hnew Hok. rename Hnew' into Hnew. rename Hok' into Hok.
  exists clusters, (sort_suggestions new). split_and!; [done | done | | |].
  - rewrite (total_leaves_perm _ _ (sort_suggestions_perm new)).
    unfold sort_suggestions. rewrite py_sort_length.
    assert (Hall : Forall (λ s, 1 ≤ leaves_used s) new).
    { apply Forall_forall. intros s Hs. destruct (Hnew s Hs) as (c & Hc & Hb).
      by destruct (built_for_counts _ c s Hcov (Hok c Hc) Hb) as (? & _). }
    clear -Hall. induction Hall as [|s l Hs Hl IH]; simpl in *; lia.
  - rewrite (total_leaves_perm _ _ (sort_suggestions_perm new)). done.
  - intros s Hs. rewrite sort_suggestions_perm in Hs.
    destruct (Hnew s Hs) as (c & Hc & Hb).
    destruct (built_for_facts _ Hcov c s (Hok c Hc) Hb)
      as (rem & a & before & after & Hrem & Hseq & _ & _ & Hbb & Hba & Hacc & Hem).
    exists c, rem, a, before, after. split_and!; auto.
Qed.

Lemma StronglySorted_le_lt (l : list Z) :
  NoDup l → Sorted Z.le l → StronglySorted Z.lt l.
Proof.
  intros Hnd Hs. apply Sorted_StronglySorted in Hs; [|intros x y z; lia].
  induction Hs as [|x l Hl IH Hx]; [constructor |].
  apply NoDup_cons in Hnd as [Hx' Hnd]. constructor; [by apply IH |].
  rewrite Forall_forall in Hx |- *. intros y Hy. specialize (Hx y Hy).
  assert (x ≠ y) by (intros ->; done). lia.
Qed.

(** X11: the leave dates of every returned suggestion are workdays of the
    year, ascending without repetition, none of them a date of the cluster,
    each at most two days before the cluster's first date or at most two
    days after its last date. *)
Theorem leave_dates_are_bridge_workdays rows city budget :
  ∃ clusters result,
    find_clusters (build_calendar rows city) = Some clusters ∧
    _find_optimal_leave_periods rows city budget = Some result ∧
    ∀ s, s ∈ result →
      ∃ cluster first last,
        cluster ∈ clusters ∧ built_for (build_calendar rows city) cluster s ∧
        py_min cluster = Some first ∧ py_max cluster = Some last ∧
        StronglySorted Z.lt (leave_dates s) ∧
        ∀ x, x ∈ leave_dates s →
          workday (build_calendar rows city) x ∧ 0 ≤ x ≤ 364 ∧ (x ∉ cluster) ∧
          (first - 2 ≤ x < first ∨ last < x ≤ last + 2).
Proof.
  destruct (returned_suggestion_facts rows city budget)
    as (clusters & result & Hfind & Hrun & _ & _ & Hall).
  exists clusters, result. split_and!; [done | done |].
  intros s Hs.
  destruct (Hall s Hs)
    as (c & rem & a & before & after & Hc & Hok & Hb & Hrem & Hseq & Hbb & Hba & Hacc & Hem).
  assert (Hcov : covers_year (build_calendar rows city)).
  { intros d Hd. by apply build_calendar_total. }
  destruct (emitted_counts _ rem c a before after s Hrem Hok Hseq Hbb Hba Hacc Hem)
    as (_ & _ & _ & _ & _ & Hnd & _).
  pose proof (cluster_ok_length _ c Hok) as Hlen.
  exists c, a, (a + len c - 1). split_and!; [done | done | | | |].
  - remember (len c) as n. rewrite Hseq. apply py_min_seqZ. lia.
  - remember (len c) as n. rewrite Hseq. apply py_max_seqZ. lia.
  - apply StronglySorted_le_lt; [by apply NoDup_app in Hnd as (_ & _ & ?) |].
    destruct Hem as [_ -> _ _ _ _ _]. apply Sorted_take, sorted_ascending.
  - intros x Hx.
    assert (Hx' : x ∈ before ++ after).
    { destruct Hem as [_ Hd _ _ _ _ _]. rewrite Hd in Hx.
      apply subseteq_take in Hx. by apply py_sort_elem in Hx. }
    assert (Hnotin : x ∉ c).
    { intros Hin. apply NoDup_app in Hnd as (_ & Hdisj & _). by apply (Hdisj x). }
    apply elem_of_app in Hx' as [Hxb | Hxa].
    + pose proof (bridge_run_elem _ _ _ _ _ Hbb Hxb). destruct Hbb as [_ Hw].
      destruct (Hw x Hxb). split_and!; [done | lia | lia | done | lia].
    + pose proof (bridge_run_elem _ _ _ _ _ Hba Hxa). destruct Hba as [_ Hw].
      destruct (Hw x Hxa). split_and!; [done | lia | lia | done | lia].
Qed.

Lemma Qle_truediv n d a b :
  0 < b → (n # d <= truediv a b)%Q ↔ n * b ≤ a * Z.pos d.
Proof. intros Hb. unfold Qle, truediv. simpl. by rewrite Z2Pos.id. Qed.

Lemma truediv_Qle a b n d :
  0 < b → (truediv a b <= n # d)%Q ↔ a * Z.pos d ≤ n * b.
Proof. intros Hb. unfold Qle, truediv. simpl. by rewrite Z2Pos.id. Qed.

Lemma len_range_bound (l : list Z) lo hi :
  l ≠ [] → NoDup l → (∀ x, x ∈ l → lo ≤ x ≤ hi) → len l ≤ hi - lo + 1.
Proof.
  intros Hne Hnd Hr.
  assert (Hsub : l ⊆+ seqZ lo (hi - lo + 1)).
  { apply NoDup_submseteq; [done |]. intros x Hx. apply elem_of_seqZ.
    specialize (Hr x Hx). lia. }
  apply submseteq_length in Hsub. rewrite length_seqZ in Hsub.
  destruct l as [|y l']; [done |].
  assert (lo ≤ hi) by (specialize (Hr y ltac:(left)); lia).
  unfold len. lia.
Qed.

(** X12: the period of a returned suggestion: [start_date] and [end_date]
    are dates of the year, the first at most two days before the cluster's
    first date, the second at most two days after its last date; every date
    of the cluster and every leave date lies between them; and
    [total_days_off] is at most the number of days from [start_date] to
    [end_date], which it need not reach. *)
Theorem suggestion_period rows city budget :
  ∃ clusters result,
    find_clusters (build_calendar rows city) = Some clusters ∧
    _find_optimal_leave_periods rows city budget = Some result ∧
    ∀ s, s ∈ result →
      ∃ cluster first last,
        cluster ∈ clusters ∧ built_for (build_calendar rows city) cluster s ∧
        py_min cluster = Some first ∧ py_max cluster = Some last ∧
        0 ≤ start_date s ∧ end_date s ≤ 364 ∧
        first - 2 ≤ start_date s ≤ first ∧ last ≤ end_date s ≤ last + 2 ∧
        (∀ x, x ∈ cluster ++ leave_dates s → start_date s ≤ x ≤ end_date s) ∧
        (start_date s ∈ cluster ++ leave_dates s) ∧
        (end_date s ∈ cluster ++ leave_dates s) ∧
        total_days_off s ≤ end_date s - start_date s + 1.
Proof.
  destruct (returned_suggestion_facts rows city budget)
    as (clusters & result & Hfind & Hrun & _ & _ & Hall).
  exists clusters, result. split_and!; [done | done |].
  intros s Hs.
  destruct (Hall s Hs)
    as (c & rem & a & before & after & Hc & Hok & Hb & Hrem & Hseq & Hbb & Hba & Hacc & Hem).
  destruct (emitted_counts _ rem c a before after s Hrem Hok Hseq Hbb Hba Hacc Hem)
    as (_ & _ & _ & Hlu & Htot & Hnd & _).
  pose proof (cluster_ok_length _ c Hok) as Hlen.
  assert (Hcin : ∀ x, x ∈ c ↔ a ≤ x < a + len c).
  { intros x. remember (len c) as n. rewrite Hseq. apply elem_of_seqZ. }
  assert (Hyear : ∀ x, x ∈ c → 0 ≤ x ≤ 364) by (by destruct Hok).
  assert (Hdin : ∀ x, x ∈ leave_dates s →
            0 ≤ x ≤ 364 ∧ (a - 2 ≤ x < a ∨ a + len c ≤ x ≤ a + len c + 1)).
  { intros x Hx. destruct Hem as [_ Hd _ _ _ _ _]. rewrite Hd in Hx.
    apply subseteq_take in Hx. apply py_sort_elem in Hx.
    apply elem_of_app in Hx as [Hxb | Hxa].
    - pose proof (bridge_run_elem _ _ _ _ _ Hbb Hxb). destruct Hbb as [_ Hw].
      destruct (Hw x Hxb). lia.
    - pose proof (bridge_run_elem _ _ _ _ _ Hba Hxa). destruct Hba as [_ Hw].
      destruct (Hw x Hxa). lia. }
  assert (Hne : sorted (c ++ leave_dates s) ≠ []).
  { apply sorted_nonempty. destruct c; [|done]. change (len []) with 0 in Hlen. lia. }
  destruct (py_min_spec _ Hne) as (lo & Hlo & Hlo_in & Hlo_le).
  destruct (py_max_spec _ Hne) as (hi & Hhi & Hhi_in & Hhi_ge).
  destruct Hem as [_ _ _ _ Hstart Hend _].
  rewrite Hstart in Hlo. injection Hlo as <-. rewrite Hend in Hhi. injection Hhi as <-.
  apply py_sort_elem in Hlo_in, Hhi_in.
  assert (Hbetween : ∀ x, x ∈ c ++ leave_dates s → start_date s ≤ x ≤ end_date s).
  { intros x Hx. split; [apply Hlo_le | apply Hhi_ge]; by apply py_sort_elem. }
  assert (Ha : a ∈ c) by (apply Hcin; lia).
  assert (He : a + len c - 1 ∈ c) by (apply Hcin; lia).
  pose proof (Hbetween a ltac:(apply elem_of_app; by left)).
  pose proof (Hbetween (a + len c - 1) ltac:(apply elem_of_app; by left)).
  assert (Hlo_r : 0 ≤ start_date s ∧ a - 2 ≤ start_date s).
  { apply elem_of_app in Hlo_in as [Hx | Hx].
    - apply Hcin in Hx as Hx'. specialize (Hyear _ Hx). lia.
    - destruct (Hdin _ Hx). lia. }
  assert (Hhi_r : end_date s ≤ 364 ∧ end_date s ≤ a + len c - 1 + 2).
  { apply elem_of_app in Hhi_in as [Hx | Hx].
    - apply Hcin in Hx as Hx'. specialize (Hyear _ Hx). lia.
    - destruct (Hdin _ Hx). lia. }
  exists c, a, (a + len c - 1). split_and!; try done; try lia.
  - remember (len c) as n. rewrite Hseq. apply py_min_seqZ. lia.
  - remember (len c) as n. rewrite Hseq. apply py_max_seqZ. lia.
  - rewrite Htot, Hlu, <- len_app. apply len_range_bound; [| done | done].
    destruct c; [|done]. change (len []) with 0 in Hlen. lia.
Qed.

(** X13: a returned suggestion gives between 2 and 35 days off, and its
    value is at most 32. *)
Theorem suggestion_bounds rows city budget :
  ∃ result, _find_optimal_leave_periods rows city budget = Some result ∧
    ∀ s, s ∈ result →
      2 ≤ total_days_off s ≤ 35 ∧ (value s <= 32 # 1)%Q.
Proof.
  destruct (returned_suggestion_facts rows city budget)
    as (clusters & result & Hfind & Hrun & _ & _ & Hall).
  exists result. split; [done |]. intros s Hs.
  destruct (Hall s Hs)
    as (c & rem & a & before & after & Hc & Hok & Hb & Hrem & Hseq & Hbb & Hba & Hacc & Hem).
  destruct (emitted_counts _ rem c a before after s Hrem Hok Hseq Hbb Hba Hacc Hem)
    as (H1 & H4 & _ & _ & Htot & _ & Hval & _).
  pose proof (cluster_ok_length _ c Hok) as Hlen.
  split; [lia |]. rewrite Hval. apply truediv_Qle; [lia |]. nia.
Qed.

(** The clusters of the finder are pairwise different. *)
Lemma chronological_NoDup (cal : gmap Z DayInfo) clusters :
  Forall (cluster_ok cal) clusters → chronological clusters → NoDup clusters.
Proof.
  intros Hok Hchr. apply NoDup_alt. intros i j c Hi Hj.
  assert (Hx : ∃ x, x ∈ c).
  { assert (Hc : cluster_ok cal c).
    { pose proof (proj1 (Forall_forall _ _) Hok) as Hall. apply Hall.
      by eapply list_elem_of_lookup_2. }
    pose proof (cluster_ok_length _ c Hc) as Hlen.
    destruct c as [|x c]; [change (len []) with 0 in Hlen; lia |].
    exists x. left. }
  destruct Hx as [x Hx].
  destruct (decide (i = j)) as [-> | Hne]; [done |]. exfalso.
  destruct (decide (i < j)%nat) as [Hlt | Hge].
  - pose proof (Hchr i j c c Hlt Hi Hj x x Hx Hx). lia.
  - assert (Hlt : (j < i)%nat) by lia.
    pose proof (Hchr j i c c Hlt Hj Hi x x Hx Hx). lia.
Qed.

(** The loop over the clusters appends one suggestion for each cluster
    it accepts, in the order of the clusters. *)
Lemma allocate_picked (cal : gmap Z DayInfo) clusters sugs rem sugs' rem' :
  covers_year cal → Forall (cluster_ok cal) clusters →
  allocate cal clusters (sugs, rem) = Some (sugs', rem') →
  ∃ picked new, sugs' = sugs ++ new ∧ picked `sublist_of` clusters ∧
                Forall2 (built_for cal) picked new.
Proof.
  intros Hcov Hok. revert sugs rem. induction Hok as [|c cs Hc Hcs IH]; intros sugs rem.
  - simpl. intros [= <- _]. exists [], []. rewrite app_nil_r.
    split_and!; [done | done | constructor].
  - destruct (decide (rem ≤ 0)) as [Hle | Hpos].
    { rewrite allocate_exhausted by done. intros [= <- _]. exists [], [].
      rewrite app_nil_r. split_and!; [done | apply sublist_nil_l | constructor]. }
    cbn [allocate snd]. replace (rem <=? 0) with false by (symmetry; lia).
    rewrite consider_cluster_prefix.
    destruct (consider_cluster_cases cal Hcov [] rem c Hc)
      as (a & before & after & Hseq & Hsb & Hsa & Hbb & Hba & Hcase); [lia |].
    destruct Hcase as [[_ Hrej] | [Hacc (s & Hs & Hem)]].
    + rewrite Hrej. cbn [fmap option_fmap option_map mbind option_bind fst snd].
      rewrite app_nil_r. intros Hrun.
      destruct (IH _ _ Hrun) as (picked & new & -> & Hsub & Hall).
      exists picked, new. split_and!; [done | by apply sublist_cons | done].
    + rewrite Hs. cbn [fmap option_fmap option_map mbind option_bind fst snd app].
      intros Hrun.
      destruct (IH _ _ Hrun) as (picked & new & -> & Hsub & Hall).
      exists (c :: picked), (s :: new).
      split_and!; [by rewrite <- app_assoc | by apply sublist_skip |].
      constructor; [|done]. exists rem. split; [lia | done].
Qed.

(** X14: the optimizer returns at most one suggestion per cluster.  The
    clusters of the finder are pairwise different; the suggestions
    produced are built one each, position by position, for clusters picked
    without repetition from the sorted list of the clusters, in its order;
    and the result is a rearrangement of the suggestions produced.  So
    there are at most as many suggestions as clusters, and for a
    non-negative budget at most as many as there are leave days in the
    budget. *)
Theorem suggestion_count rows city budget :
  ∃ clusters picked produced result,
    find_clusters (build_calendar rows city) = Some clusters ∧
    _find_optimal_leave_periods rows city budget = Some result ∧
    NoDup clusters ∧
    picked `sublist_of` sort_clusters clusters ∧ NoDup picked ∧
    Forall2 (built_for (build_calendar rows city)) picked produced ∧
    result ≡ₚ produced ∧
    (length result ≤ length clusters)%nat ∧
    (0 ≤ budget → Z.of_nat (length result) ≤ budget).
Proof.
  destruct (returned_suggestion_facts rows city budget)
    as (clusters & result & Hfind & Hrun & Hcount & Hbud & _).
  assert (Hcov : covers_year (build_calendar rows city)).
  { intros d Hd. by apply build_calendar_total. }
  destruct (find_clusters_inv _ Hcov) as (clusters' & Hfind' & Hok & Hchr).
  rewrite Hfind in Hfind'. injection Hfind' as <-.
  pose proof (chronological_NoDup _ _ Hok Hchr) as Hnd.
  assert (Hnd' : NoDup (sort_clusters clusters)) by (by rewrite sort_clusters_perm).
  pose proof Hrun as Hrun'. revert Hrun'. unfold _find_optimal_leave_periods, produce.
  rewrite Hfind. cbn [mbind option_bind].
  destruct (allocate _ _ _) as [[new left]|] eqn:Halloc; [|done].
  simpl. intros [= <-].
  apply allocate_picked in Halloc as (picked & new' & Hnew & Hsub & Hall);
    [| done | by rewrite sort_clusters_perm].
  simpl in Hnew. subst new'.
  exists clusters, picked, new, (sort_suggestions new).
  split_and!; [done | done | done | done | by eapply sublist_NoDup
              | done | apply sort_suggestions_perm | | ].
  - rewrite (Permutation_length (sort_suggestions_perm new)).
    rewrite <- (Forall2_length _ _ _ Hall).
    rewrite <- (Permutation_length (sort_clusters_perm clusters)).
    by apply sublist_length.
  - intros Hb. specialize (Hbud Hb). lia.
Qed.

(** X15: with a budget of zero or less the optimizer returns no
    suggestion, and does not fail. *)
Theorem no_budget_no_suggestions rows city budget :
  budget ≤ 0 → _find_optimal_leave_periods rows city budget = Some [].
Proof.
  intros Hb. destruct (find_optimal_spec rows city budget)
    as (clusters & new & _ & _ & _ & Hrun & _ & _ & Hnil).
  by rewrite Hrun, Hnil.
Qed.

Lemma no_budget_no_suggestions_witness :
  _find_optimal_leave_periods demo_rows (LStr "Mumbai") (-3) = Some [].
Proof. apply (no_budget_no_suggestions demo_rows (LStr "Mumbai") (-3)). lia. Defined.

Lemma collect_holiday_info_omap (cal : gmap Z DayInfo) c :
  (∀ d, d ∈ c → is_Some (cal !! d)) →
  collect_holiday_info cal c = Some (omap (holiday_line cal) c).
Proof.
  unfold collect_holiday_info. intros Hc.
  match goal with |- foldl_opt ?f _ _ = _ => set (step := f) end.
  assert (Hgen : ∀ acc, foldl_opt step acc c = Some (acc ++ omap (holiday_line cal) c));
    [|apply Hgen].
  induction c as [|d c IH]; intros acc; [simpl; by rewrite app_nil_r |].
  destruct (Hc d) as [info Hinfo]; [left |].
  change (foldl_opt step acc (d :: c)) with (step acc d ≫= λ a', foldl_opt step a' c).
  change (omap (holiday_line cal) (d :: c))
    with (match holiday_line cal d with
          | Some y => y :: omap (holiday_line cal) c
          | None => omap (holiday_line cal) c
          end).
  assert (Hstep : step acc d =
            Some (if bool_decide (type info = Holiday)
                  then acc ++ [strftime_d_b d +:+ ": " +:+ description info]
                  else acc)).
  { unfold step. by rewrite Hinfo. }
  rewrite Hstep. unfold holiday_line at 1. rewrite Hinfo. cbn [mbind option_bind].
  rewrite IH by (intros d' Hd'; apply Hc; by right).
  destruct (bool_decide (type info = Holiday)); [by rewrite <- app_assoc | done].
Qed.

(** X17: [holiday_info] of a returned suggestion has one line per Holiday
    date of its cluster, in the order of the dates, made of the date as
    day and month and of the holiday's description; weekend days give no
    line. *)
Theorem holiday_info_lists_cluster_holidays rows city budget :
  ∃ clusters result,
    find_clusters (build_calendar rows city) = Some clusters ∧
    _find_optimal_leave_periods rows city budget = Some result ∧
    ∀ s, s ∈ result →
      ∃ cluster, cluster ∈ clusters ∧ built_for (build_calendar rows city) cluster s ∧
        holiday_info s = omap (holiday_line (build_calendar rows city)) cluster.
Proof.
  destruct (returned_suggestion_facts rows city budget)
    as (clusters & result & Hfind & Hrun & _ & _ & Hall).
  exists clusters, result. split_and!; [done | done |].
  intros s Hs.
  destruct (Hall s Hs)
    as (c & rem & a & before & after & Hc & Hok & Hb & _ & _ & _ & _ & _ & Hem).
  exists c. split_and!; [done | done |].
  destruct Hem as [_ _ _ _ _ _ Hinfo].
  rewrite collect_holiday_info_omap in Hinfo; [by injection Hinfo as <- |].
  intros d Hd. destruct Hok as [_ Hoff _ _ _]. destruct (Hoff d Hd) as (i & -> & _). eauto.
Qed.

(** X18: the threshold in whole numbers: for a cluster of the finder and a
    positive remaining budget, the loop body leaves the state unchanged
    exactly when there is no candidate on either side or twice the length
    of the cluster is less than the candidate count; so a cluster of two
    days or more that has a candidate always yields a suggestion. *)
Theorem cluster_rejected_iff (cal : gmap Z DayInfo) clusters cluster sugs rem :
  covers_year cal → find_clusters cal = Some clusters → cluster ∈ clusters → 0 < rem →
  ∃ first last before after,
    py_min cluster = Some first ∧ py_max cluster = Some last ∧
    scan_before scan_fuel cal rem (first - 1) [] = Some before ∧
    scan_after scan_fuel cal rem (last + 1) [] = Some after ∧
    (consider_cluster cal (sugs, rem) cluster = Some (sugs, rem) ↔
       before ++ after = [] ∨
       2 * len cluster < Z.min rem (len before + len after)) ∧
    (2 ≤ len cluster → before ++ after ≠ [] →
       ∃ s, consider_cluster cal (sugs, rem) cluster =
              Some (sugs ++ [s], rem - leaves_used s)).
Proof.
  intros Hcov Hfind Hc Hrem.
  destruct (find_clusters_inv cal Hcov) as (clusters' & Hfind' & Hok & _).
  rewrite Hfind in Hfind'. injection Hfind' as <-.
  rewrite Forall_forall in Hok. specialize (Hok cluster Hc).
  destruct (consider_cluster_cases cal Hcov sugs rem cluster Hok Hrem)
    as (a & before & after & Hseq & Hsb & Hsa & Hbb & Hba & Hcase).
  pose proof (cluster_ok_length _ _ Hok) as Hlen.
  pose proof (bridge_run_len _ _ _ _ Hbb) as Hlb.
  pose proof (bridge_run_len _ _ _ _ Hba) as Hla.
  pose proof (len_nonneg before) as Hnb. pose proof (len_nonneg after) as Hna.
  exists a, (a + len cluster - 1), before, after.
  replace (a + len cluster - 1 + 1) with (a + len cluster) by lia.
  assert (Hcand : bool_decide (before ≠ []) || bool_decide (after ≠ []) = true ↔
                  before ++ after ≠ []).
  { rewrite orb_true_iff, !bool_decide_eq_true.
    destruct before, after; simpl; split; try done; auto.
    intros [? | ?]; done. }
  assert (Hacc : accepted rem cluster before after = false ↔
            before ++ after = [] ∨ 2 * len cluster < Z.min rem (len before + len after)).
  { unfold accepted, leaves_to_use_of.
    destruct (bool_decide (before ≠ []) || bool_decide (after ≠ [])) eqn:Hcd; simpl.
    - assert (Hne : before ++ after ≠ []) by (by apply Hcand).
      assert (Hk : 1 ≤ Z.min rem (len before + len after)).
      { assert (1 ≤ len (before ++ after)); [|rewrite len_app in *; lia].
        destruct (before ++ after); [done |]. unfold len. simpl. lia. }
      rewrite value_of_positive by lia.
      destruct (Qle_bool _ _) eqn:Hq.
      + apply Qle_bool_iff in Hq. apply -> Qle_truediv in Hq; [|lia].
        split; [done |]. intros [? | ?]; [done | lia].
      + split; [|done]. intros _. right.
        destruct (decide (2 * len cluster < Z.min rem (len before + len after)));
          [done | exfalso].
        assert (Hq' : Qle_bool (3 # 2)
                  (truediv (len cluster + Z.min rem (len before + len after))
                           (Z.min rem (len before + len after))) = true).
        { apply Qle_bool_iff, Qle_truediv; lia. }
        congruence.
    - split; [|done]. intros _. left.
      destruct (decide (before ++ after = [])) as [|Hne]; [done |].
      apply Hcand in Hne. congruence. }
  split_and!; [| | done | done | |].
  - remember (len cluster) as n. rewrite Hseq. apply py_min_seqZ. lia.
  - remember (len cluster) as n. rewrite Hseq. apply py_max_seqZ. lia.
  - rewrite <- Hacc. destruct Hcase as [[Hrej Hrun] | [Ha (s & Hrun & _)]].
    + by rewrite Hrun.
    + rewrite Hrun, Ha. split; [|done]. intros [= Hs _]. exfalso.
      apply (f_equal length) in Hs. rewrite length_app in Hs. simpl in Hs. lia.
  - intros H2 Hne. destruct Hcase as [[Hrej Hrun] | [Ha (s & Hrun & _)]]; [|eauto].
    apply Hacc in Hrej as [? | ?]; [done | lia].
Qed.

Lemma cluster_rejected_iff_witness :
  ∃ first last before after,
    py_min [274] = Some first ∧ py_max [274] = Some last ∧
    scan_before scan_fuel (build_calendar demo_rows (LStr "Mumbai")) 5 (first - 1) [] = Some before ∧
    scan_after scan_fuel (build_calendar demo_rows (LStr "Mumbai")) 5 (last + 1) [] = Some after ∧
    (consider_cluster (build_calendar demo_rows (LStr "Mumbai")) ([], 5) [274] = Some ([], 5) ↔
       before ++ after = [] ∨
       2 * len [274] < Z.min 5 (len before + len after)) ∧
    (2 ≤ len [274] → before ++ after ≠ [] →
       ∃ s, consider_cluster (build_calendar demo_rows (LStr "Mumbai")) ([], 5) [274] =
              Some ([] ++ [s], 5 - leaves_used s)).
Proof.
  apply (cluster_rejected_iff (build_calendar demo_rows (LStr "Mumbai"))
           (default [] (find_clusters (build_calendar demo_rows (LStr "Mumbai"))))
           [274] [] 5).
  - intros d Hd. apply build_calendar_total, Hd.
  - vm_compute. reflexivity.
  - apply (bool_decide_unpack _). vm_compute. exact I.
  - lia.
Defined.

(** ** The plan assembler: results per employee *)

Lemma find_match_elem city cities m : find_match city cities = Some m → m ∈ cities.
Proof.
  intros (pre & post & -> & _)%find_match_Some. apply elem_of_app. right. left.
Qed.

Section AssemblerMoreFacts.

Context {builtins : PyBuiltins}.

Variable cities : list Label.
Variable optimizer : Label → Z → option (list LeaveSuggestion).

(** What the loop body appends does not depend on the results and prints
    before it. *)
Lemma plan_employee_prefix results printed e :
  plan_employee cities optimizer (results, printed) e =
  (λ st, (results ++ st.1, printed ++ st.2)) <$> plan_employee cities optimizer ([], []) e.
Proof.
  unfold plan_employee. destruct (resolve_leaves e) as [[n warned]|]; [|done].
  cbn [mbind option_bind].
  case_bool_decide.
  - destruct (find_match _ _) as [m|].
    + destruct (truthy m).
      * destruct (optimizer m n); simpl; [|done]. by rewrite <- !app_assoc.
      * simpl. by rewrite <- !app_assoc.
    + simpl. by rewrite <- !app_assoc.
  - by destruct (optimizer _ n).
Qed.

Lemma generate_prefix emps results printed :
  foldl_opt (plan_employee cities optimizer) (results, printed) emps =
  (λ st, (results ++ st.1, printed ++ st.2)) <$>
    foldl_opt (plan_employee cities optimizer) ([], []) emps.
Proof.
  revert results printed. induction emps as [|e emps IH]; intros results printed.
  - simpl. by rewrite !app_nil_r.
  - cbn [foldl_opt]. rewrite plan_employee_prefix.
    destruct (plan_employee cities optimizer ([], []) e) as [[r1 p1]|]; [|done].
    cbn [fmap option_fmap option_map mbind option_bind fst snd].
    rewrite (IH (results ++ r1)), (IH r1).
    destruct (foldl_opt _ ([], []) emps) as [[r2 p2]|]; [|done].
    simpl. by rewrite !app_assoc.
Qed.

(** The result the loop body appends for an employee. *)
Lemma plan_employee_single e st :
  plan_employee cities optimizer ([], []) e = Some st →
  ∃ r, st.1 = [r] ∧ balance_handled e ∧
       Employee_Name r = emp_name e ∧ Employee_ID r = emp_id e ∧
       (planned_for cities optimizer e r ∨ not_found_for cities e r).
Proof.
  unfold plan_employee, planned_for, not_found_for.
  destruct (resolve_leaves e) as [[n warned]|] eqn:Hres; [|done].
  apply resolve_leaves_inv in Hres as (Hok & Hn & _). rewrite <- Hn. clear Hn.
  cbn [mbind option_bind].
  case_bool_decide as Hin.
  - destruct (find_match _ _) as [m|] eqn:Hm.
    + destruct (truthy m).
      * destruct (optimizer m n) as [sugs|] eqn:Hopt; simpl; [|done].
        intros [= <-]. eexists. split_and!; [done | done | done | done |].
        left. simpl. split_and!; [done | by eapply find_match_elem | done | done].
      * intros [= <-]. eexists. split_and!; [done | done | done | done |]. by right.
    + intros [= <-]. eexists. split_and!; [done | done | done | done |]. by right.
  - destruct (optimizer _ n) as [sugs|] eqn:Hopt; simpl; [|done].
    intros [= <-]. eexists. split_and!; [done | done | done | done |].
    left. simpl. split_and!; done.
Qed.

Lemma generate_shape emps results printed :
  generate_leave_plans_with cities optimizer emps = Some (results, printed) →
  Forall2 (λ e r, balance_handled e ∧
                  Employee_Name r = emp_name e ∧ Employee_ID r = emp_id e ∧
                  (planned_for cities optimizer e r ∨ not_found_for cities e r))
          emps results.
Proof.
  unfold generate_leave_plans_with. revert results printed.
  induction emps as [|e emps IH]; intros results printed.
  - simpl. intros [= <- <-]. constructor.
  - cbn [foldl_opt].
    destruct (plan_employee cities optimizer ([], []) e) as [[r1 p1]|] eqn:H1; [|done].
    cbn [mbind option_bind]. rewrite generate_prefix.
    destruct (foldl_opt _ ([], []) emps) as [[r2 p2]|] eqn:H2; [|done].
    simpl. intros [= <- <-].
    destruct (plan_employee_single e _ H1) as (r & Hr & Hfacts). simpl in Hr. subst r1.
    simpl. constructor; [done |]. by eapply IH.
Qed.

(** The run returns when [int] is handled at each employee and the
    optimizer returns. *)
Lemma generate_total emps :
  (∀ c n, is_Some (optimizer c n)) →
  Forall balance_handled emps →
  is_Some (generate_leave_plans_with cities optimizer emps).
Proof.
  intros Hopt Hok. unfold generate_leave_plans_with.
  induction Hok as [|e emps He _ IH]; [by eexists |].
  cbn [foldl_opt].
  destruct (plan_employee_total cities optimizer [] [] e He) as (r & p & -> & _);
    [by intros c |].
  cbn [mbind option_bind]. rewrite generate_prefix.
  destruct IH as [st ->]. by eexists.
Qed.

End AssemblerMoreFacts.

(** X19: [generate_leave_plans] returns exactly when the leave cell of
    no employee makes [int] raise an exception that is not caught; the run
    that returns has one result per employee, in the order of the
    employees, carrying each employee's name and id. *)
Theorem one_result_per_employee {builtins : PyBuiltins} rows cities emps :
  (is_Some (generate_leave_plans rows cities emps) ↔ Forall balance_handled emps) ∧
  ∀ results printed,
    generate_leave_plans rows cities emps = Some (results, printed) →
    length results = length emps ∧
    Employee_Name <$> results = emp_name <$> emps ∧
    Employee_ID <$> results = emp_id <$> emps.
Proof.
  split.
  - split.
    + intros [[results printed] Hrun]. apply generate_shape in Hrun.
      induction Hrun as [|e r emps results (Hok & _) _ IH]; by constructor.
    + intros Hok. apply generate_total; [|done]. intros c n. apply find_optimal_total.
  - intros results printed Hrun. apply generate_shape in Hrun.
    induction Hrun as [|e r emps results (_ & Hn & Hi & _) Hrest (IH1 & IH2 & IH3)]; [done |].
    rewrite !fmap_cons. simpl.
    split_and!; [by rewrite IH1 | by rewrite Hn, IH2 | by rewrite Hi, IH3].
Qed.

Section ResultFacts.

Context {builtins : PyBuiltins}.

(** X20: whatever the optimizer, each result of a run that returns is of
    one of two shapes.  Either it has no status, its city is a member of the
    list of cities, and it carries the employee's budget and the
    suggestions the optimizer returned for that city and budget; or it is
    the error result, with a status, no leave balance and no suggestion,
    and the employee's city is not a member of the list. *)
Theorem result_shapes cities optimizer emps results printed :
  generate_leave_plans_with cities optimizer emps = Some (results, printed) →
  Forall2 (λ e r,
      (Status r = None ∧ City r ∈ cities ∧
       Available_Leaves r = Some (budget_of e) ∧
       optimizer (City r) (budget_of e) = Some (Suggestions r)) ∨
      (Status r = Some (city_error_status (str_of_cell (emp_city e))) ∧
       City r = LStr (str_of_cell (emp_city e)) ∧ (City r ∉ cities) ∧
       Available_Leaves r = None ∧ Suggestions r = []))
    emps results.
Proof.
  intros Hrun%generate_shape.
  eapply Forall2_impl; [exact Hrun |]. intros e r (_ & _ & _ & [Hp | [-> Hn]]); [by left |].
  right. by split_and!.
Qed.

End ResultFacts.

Section SampleRun.

#[local] Existing Instance sample_builtins.

Lemma result_shapes_witness :
  Forall2 (λ e r,
      (Status r = None ∧ City r ∈ [LStr "Mumbai"; LStr "Delhi"] ∧
       Available_Leaves r = Some (budget_of e) ∧
       _find_optimal_leave_periods demo_rows (City r) (budget_of e) = Some (Suggestions r)) ∨
      (Status r = Some (city_error_status (str_of_cell (emp_city e))) ∧
       City r = LStr (str_of_cell (emp_city e)) ∧ (City r ∉ [LStr "Mumbai"; LStr "Delhi"]) ∧
       Available_Leaves r = None ∧ Suggestions r = []))
    [employee_na; employee_atlantis]
    (default ([], []) (generate_leave_plans demo_rows [LStr "Mumbai"; LStr "Delhi"]
                         [employee_na; employee_atlantis])).1.
Proof.
  apply (result_shapes [LStr "Mumbai"; LStr "Delhi"] (_find_optimal_leave_periods demo_rows)
           [employee_na; employee_atlantis] _
           (default ([], []) (generate_leave_plans demo_rows [LStr "Mumbai"; LStr "Delhi"]
                                [employee_na; employee_atlantis])).2).
  vm_compute. reflexivity.
Defined.

End SampleRun.

Section ComposeFacts.

Context {builtins : PyBuiltins}.

(** X21: employees are planned independently of one another: the results
    and prints of a list of employees are those of its first part followed
    by those of its second part, each planned on its own. *)
Theorem plans_compose cities optimizer emps1 emps2 :
  generate_leave_plans_with cities optimizer (emps1 ++ emps2) =
    st1 ← generate_leave_plans_with cities optimizer emps1;
    st2 ← generate_leave_plans_with cities optimizer emps2;
    Some (st1.1 ++ st2.1, st1.2 ++ st2.2).
Proof.
  unfold generate_leave_plans_with. rewrite foldl_opt_app.
  destruct (foldl_opt _ _ emps1) as [[r1 p1]|]; [|done].
  cbn [mbind option_bind fst snd]. rewrite generate_prefix.
  by destruct (foldl_opt _ _ emps2) as [[r2 p2]|].
Qed.

End ComposeFacts.

(** ** Column detection *)

Lemma first_known_name_Some names columns name :
  first_known_name names columns = Some name ↔
  ∃ pre post, names = pre ++ name :: post ∧ LStr name ∈ columns ∧
              ∀ n, n ∈ pre → LStr n ∉ columns.
Proof.
  induction names as [|x names IH]; simpl.
  - split; [done |]. intros (pre & post & Heq & _). by destruct pre.
  - case_bool_decide as Hx.
    + split.
      * intros [= ->]. exists [], names. split_and!; [done | done | by intros ? ?%elem_of_nil].
      * intros ([|p pre] & post & Heq & Hm & Hpre); simplify_eq/=; [done |].
        destruct (Hpre p); [left | done].
    + rewrite IH. split.
      * intros (pre & post & -> & Hm & Hpre). exists (x :: pre), post.
        split_and!; [done | done |]. intros n [-> | Hn]%elem_of_cons; auto.
      * intros ([|p pre] & post & Heq & Hm & Hpre); simplify_eq/=; [done |].
        exists pre, post. split_and!; [done | done |]. intros n Hn. apply Hpre. by right.
Qed.

Lemma first_known_name_None names columns :
  first_known_name names columns = None ↔ ∀ n, n ∈ names → LStr n ∉ columns.
Proof.
  induction names as [|x names IH]; simpl.
  - split; [by intros _ ? ?%elem_of_nil | done].
  - case_bool_decide as Hx.
    + split; [done |]. intros H. destruct (H x); [left | done].
    + rewrite IH. split.
      * intros H n [-> | Hn]%elem_of_cons; auto.
      * intros H n Hn. apply H. by right.
Qed.

(** X22: [_find_column] fails only on a frame without columns.  Otherwise
    it returns a column of the frame: the first of the possible names that
    is a column, in the order of the names and whatever the order of the
    columns, without a warning; or, when none of the names is a column, the
    first column of the frame, with a warning. *)
Theorem find_column_spec names columns :
  match _find_column names columns with
  | None => columns = []
  | Some (col, printed) =>
      col ∈ columns ∧
      ((printed = [] ∧
        ∃ pre name post, names = pre ++ name :: post ∧ col = LStr name ∧
                         ∀ n, n ∈ pre → LStr n ∉ columns) ∨
       (printed = [Warning_no_column names col] ∧ columns !! 0%nat = Some col ∧
        ∀ n, n ∈ names → LStr n ∉ columns))
  end.
Proof.
  unfold _find_column. destruct (first_known_name names columns) as [name|] eqn:Hf.
  - apply first_known_name_Some in Hf as (pre & post & -> & Hin & Hpre).
    split; [done |]. left. split; [done |]. by exists pre, name, post.
  - destruct columns as [|c columns]; simpl; [done |].
    split; [left |]. right. split_and!; [done | done |].
    by apply first_known_name_None.
Qed.

(** ** The report *)

Lemma output_rows_concat results :
  output_rows results = concat (employee_rows <$> results).
Proof.
  unfold output_rows.
  assert (Hgen : ∀ acc, foldl (λ rows employee, rows ++ employee_rows employee) acc results =
                        acc ++ concat (employee_rows <$> results)); [|apply (Hgen [])].
  induction results as [|r results IH]; intros acc; simpl; [by rewrite app_nil_r |].
  by rewrite IH, app_assoc.
Qed.

Lemma employee_rows_length r : (1 ≤ length (employee_rows r) ≤ 3)%nat.
Proof.
  unfold employee_rows. case_bool_decide as Hs; [simpl; lia |].
  rewrite length_imap, length_take. destruct (Suggestions r); [done |].
  cbn [length]. lia.
Qed.

(** X23: every employee has between one and three rows in the report: the
    rows of a list of results are the rows of each result, in order, so
    that the report has at least as many rows as there are results and at
    most three times as many. *)
Theorem report_row_count results1 results2 :
  output_rows (results1 ++ results2) = output_rows results1 ++ output_rows results2 ∧
  (length results1 ≤ length (output_rows results1) ≤ 3 * length results1)%nat ∧
  ∀ r, length (employee_rows r) =
       if bool_decide (Suggestions r = []) then 1%nat
       else Nat.min 3 (length (Suggestions r)).
Proof.
  split; [|split].
  - by rewrite !output_rows_concat, fmap_app, concat_app.
  - rewrite output_rows_concat. induction results1 as [|r l IH]; [simpl; lia |].
    rewrite fmap_cons. cbn [concat length]. rewrite length_app.
    pose proof (employee_rows_length r). lia.
  - intros r. unfold employee_rows. case_bool_decide; [done |].
    by rewrite length_imap, length_take.
Qed.



Lemma report_leaves_option_rows r (l : list LeaveSuggestion) (k : nat) :
  report_leaves (imap (λ i, option_row r (k + i)) l) = total_leaves l.
Proof.
  revert k. induction l as [|s l IH]; intros k; [done |].
  rewrite imap_cons. simpl. unfold row_leaves at 1. simpl. f_equal.
  rewrite <- (IH (S k)). f_equal. apply imap_ext. intros i x _. simpl. f_equal. lia.
Qed.

Lemma total_leaves_take (l : list LeaveSuggestion) n :
  Forall (λ s, 0 ≤ leaves_used s) l → total_leaves (take n l) ≤ total_leaves l.
Proof.
  intros Hl. revert n. induction Hl as [|s l Hs Hl IH]; intros [|n]; simpl; try lia.
  - clear -Hs Hl. induction Hl; simpl in *; lia.
  - specialize (IH n). lia.
Qed.

Lemma returned_leaves rows city budget result :
  _find_optimal_leave_periods rows city budget = Some result →
  Forall (λ s, 0 ≤ leaves_used s) result ∧ (0 ≤ budget → total_leaves result ≤ budget).
Proof.
  intros Hrun.
  destruct (returned_suggestion_facts rows city budget)
    as (clusters & result' & _ & Hrun' & _ & Hbud & Hall).
  rewrite Hrun in Hrun'. injection Hrun' as <-. split; [|done].
  apply Forall_forall. intros s Hs.
  destruct (Hall s Hs)
    as (c & rem & a & before & after & Hc & Hok & Hb & Hrem & Hseq & Hbb & Hba & Hacc & Hem).
  destruct (emitted_counts _ rem c a before after s Hrem Hok Hseq Hbb Hba Hacc Hem)
    as (H1 & _). lia.
Qed.

(** X25: in a run that returns, the leave days asked for by the rows
    the report holds for an employee never add up to more than the
    employee's budget, when that is not negative. *)
Theorem report_leaves_within_budget {builtins : PyBuiltins} rows cities emps results printed :
  generate_leave_plans rows cities emps = Some (results, printed) →
  Forall2 (λ e r, 0 ≤ budget_of e → report_leaves (employee_rows r) ≤ budget_of e)
          emps results.
Proof.
  intros Hrun. apply generate_shape in Hrun.
  eapply Forall2_impl; [exact Hrun |].
  intros e r (_ & _ & _ & [(_ & _ & _ & Hopt) | [-> _]]) Hb.
  - unfold employee_rows. case_bool_decide; [simpl; unfold row_leaves; simpl; lia |].
    destruct (returned_leaves _ _ _ _ Hopt) as [Hpos Hsum].
    rewrite (report_leaves_option_rows r _ 0).
    pose proof (total_leaves_take _ 3 Hpos). specialize (Hsum Hb). lia.
  - simpl. unfold row_leaves. simpl. lia.
Qed.

Section SampleReport.

#[local] Existing Instance sample_builtins.

Lemma report_leaves_within_budget_witness :
  Forall2 (λ e r, 0 ≤ budget_of e → report_leaves (employee_rows r) ≤ budget_of e)
    [employee_na; employee_negative; employee_atlantis]
    (default ([], []) (generate_leave_plans demo_rows [LStr "Mumbai"; LStr "Delhi"]
                         [employee_na; employee_negative; employee_atlantis])).1.
Proof.
  apply (report_leaves_within_budget demo_rows [LStr "Mumbai"; LStr "Delhi"]
           [employee_na; employee_negative; employee_atlantis] _
           (default ([], []) (generate_leave_plans demo_rows [LStr "Mumbai"; LStr "Delhi"]
              [employee_na; employee_negative; employee_atlantis])).2).
  vm_compute. reflexivity.
Defined.

End SampleReport.

Lemma detect_cities_spec columns col :
  col ∈ detect_cities columns ↔ col ∈ columns ∧ col ∉ fixed_columns.
Proof. unfold detect_cities. rewrite list_elem_of_filter. tauto. Qed.

(** ** Unbroken periods *)

Lemma bridge_before_elems cal a before x :
  bridge_run cal (a - 1) (-1) before → x ∈ before ↔ a - len before ≤ x < a.
Proof.
  intros [Hp _]. apply prefix_two in Hp as [-> | [-> | ->]].
  - change (len []) with 0. split; [by intros ?%elem_of_nil | lia].
  - change (len [a - 1]) with 1. rewrite list_elem_of_singleton. lia.
  - change (len [a - 1; a - 1 + -1]) with 2.
    rewrite elem_of_cons, list_elem_of_singleton. lia.
Qed.

Lemma bridge_after_elems cal e after x :
  bridge_run cal e 1 after → x ∈ after ↔ e ≤ x < e + len after.
Proof.
  intros [Hp _]. apply prefix_two in Hp as [-> | [-> | ->]].
  - change (len []) with 0. split; [by intros ?%elem_of_nil | lia].
  - change (len [e]) with 1. rewrite list_elem_of_singleton. lia.
  - change (len [e; e + 1]) with 2.
    rewrite elem_of_cons, list_elem_of_singleton. lia.
Qed.

(** X27: when the remaining budget covers every candidate found around a
    cluster of the finder, the suggestion built for it is one unbroken run
    of days: it starts on the earliest candidate before the cluster (or on
    the cluster's first date), ends on the latest candidate after it (or on
    its last date), and [total_days_off] counts every day from
    [start_date] to [end_date]. *)
Theorem covered_candidates_unbroken_period (cal : gmap Z DayInfo) clusters cluster sugs rem :
  covers_year cal → find_clusters cal = Some clusters → cluster ∈ clusters → 0 < rem →
  ∃ first last before after,
    py_min cluster = Some first ∧ py_max cluster = Some last ∧
    scan_before scan_fuel cal rem (first - 1) [] = Some before ∧
    scan_after scan_fuel cal rem (last + 1) [] = Some after ∧
    ∀ s left,
      consider_cluster cal (sugs, rem) cluster = Some (sugs ++ [s], left) →
      len before + len after ≤ rem →
      start_date s = first - len before ∧
      end_date s = last + len after ∧
      leaves_used s = len before + len after ∧
      total_days_off s = end_date s - start_date s + 1.
Proof.
  intros Hcov Hfind Hc Hrem.
  destruct (find_clusters_inv cal Hcov) as (clusters' & Hfind' & Hok & _).
  rewrite Hfind in Hfind'. injection Hfind' as <-.
  rewrite Forall_forall in Hok. specialize (Hok cluster Hc).
  destruct (consider_cluster_cases cal Hcov sugs rem cluster Hok Hrem)
    as (a & before & after & Hseq & Hsb & Hsa & Hbb & Hba & Hcase).
  pose proof (cluster_ok_length _ _ Hok) as Hlen.
  pose proof (len_nonneg before) as Hnb. pose proof (len_nonneg after) as Hna.
  exists a, (a + len cluster - 1), before, after.
  replace (a + len cluster - 1 + 1) with (a + len cluster) by lia.
  split_and!; [| | done | done |].
  - remember (len cluster) as n. rewrite Hseq. apply py_min_seqZ. lia.
  - remember (len cluster) as n. rewrite Hseq. apply py_max_seqZ. lia.
  - intros s left Hrun Hbudget.
    destruct Hcase as [[_ Hrej] | [Hacc (s' & Hs' & Hem)]].
    { rewrite Hrej in Hrun. injection Hrun as Hl _. exfalso.
      apply (f_equal length) in Hl. rewrite length_app in Hl. simpl in Hl. lia. }
    rewrite Hs' in Hrun. injection Hrun as Hl _. apply app_inv_head in Hl.
    injection Hl as ->.
    destruct Hem as [Hused Hdates Htotal _ Hstart Hend _].
    assert (Hk : leaves_to_use_of rem before after = len before + len after).
    { unfold leaves_to_use_of. lia. }
    rewrite Hk in Hused, Hdates.
    assert (Hall : leave_dates s = sorted (before ++ after)).
    { rewrite Hdates. apply take_ge. unfold sorted. rewrite py_sort_length, length_app.
      unfold len. lia. }
    assert (Hmem : ∀ x, x ∈ sorted (cluster ++ leave_dates s) ↔
                        a - len before ≤ x < a + len cluster + len after).
    { intros x.
      assert (Hxc : x ∈ cluster ↔ a ≤ x < a + len cluster).
      { remember (len cluster) as n. rewrite Hseq. apply elem_of_seqZ. }
      unfold sorted at 1. rewrite py_sort_elem, elem_of_app, Hall.
      unfold sorted. rewrite py_sort_elem, elem_of_app.
      rewrite (bridge_before_elems _ _ _ _ Hbb), (bridge_after_elems _ _ _ _ Hba), Hxc.
      lia. }
    assert (Hne : sorted (cluster ++ leave_dates s) ≠ []).
    { apply sorted_nonempty. destruct cluster; [|done]. change (len []) with 0 in Hlen. lia. }
    destruct (py_min_spec _ Hne) as (lo & Hlo & Hlo_in & Hlo_le).
    destruct (py_max_spec _ Hne) as (hi & Hhi & Hhi_in & Hhi_ge).
    rewrite Hstart in Hlo. injection Hlo as <-. rewrite Hend in Hhi. injection Hhi as <-.
    apply Hmem in Hlo_in, Hhi_in.
    specialize (Hlo_le (a - len before)). rewrite Hmem in Hlo_le.
    specialize (Hhi_ge (a + len cluster + len after - 1)). rewrite Hmem in Hhi_ge.
    assert (Htot : total_days_off s = len cluster + len before + len after).
    { rewrite Htotal, len_sorted, len_app, Hall, len_sorted, len_app. lia. }
    lia.
Qed.

Lemma covered_candidates_unbroken_period_witness :
  ∃ first last before after,
    py_min [226; 227; 228] = Some first ∧ py_max [226; 227; 228] = Some last ∧
    scan_before scan_fuel (build_calendar demo_rows (LStr "Mumbai")) 5 (first - 1) [] = Some before ∧
    scan_after scan_fuel (build_calendar demo_rows (LStr "Mumbai")) 5 (last + 1) [] = Some after ∧
    ∀ s left,
      consider_cluster (build_calendar demo_rows (LStr "Mumbai")) ([], 5) [226; 227; 228] =
        Some ([] ++ [s], left) →
      len before + len after ≤ 5 →
      start_date s = first - len before ∧
      end_date s = last + len after ∧
      leaves_used s = len before + len after ∧
      total_days_off s = end_date s - start_date s + 1.
Proof.
  apply (covered_candidates_unbroken_period (build_calendar demo_rows (LStr "Mumbai"))
           (default [] (find_clusters (build_calendar demo_rows (LStr "Mumbai"))))
           [226; 227; 228] [] 5).
  - intros d Hd. apply build_calendar_total, Hd.
  - vm_compute. reflexivity.
  - apply (bool_decide_unpack _). vm_compute. exact I.
  - lia.
Defined.
